(** * Clinic back-office (Flask application): shallow embedding and properties

    The development follows [src/models.py] (the four tables) and
    [src/app.py] (forms, routes).  Library behaviour the handlers rely on
    (Flask routing, Flask-Login, WTForms validators, Flask-SQLAlchemy
    queries, [datetime.strptime] / [strftime]) is written out next to the
    place where the application calls it.

    Conventions.
    - Text is [string], read as UTF-8: lengths, digits and blanks are
      those of its code points, as Python counts and classifies them.
    - A table is the list of its rows in rowid order, which is the order
      in which an unordered [SELECT] of the default SQLite store returns
      them.
    - Keys are the 64-bit integers of SQLite.  The id of a URL is any
      natural number; the lookup of an id above [max_int64] raises
      [OverflowError] when the id is bound (status 500).  The views are
      written for an id up to [max_int64], and [bound_id] answers a
      larger one where [view] calls them: what is stated of a view and an
      id the table does not hold is stated for an id up to [max_int64].
    - A view is a function from the tables and the request, which carries
      the user id of the session cookie, to a response, the messages it
      flashes, the new tables and the new user id of the session.
    - A commit that the store refuses (a NOT NULL column left unset) ends
      the request with status 500 and the tables as they were.
    - [strftime] writes the year as the C library of the server does
      (glibc): in decimal, not padded. *)

From Stdlib Require Import ZArith List String Ascii Bool Lia Permutation.
Import ListNotations.
Local Open Scope string_scope.
Local Open Scope list_scope.
Local Open Scope Z_scope.

(* ================================================================== *)
(** ** Python date and time values *)

Definition orelse {A : Type} (x y : option A) : option A :=
  match x with
  | Some _ => x
  | None => y
  end.

Definition is_leap (y : Z) : bool :=
  ((y mod 4 =? 0) && negb (y mod 100 =? 0)) || (y mod 400 =? 0).

Definition days_in_month (y m : Z) : Z :=
  if m =? 2 then (if is_leap y then 29 else 28)
  else if (m =? 4) || (m =? 6) || (m =? 9) || (m =? 11) then 30
  else 31.

Module date.
Record t : Type := mk { year : Z; month : Z; day : Z }.

(** The constructor [date(year, month, day)] raises [ValueError] outside
    these bounds ([MINYEAR = 1], [MAXYEAR = 9999]). *)
Definition valid (d : t) : bool :=
  (1 <=? year d) && (year d <=? 9999) &&
  (1 <=? month d) && (month d <=? 12) &&
  (1 <=? day d) && (day d <=? days_in_month (year d) (month d)).

Definition eqb (a b : t) : bool :=
  (year a =? year b) && (month a =? month b) && (day a =? day b).
End date.

Module datetime.
Record t : Type := mk {
  year : Z; month : Z; day : Z;
  hour : Z; minute : Z; second : Z; microsecond : Z
}.

(** [datetime.date()] *)
Definition date (x : t) : date.t := date.mk (year x) (month x) (day x).

Definition valid (x : t) : bool :=
  date.valid (date x) &&
  (0 <=? hour x) && (hour x <=? 23) &&
  (0 <=? minute x) && (minute x <=? 59) &&
  (0 <=? second x) && (second x <=? 59) &&
  (0 <=? microsecond x) && (microsecond x <=? 999999).

(** Chronological comparison, field by field. *)
Definition key (x : t) : list Z :=
  [year x; month x; day x; hour x; minute x; second x; microsecond x].

Fixpoint lex_ltb (a b : list Z) : bool :=
  match a, b with
  | x :: a', y :: b' => (x <? y) || ((x =? y) && lex_ltb a' b')
  | _, _ => false
  end.

Definition ltb (x y : t) : bool := lex_ltb (key x) (key y).
End datetime.

(* ------------------------------------------------------------------ *)
(** *** Text

    A [string] holds a text in UTF-8, the encoding of the source files
    and of the request body; Python sees a text as the sequence of its
    code points. *)

Definition code (c : ascii) : Z := Z.of_nat (nat_of_ascii c).

(** The first byte of a character: how many bytes follow it and the bits
    it carries.  A byte that cannot start a character stands for U+FFFD,
    as in a body decoded with [errors='replace']. *)
Definition lead (b : Z) : nat * Z :=
  if b <? 128 then (0%nat, b)
  else if (192 <=? b) && (b <? 224) then (1%nat, b - 192)
  else if (224 <=? b) && (b <? 240) then (2%nat, b - 224)
  else if (240 <=? b) && (b <? 248) then (3%nat, b - 240)
  else (0%nat, 65533).

(** [need] bytes are awaited to end the character begun with [acc]. *)
Fixpoint decode (need : nat) (acc : Z) (s : string) : list Z :=
  match s with
  | EmptyString =>
      match need with
      | O => []
      | S _ => [65533]
      end
  | String c rest =>
      let b := code c in
      let start :=
        match lead b with
        | (O, v) => v :: decode 0 0 rest
        | (S n, v) => decode (S n) v rest
        end in
      match need with
      | O => start
      | S n =>
          if (128 <=? b) && (b <? 192) then
            match n with
            | O => (64 * acc + (b - 128)) :: decode 0 0 rest
            | S _ => decode n (64 * acc + (b - 128)) rest
            end
          else 65533 :: start
      end
  end.

Definition code_points (s : string) : list Z := decode 0 0 s.

(** [len(s)] *)
Definition len (s : string) : Z := Z.of_nat (List.length (code_points s)).

(** The text of characters below 128. *)
Definition ascii_text (l : list Z) : string :=
  fold_right (fun c s => String (ascii_of_nat (Z.to_nat c)) s) EmptyString l.

(** The digits zero of Unicode 14.0, the version of the character
    database of Python 3.11: a character of category Nd is one of these
    or one of the nine that follow it, which are its digits 1 to 9. *)
Definition decimal_zeros : list Z :=
  [48; 1632; 1776; 1984; 2406; 2534; 2662; 2790; 2918; 3046; 3174; 3302;
   3430; 3558; 3664; 3792; 3872; 4160; 4240; 6112; 6160; 6470; 6608; 6784;
   6800; 6992; 7088; 7232; 7248; 42528; 43216; 43264; 43472; 43504; 43600;
   44016; 65296; 66720; 68912; 69734; 69872; 69942; 70096; 70384; 70736;
   70864; 71248; 71360; 71472; 71904; 72016; 72784; 73040; 73120; 92768;
   92864; 93008; 120782; 120792; 120802; 120812; 120822; 123200; 123632;
   125264; 130032].

(** The value of a decimal digit: what [\d] matches and [int] reads. *)
Definition decimal (c : Z) : option Z :=
  match find (fun z => (z <=? c) && (c <=? z + 9)) decimal_zeros with
  | Some z => Some (c - z)
  | None => None
  end.

(** The digits a pattern asks for. *)
Inductive digits : Type :=
| any_digit                 (* \d *)
| between (lo hi : Z).      (* [lo-hi]; a digit written out when lo = hi *)

Definition digit_in (cl : digits) (c : Z) : option Z :=
  match cl with
  | any_digit => decimal c
  | between lo hi =>
      let v := c - 48 in
      if (lo <=? v) && (v <=? hi) then Some v else None
  end.

(** [str.isspace]: the characters [\s] matches and [str.strip] removes. *)
Definition is_space (c : Z) : bool :=
  ((9 <=? c) && (c <=? 13)) || ((28 <=? c) && (c <=? 32)) ||
  (c =? 133) || (c =? 160) || (c =? 5760) ||
  ((8192 <=? c) && (c <=? 8202)) || (c =? 8232) || (c =? 8233) ||
  (c =? 8239) || (c =? 8287) || (c =? 12288).

(* ------------------------------------------------------------------ *)
(** *** [strptime]

    [_strptime] turns the format into a regular expression, one named
    group per directive and [\s+] for blanks, matches it at the start of
    the text, raises [ValueError] when text remains after the match, and
    builds the value from the groups with [int].  The groups are written
    here as matchers in continuation style: alternatives are tried in the
    order of the pattern and a later one is tried when the rest of the
    expression fails after an earlier one, as the backtracking matcher
    does. *)

Section Matchers.
Context {A : Type}.
Definition matcher : Type := list Z -> (Z -> list Z -> option A) -> option A.

Definition one (cl : digits) : matcher := fun s k =>
  match s with
  | c :: rest =>
      match digit_in cl c with
      | Some v => k v rest
      | None => None
      end
  | [] => None
  end.

Definition two (cl1 cl2 : digits) : matcher := fun s k =>
  match s with
  | c1 :: c2 :: rest =>
      match digit_in cl1 c1, digit_in cl2 c2 with
      | Some a, Some b => k (10 * a + b) rest
      | _, _ => None
      end
  | _ => None
  end.

Definition alt (p q : matcher) : matcher := fun s k => orelse (p s k) (q s k).

Definition lit (c : Z) (s : list Z) (k : list Z -> option A) : option A :=
  match s with
  | c' :: rest => if c =? c' then k rest else None
  | [] => None
  end.

(** [%Y]: [\d\d\d\d] *)
Definition re_Y : matcher := fun s k =>
  match s with
  | a :: b :: c :: d :: rest =>
      match decimal a, decimal b, decimal c, decimal d with
      | Some a, Some b, Some c, Some d => k (1000 * a + 100 * b + 10 * c + d) rest
      | _, _, _, _ => None
      end
  | _ => None
  end.

(** [%m]: [1[0-2]|0[1-9]|[1-9]] *)
Definition re_m : matcher :=
  alt (two (between 1 1) (between 0 2))
    (alt (two (between 0 0) (between 1 9)) (one (between 1 9))).

(** [%d]: [3[0-1]|[1-2]\d|0[1-9]|[1-9]| [1-9]] *)
Definition re_d : matcher :=
  alt (two (between 3 3) (between 0 1))
    (alt (two (between 1 2) any_digit)
      (alt (two (between 0 0) (between 1 9))
        (alt (one (between 1 9))
          (fun s k => lit 32 s (fun rest => one (between 1 9) rest k))))).

(** [%H]: [2[0-3]|[0-1]\d|\d] *)
Definition re_H : matcher :=
  alt (two (between 2 2) (between 0 3))
    (alt (two (between 0 1) any_digit) (one any_digit)).

(** [%M]: [[0-5]\d|\d] *)
Definition re_M : matcher := alt (two (between 0 5) any_digit) (one any_digit).

(** [\s*] and [\s+], greedy. *)
Fixpoint re_spaces (s : list Z) (k : list Z -> option A) : option A :=
  match s with
  | c :: rest => if is_space c then orelse (re_spaces rest k) (k s) else k s
  | [] => k s
  end.

Definition re_spaces1 (s : list Z) (k : list Z -> option A) : option A :=
  match s with
  | c :: rest => if is_space c then re_spaces rest k else None
  | [] => None
  end.
End Matchers.

(** The expression for ['%Y-%m-%d']; the continuation receives the three
    groups and the unmatched rest. *)
Definition match_date {A : Type} (s : list Z)
    (k : Z -> Z -> Z -> list Z -> option A) : option A :=
  re_Y s (fun y s1 => lit 45 s1 (fun s2 =>
  re_m s2 (fun m s3 => lit 45 s3 (fun s4 =>
  re_d s4 (fun d s5 => k y m d s5))))).

(** [datetime.strptime(s, '%Y-%m-%d').date()], [None] for [ValueError]. *)
Definition strptime_date (s : string) : option date.t :=
  match match_date (code_points s) (fun y m d rest => Some (y, m, d, rest)) with
  | Some (y, m, d, []) =>
      let r := date.mk y m d in
      if date.valid r then Some r else None
  | _ => None
  end.

(** [datetime.strptime(s, '%Y-%m-%d %H:%M')], [None] for [ValueError]. *)
Definition strptime (s : string) : option datetime.t :=
  match match_date (code_points s) (fun y m d s1 =>
          re_spaces1 s1 (fun s2 =>
          re_H s2 (fun h s3 => lit 58 s3 (fun s4 =>
          re_M s4 (fun mi rest => Some (y, m, d, h, mi, rest)))))) with
  | Some (y, m, d, h, mi, []) =>
      let r := datetime.mk y m d h mi 0 0 in
      if datetime.valid r then Some r else None
  | _ => None
  end.

(* ------------------------------------------------------------------ *)
(** *** [strftime] *)

Definition pad2 (n : Z) : list Z := [48 + n / 10 mod 10; 48 + n mod 10].

Definition pad4 (n : Z) : list Z :=
  (48 + n / 1000 mod 10) :: (48 + n / 100 mod 10) :: pad2 n.

(** [%Y] as the C library of the server writes it (glibc): the year in
    decimal, with no padding. *)
Definition year_digits (y : Z) : list Z :=
  if y <? 10 then [48 + y]
  else if y <? 100 then pad2 y
  else if y <? 1000 then (48 + y / 100) :: pad2 y
  else pad4 y.

(** [x.strftime('%Y-%m-%d %H:%M')]: the year, then month, day, hour and
    minute on two digits each. *)
Definition strftime (x : datetime.t) : string :=
  ascii_text
    (year_digits (datetime.year x) ++ 45 :: pad2 (datetime.month x) ++
     45 :: pad2 (datetime.day x) ++ 32 :: pad2 (datetime.hour x) ++
     58 :: pad2 (datetime.minute x)).

(* ================================================================== *)
(** ** models.py *)

Module AdminUser.
Record t : Type := mk { id : Z; username : string; password_hash : string }.
End AdminUser.

Module Patient.
Record t : Type := mk {
  id : Z;
  full_name : string;
  phone : string;
  email : option string;
  birth_date : option date.t;
  address : option string
}.
End Patient.

Module Doctor.
Record t : Type := mk {
  id : Z;
  full_name : string;
  specialty : string;
  phone : string;
  email : option string;
  room : option string
}.
End Doctor.

Module Appointment.
Record t : Type := mk {
  id : Z;
  patient_id : Z;
  doctor_id : Z;
  appointment_date : datetime.t;
  status : option string
}.

(** [default='запланирован'] of the [status] column. *)
Definition status_default : string := "запланирован".
End Appointment.

(** The four tables. *)
Module db.
Record t : Type := mk {
  admin_users : list AdminUser.t;
  patients : list Patient.t;
  doctors : list Doctor.t;
  appointments : list Appointment.t
}.

Definition with_admin_users (v : list AdminUser.t) (d : t) : t :=
  mk v (patients d) (doctors d) (appointments d).
Definition with_patients (v : list Patient.t) (d : t) : t :=
  mk (admin_users d) v (doctors d) (appointments d).
Definition with_doctors (v : list Doctor.t) (d : t) : t :=
  mk (admin_users d) (patients d) v (appointments d).
Definition with_appointments (v : list Appointment.t) (d : t) : t :=
  mk (admin_users d) (patients d) (doctors d) v.

(** The store after [db.create_all()] on a new file. *)
Definition empty : t := mk [] [] [] [].
End db.

(* ------------------------------------------------------------------ *)
(** *** Queries and writes on one table *)

Section Table.
Context {row : Type} (rowid : row -> Z).

(** [Model.query.get(i)] *)
Definition query_get (i : Z) (t : list row) : option row :=
  find (fun r => rowid r =? i) t.

(** The key an [INSERT] receives for an [INTEGER PRIMARY KEY] column left
    unset: one more than the largest key in the table, 1 in an empty
    table. *)
Definition next_rowid (t : list row) : Z :=
  1 + fold_right Z.max 0 (map rowid t).

(** The row is stored at the place of its key. *)
Fixpoint insert_row (r : row) (t : list row) : list row :=
  match t with
  | [] => [r]
  | x :: t' => if rowid r <? rowid x then r :: t else x :: insert_row r t'
  end.

(** [UPDATE ... WHERE id = rowid r] *)
Definition update_row (r : row) (t : list row) : list row :=
  map (fun x => if rowid x =? rowid r then r else x) t.

(** [DELETE ... WHERE id = i] *)
Definition delete_row (i : Z) (t : list row) : list row :=
  filter (fun x => negb (rowid x =? i)) t.
End Table.

Module Pagination.
Record t (A : Type) : Type := mk {
  items : list A; page : Z; per_page : Z; total : Z
}.
Arguments mk {A}.
Arguments items {A}.
Arguments page {A}.
Arguments per_page {A}.
Arguments total {A}.
End Pagination.

(** The largest integer SQLite holds; the driver raises [OverflowError]
    when it is given a larger one to bind to a statement. *)
Definition max_int64 : Z := 9223372036854775807.

(** The status of a request whose [paginate] returns no page: 404 for a
    page below 1 and for an empty page other than the first; 500 when the
    offset of the page cannot be bound to the query, which then raises
    before any row is read. *)
Definition no_page (page per_page : Z) : Z :=
  if page <? 1 then 404
  else if (page - 1) * per_page <=? max_int64 then 404
  else 500.

(** [query.paginate(page=page, per_page=per_page)]: the page, or [None]
    when the method ends the request with the status [no_page].  A table
    is shorter than the largest offset that can be bound, so a window
    that holds a row lies below it. *)
Definition paginate {A : Type} (q : list A) (page per_page : Z)
    : option (Pagination.t A) :=
  if page <? 1 then None
  else
    let items := firstn (Z.to_nat per_page)
                   (skipn (Z.to_nat ((page - 1) * per_page)) q) in
    match items with
    | [] => if page =? 1
            then Some (Pagination.mk items page per_page (Z.of_nat (List.length q)))
            else None
    | _ :: _ => Some (Pagination.mk items page per_page (Z.of_nat (List.length q)))
    end.

(** [ORDER BY appointment_date DESC], rows with equal dates kept in the
    order of the table. *)
Fixpoint insert_desc (a : Appointment.t) (l : list Appointment.t)
    : list Appointment.t :=
  match l with
  | [] => [a]
  | b :: l' =>
      if datetime.ltb (Appointment.appointment_date a) (Appointment.appointment_date b)
      then b :: insert_desc a l'
      else a :: l
  end.

Definition order_by_date_desc (l : list Appointment.t) : list Appointment.t :=
  fold_right insert_desc [] l.

(* ================================================================== *)
(** ** Forms (app.py, lines 22-49)

    A form object holds the data of its fields and the errors found when
    it was filled and validated.  A field absent from the request body
    keeps the value it got from the object the form was built on, a text
    field present in the body takes the submitted text. *)

Inductive field_error : Type :=
| Required          (* DataRequired *)
| TooLong           (* Length(max=...) *)
| InvalidEmail      (* Email *)
| NotAValidChoice   (* SelectField, value not among the choices *)
| CouldNotCoerce    (* SelectField, coerce raised *)
| NotAValidDate     (* DateField, the format does not match *)
| CsrfFailed.       (* the hidden token of FlaskForm *)

Definition form_errors : Type := list (string * field_error).

Definition on_field (name : string) (es : list field_error) : form_errors :=
  map (fun e => (name, e)) es.

(** What the body holds for a field whose text is converted while the form
    is filled ([coerce=int]). *)
Inductive submitted (A : Type) : Type :=
| Absent
| Malformed
| Given (a : A).
Arguments Absent {A}.
Arguments Malformed {A}.
Arguments Given {A} a.

(** The text is empty once stripped: [not s.strip()]. *)
Definition blank (s : string) : bool := forallb is_space (code_points s).

(** [StringField] *)
Definition text_field (obj fd : option string) : option string :=
  match fd with
  | Some v => Some v
  | None => obj
  end.

(** [SelectField(coerce=int)]: data and the error of filling. *)
Definition select_int_field (obj : option Z) (fd : submitted Z)
    : option Z * list field_error :=
  match fd with
  | Given z => (Some z, [])
  | Malformed => (obj, [CouldNotCoerce])
  | Absent => (obj, [])
  end.

(** [DateField(format='%Y-%m-%d')] *)
Definition date_field (obj : option date.t) (fd : option string)
    : option date.t * list field_error :=
  match fd with
  | None => (obj, [])
  | Some s =>
      match strptime_date s with
      | Some d => (Some d, [])
      | None => (None, [NotAValidDate])
      end
  end.

(** [DataRequired] on text: the data is not empty once stripped. *)
Definition DataRequired (data : option string) : bool :=
  match data with
  | Some s => negb (blank s)
  | None => false
  end.

(** [DataRequired] on a number: the data is neither [None] nor 0. *)
Definition DataRequired_int (data : option Z) : bool :=
  match data with
  | Some z => negb (z =? 0)
  | None => false
  end.

Definition Length (max : Z) (data : option string) : bool :=
  match data with
  | Some s => len s <=? max
  | None => true
  end.

(** The errors of a text field validated by [DataRequired(), Length(max)];
    a failing [DataRequired] ends the chain. *)
Definition required_text (max : option Z) (data : option string)
    : list field_error :=
  if DataRequired data then
    match max with
    | Some n => if Length n data then [] else [TooLong]
    | None => []
    end
  else [Required].

Definition optional_text (max : Z) (data : option string) : list field_error :=
  if Length max data then [] else [TooLong].

(** The value test of [SelectField]. *)
Definition valid_choice {A : Type} (eqb : A -> A -> bool)
    (choices : list (A * string)) (data : option A) : bool :=
  match data with
  | Some v => existsb (fun c => eqb v (fst c)) choices
  | None => false
  end.

Definition csrf_errors (csrf_ok : bool) : form_errors :=
  if csrf_ok then [] else [("csrf_token", CsrfFailed)].

Module LoginForm.
Record formdata : Type := mk_formdata {
  fd_username : option string;
  fd_password : option string
}.

Definition no_formdata : formdata := mk_formdata None None.

Record t : Type := mk {
  username : option string;
  password : option string;
  errors : form_errors
}.

(** [LoginForm()] *)
Definition process (fd : formdata) : t :=
  mk (text_field None (fd_username fd)) (text_field None (fd_password fd)) [].

Definition validate (csrf_ok : bool) (f : t) : t :=
  mk (username f) (password f)
     (csrf_errors csrf_ok ++
      on_field "username" (required_text None (username f)) ++
      on_field "password" (required_text None (password f))).
End LoginForm.

Section Email.
(** The syntax test of the [Email] validator. *)
Variable email_syntax : string -> bool.

Definition Email (data : option string) : bool :=
  match data with
  | Some s => email_syntax s
  | None => false
  end.

(** [validators=[Length(max=120), Email()]] *)
Definition email_errors (data : option string) : list field_error :=
  optional_text 120 data ++ (if Email data then [] else [InvalidEmail]).
End Email.

Module PatientForm.
Record formdata : Type := mk_formdata {
  fd_full_name : option string;
  fd_phone : option string;
  fd_email : option string;
  fd_birth_date : option string;
  fd_address : option string
}.

Definition no_formdata : formdata := mk_formdata None None None None None.

Record t : Type := mk {
  full_name : option string;
  phone : option string;
  email : option string;
  birth_date : option date.t;
  address : option string;
  process_errors : form_errors;
  errors : form_errors
}.

(** [PatientForm()] and [PatientForm(obj=patient)] *)
Definition process (obj : option Patient.t) (fd : formdata) : t :=
  let bd := date_field (match obj with Some p => Patient.birth_date p | None => None end)
              (fd_birth_date fd) in
  mk (text_field (option_map Patient.full_name obj) (fd_full_name fd))
     (text_field (option_map Patient.phone obj) (fd_phone fd))
     (text_field (match obj with Some p => Patient.email p | None => None end) (fd_email fd))
     (fst bd)
     (text_field (match obj with Some p => Patient.address p | None => None end) (fd_address fd))
     (on_field "birth_date" (snd bd))
     [].

Definition validate (email_syntax : string -> bool) (csrf_ok : bool) (f : t) : t :=
  mk (full_name f) (phone f) (email f) (birth_date f) (address f) (process_errors f)
     (csrf_errors csrf_ok ++
      on_field "full_name" (required_text (Some 150) (full_name f)) ++
      on_field "phone" (required_text (Some 20) (phone f)) ++
      on_field "email" (email_errors email_syntax (email f)) ++
      process_errors f).
End PatientForm.

Module DoctorForm.
Record formdata : Type := mk_formdata {
  fd_full_name : option string;
  fd_specialty : option string;
  fd_phone : option string;
  fd_email : option string;
  fd_room : option string
}.

Definition no_formdata : formdata := mk_formdata None None None None None.

Record t : Type := mk {
  full_name : option string;
  specialty : option string;
  phone : option string;
  email : option string;
  room : option string;
  errors : form_errors
}.

Definition process (obj : option Doctor.t) (fd : formdata) : t :=
  mk (text_field (option_map Doctor.full_name obj) (fd_full_name fd))
     (text_field (option_map Doctor.specialty obj) (fd_specialty fd))
     (text_field (option_map Doctor.phone obj) (fd_phone fd))
     (text_field (match obj with Some d => Doctor.email d | None => None end) (fd_email fd))
     (text_field (match obj with Some d => Doctor.room d | None => None end) (fd_room fd))
     [].

Definition validate (email_syntax : string -> bool) (csrf_ok : bool) (f : t) : t :=
  mk (full_name f) (specialty f) (phone f) (email f) (room f)
     (csrf_errors csrf_ok ++
      on_field "full_name" (required_text (Some 150) (full_name f)) ++
      on_field "specialty" (required_text (Some 100) (specialty f)) ++
      on_field "phone" (required_text (Some 20) (phone f)) ++
      on_field "email" (email_errors email_syntax (email f)) ++
      on_field "room" (optional_text 20 (room f))).
End DoctorForm.

(** The data of the [appointment_date] text field: the submitted text, or
    the stored value the field received from the appointment the form was
    built on. *)
Inductive date_input : Type :=
| Text (s : string)
| Stored (d : datetime.t).

Module AppointmentForm.
Record formdata : Type := mk_formdata {
  fd_patient_id : submitted Z;
  fd_doctor_id : submitted Z;
  fd_appointment_date : option string;
  fd_status : option string
}.

Definition no_formdata : formdata := mk_formdata Absent Absent None None.

Record t : Type := mk {
  patient_id : option Z;
  doctor_id : option Z;
  appointment_date : option date_input;
  status : option string;
  patient_choices : list (Z * string);
  doctor_choices : list (Z * string);
  patient_id_process_errors : list field_error;
  doctor_id_process_errors : list field_error;
  errors : form_errors
}.

(** [choices=[...]] of the [status] field. *)
Definition status_choices : list (string * string) :=
  [("запланирован", "Запланирован"); ("завершён", "Завершён");
   ("отменён", "Отменён")].

(** [AppointmentForm()] and [AppointmentForm(obj=appointment)] *)
Definition process (obj : option Appointment.t) (fd : formdata) : t :=
  let p := select_int_field (option_map Appointment.patient_id obj) (fd_patient_id fd) in
  let d := select_int_field (option_map Appointment.doctor_id obj) (fd_doctor_id fd) in
  mk (fst p) (fst d)
     (match fd_appointment_date fd with
      | Some s => Some (Text s)
      | None => option_map (fun a => Stored (Appointment.appointment_date a)) obj
      end)
     (text_field (match obj with Some a => Appointment.status a | None => None end)
        (fd_status fd))
     [] [] (snd p) (snd d) [].

(** [form.patient_id.choices = ...; form.doctor_id.choices = ...] *)
Definition set_choices (ps ds : list (Z * string)) (f : t) : t :=
  mk (patient_id f) (doctor_id f) (appointment_date f) (status f) ps ds
     (patient_id_process_errors f) (doctor_id_process_errors f) (errors f).

(** [form.appointment_date.data = ...] *)
Definition set_appointment_date (v : date_input) (f : t) : t :=
  mk (patient_id f) (doctor_id f) (Some v) (status f)
     (patient_choices f) (doctor_choices f)
     (patient_id_process_errors f) (doctor_id_process_errors f) (errors f).

(** The errors of a [SelectField(coerce=int, validators=[DataRequired()])]:
    those of filling the field, then the one of the choice test, and, when
    [DataRequired] fails, its error alone, the validator emptying the
    list before it raises. *)
Definition select_int_errors (choices : list (Z * string)) (data : option Z)
    (process_errors : list field_error) : list field_error :=
  if DataRequired_int data then
    process_errors ++
    (if valid_choice Z.eqb choices data then [] else [NotAValidChoice])
  else [Required].

Definition date_errors (data : option date_input) : list field_error :=
  match data with
  | Some (Text s) => if blank s then [Required] else []
  | Some (Stored _) => []
  | None => [Required]
  end.

Definition status_errors (data : option string) : list field_error :=
  if valid_choice String.eqb status_choices data then [] else [NotAValidChoice].

Definition validate (csrf_ok : bool) (f : t) : t :=
  mk (patient_id f) (doctor_id f) (appointment_date f) (status f)
     (patient_choices f) (doctor_choices f)
     (patient_id_process_errors f) (doctor_id_process_errors f)
     (csrf_errors csrf_ok ++
      on_field "patient_id"
        (select_int_errors (patient_choices f) (patient_id f)
           (patient_id_process_errors f)) ++
      on_field "doctor_id"
        (select_int_errors (doctor_choices f) (doctor_id f)
           (doctor_id_process_errors f)) ++
      on_field "appointment_date" (date_errors (appointment_date f)) ++
      on_field "status" (status_errors (status f))).
End AppointmentForm.

(* ================================================================== *)
(** ** Requests and responses *)

Inductive http_method : Type := GET | HEAD | POST | PUT | PATCH | DELETE | OPTIONS.

Definition method_eqb (a b : http_method) : bool :=
  match a, b with
  | GET, GET | HEAD, HEAD | POST, POST | PUT, PUT
  | PATCH, PATCH | DELETE, DELETE | OPTIONS, OPTIONS => true
  | _, _ => false
  end.

(** The view functions of app.py, with the [<int:id>] of their rule. *)
Inductive endpoint : Type :=
| Login | Logout | Dashboard
| Patients | AddPatient | EditPatient (id : Z) | DeletePatient (id : Z)
| Doctors | AddDoctor | EditDoctor (id : Z) | DeleteDoctor (id : Z)
| Appointments | AddAppointment | EditAppointment (id : Z) | DeleteAppointment (id : Z)
| Index.

(** The [stats] dictionary of the dashboard. *)
Module stats.
Record t : Type := mk {
  patients : Z; doctors : Z; appointments : Z; today_appointments : Z
}.
End stats.

(** What a template is rendered with. *)
Inductive context : Type :=
| login_page (form : LoginForm.t)
| dashboard_page (s : stats.t)
| patients_page (p : Pagination.t Patient.t)
| patient_form_page (form : PatientForm.t) (title : string)
| doctors_page (p : Pagination.t Doctor.t)
| doctor_form_page (form : DoctorForm.t) (title : string)
| appointments_page (p : Pagination.t Appointment.t)
| appointment_form_page (form : AppointmentForm.t) (title : string).

Inductive response : Type :=
| redirect (to : endpoint)                           (* redirect(url_for(...)) *)
| render_template (template : string) (ctx : context)
| abort (status_code : Z)                            (* 404, 405, 500 *)
| options_reply.                                     (* the automatic answer to OPTIONS *)

(** A request as the application sees it once Flask has matched the URL:
    the method, the view the rule names (with the natural number its
    [<int:id>] read), the user id of the signed session cookie, the
    [page] argument of the query string read with [type=int], whether the
    hidden token of the body is the one of the session, the body as each
    form class reads it, and the clock of the server. *)
Record request : Type := mk_request {
  method : http_method;
  target : endpoint;
  session_user_id : option Z;
  arg_page : option Z;
  csrf_ok : bool;
  login_formdata : LoginForm.formdata;
  patient_formdata : PatientForm.formdata;
  doctor_formdata : DoctorForm.formdata;
  appointment_formdata : AppointmentForm.formdata;
  now : datetime.t
}.

(** The result of handling a request: the response, the messages flashed
    (text, category), the tables and the user id of the session. *)
Record outcome : Type := mk_outcome {
  reply : response;
  flashed : list (string * string);
  store : db.t;
  session : option Z
}.

(** [methods=[...]] of each route; a rule without the argument takes GET. *)
Definition methods (e : endpoint) : list http_method :=
  match e with
  | Login | AddPatient | EditPatient _ | AddDoctor | EditDoctor _
  | AddAppointment | EditAppointment _ => [GET; POST]
  | DeletePatient _ | DeleteDoctor _ | DeleteAppointment _ => [POST]
  | Logout | Dashboard | Patients | Doctors | Appointments | Index => [GET]
  end.

(** A rule that takes GET takes HEAD too. *)
Definition accepts (e : endpoint) (m : http_method) : bool :=
  existsb (method_eqb m) (methods e) ||
  (method_eqb m HEAD && existsb (method_eqb GET) (methods e)).

(** [form.is_submitted()] *)
Definition is_submitted (m : http_method) : bool :=
  match m with
  | POST | PUT | PATCH | DELETE => true
  | _ => false
  end.

Definition no_errors (es : form_errors) : bool :=
  match es with
  | [] => true
  | _ :: _ => false
  end.

Definition admin_route (e : endpoint) : bool :=
  match e with
  | Login | Logout | Index => false
  | _ => true
  end.

(* ================================================================== *)
(** ** app.py: the views *)

Module app.
Section Views.
(** [werkzeug.security]: [check_password_hash(pwhash, password)] and
    [generate_password_hash(password)]. *)
Variable check_password_hash : string -> string -> bool.
Variable generate_password_hash : string -> string.
(** The syntax test of [wtforms.validators.Email]. *)
Variable email_syntax : string -> bool.

(** [AdminUser.check_password] *)
Definition check_password (u : AdminUser.t) (password : string) : bool :=
  check_password_hash (AdminUser.password_hash u) password.

(** [load_user], lines 52-54 *)
Definition load_user (d : db.t) (user_id : Z) : option AdminUser.t :=
  query_get AdminUser.id user_id (db.admin_users d).

(** [current_user]: the user the session names, when the table has it. *)
Definition current_user (d : db.t) (r : request) : option AdminUser.t :=
  match session_user_id r with
  | Some i => load_user d i
  | None => None
  end.

Definition is_authenticated (d : db.t) (r : request) : bool :=
  match current_user d r with
  | Some _ => true
  | None => false
  end.

(** [create_admin], lines 57-64; Flask runs it once, when the first
    request arrives (see [full_dispatch_request]). *)
Definition create_admin (d : db.t) : db.t :=
  match find (fun u => String.eqb (AdminUser.username u) "admin") (db.admin_users d) with
  | Some _ => d
  | None =>
      let admin := AdminUser.mk (next_rowid AdminUser.id (db.admin_users d))
                     "admin" (generate_password_hash "admin123") in
      db.with_admin_users (insert_row AdminUser.id admin (db.admin_users d)) d
  end.

(** An outcome that writes nothing and keeps the session. *)
Definition respond (d : db.t) (r : request) (x : response)
    (msgs : list (string * string)) : outcome :=
  mk_outcome x msgs d (session_user_id r).

(** [@login_required] with [login_manager.login_view = 'login']. *)
Definition login_required (view : db.t -> request -> outcome)
    (d : db.t) (r : request) : outcome :=
  if is_authenticated d r then view d r
  else respond d r (redirect Login)
         [("Please log in to access this page.", "message")].

(** [formdata] of a form: the body of a submitted request, nothing
    otherwise. *)
Definition body_of {A : Type} (r : request) (fd none : A) : A :=
  if is_submitted (method r) then fd else none.

(** [form.validate_on_submit()]: the request is a submission and the
    validation, which the call has run on the form, found no error. *)
Definition validate_on_submit (r : request) (errors : form_errors) : bool :=
  is_submitted (method r) && no_errors errors.

(** A form once [validate_on_submit] was called on it: validated when
    the request is a submission, as it was filled otherwise. *)
Definition login_form (r : request) : LoginForm.t :=
  let form := LoginForm.process (body_of r (login_formdata r) LoginForm.no_formdata) in
  if is_submitted (method r) then LoginForm.validate (csrf_ok r) form else form.

Definition patient_form (obj : option Patient.t) (r : request) : PatientForm.t :=
  let form := PatientForm.process obj
                (body_of r (patient_formdata r) PatientForm.no_formdata) in
  if is_submitted (method r)
  then PatientForm.validate email_syntax (csrf_ok r) form else form.

Definition doctor_form (obj : option Doctor.t) (r : request) : DoctorForm.t :=
  let form := DoctorForm.process obj
                (body_of r (doctor_formdata r) DoctorForm.no_formdata) in
  if is_submitted (method r)
  then DoctorForm.validate email_syntax (csrf_ok r) form else form.

Definition bad_login_flash : string * string :=
  ("Неверное имя пользователя или пароль.", "danger").

(** lines 67-80 *)
Definition login (d : db.t) (r : request) : outcome :=
  if is_authenticated d r then respond d r (redirect Dashboard) []
  else
    let form := login_form r in
    if validate_on_submit r (LoginForm.errors form) then
      let user :=
        match LoginForm.username form with
        | Some name =>
            find (fun u => String.eqb (AdminUser.username u) name) (db.admin_users d)
        | None => None
        end in
      match user, LoginForm.password form with
      | Some u, Some password =>
          if check_password u password
          then mk_outcome (redirect Dashboard)
                 [("Вы успешно вошли в систему!", "success")]
                 d (Some (AdminUser.id u))
          else respond d r (render_template "login.html" (login_page form))
                 [bad_login_flash]
      | _, _ =>
          respond d r (render_template "login.html" (login_page form))
            [bad_login_flash]
      end
    else respond d r (render_template "login.html" (login_page form)) [].

(** lines 82-87 *)
Definition logout : db.t -> request -> outcome :=
  login_required (fun d r =>
    mk_outcome (redirect Login) [("Вы вышли из системы.", "info")] d None).

(** lines 89-100 *)
Definition dashboard : db.t -> request -> outcome :=
  login_required (fun d r =>
    let today := datetime.date (now r) in
    let s := stats.mk
      (Z.of_nat (List.length (db.patients d)))
      (Z.of_nat (List.length (db.doctors d)))
      (Z.of_nat (List.length (db.appointments d)))
      (Z.of_nat (List.length
         (filter (fun a => date.eqb (datetime.date (Appointment.appointment_date a)) today)
            (db.appointments d)))) in
    respond d r (render_template "admin/dashboard.html" (dashboard_page s)) []).

(** [request.args.get('page', 1, type=int)] *)
Definition page_arg (r : request) : Z :=
  match arg_page r with
  | Some p => p
  | None => 1
  end.

(* ========== patients ========== *)

(** lines 103-108 *)
Definition patients : db.t -> request -> outcome :=
  login_required (fun d r =>
    match paginate (db.patients d) (page_arg r) 10 with
    | Some patients_list =>
        respond d r (render_template "admin/patients.html" (patients_page patients_list)) []
    | None => respond d r (abort (no_page (page_arg r) 10)) []
    end).

(** lines 110-126 *)
Definition add_patient : db.t -> request -> outcome :=
  login_required (fun d r =>
    let form := patient_form None r in
    if validate_on_submit r (PatientForm.errors form) then
      match PatientForm.full_name form, PatientForm.phone form with
      | Some full_name, Some phone =>
          let patient := Patient.mk (next_rowid Patient.id (db.patients d))
                           full_name phone (PatientForm.email form)
                           (PatientForm.birth_date form) (PatientForm.address form) in
          mk_outcome (redirect Patients) [("Пациент добавлен!", "success")]
            (db.with_patients (insert_row Patient.id patient (db.patients d)) d)
            (session_user_id r)
      | _, _ => respond d r (abort 500) []   (* NOT NULL column left unset *)
      end
    else respond d r (render_template "admin/patient_form.html"
                        (patient_form_page form "Добавить пациента")) []).

(** lines 128-138 *)
Definition edit_patient (id : Z) : db.t -> request -> outcome :=
  login_required (fun d r =>
    match query_get Patient.id id (db.patients d) with
    | None => respond d r (abort 404) []
    | Some patient =>
        let form := patient_form (Some patient) r in
        if validate_on_submit r (PatientForm.errors form) then
          match PatientForm.full_name form, PatientForm.phone form with
          | Some full_name, Some phone =>
              let patient := Patient.mk (Patient.id patient)
                               full_name phone (PatientForm.email form)
                               (PatientForm.birth_date form) (PatientForm.address form) in
              mk_outcome (redirect Patients) [("Пациент обновлён!", "success")]
                (db.with_patients (update_row Patient.id patient (db.patients d)) d)
                (session_user_id r)
          | _, _ => respond d r (abort 500) []
          end
        else respond d r (render_template "admin/patient_form.html"
                            (patient_form_page form "Редактировать пациента")) []
    end).

(** lines 140-147.  The flush of the delete sets the [patient_id] of the
    appointments of the patient to NULL; the column is [nullable=False],
    the commit raises and nothing is written. *)
Definition delete_patient (id : Z) : db.t -> request -> outcome :=
  login_required (fun d r =>
    match query_get Patient.id id (db.patients d) with
    | None => respond d r (abort 404) []
    | Some patient =>
        if existsb (fun a => Appointment.patient_id a =? Patient.id patient)
             (db.appointments d)
        then respond d r (abort 500) []
        else mk_outcome (redirect Patients) [("Пациент удалён!", "warning")]
               (db.with_patients (delete_row Patient.id (Patient.id patient) (db.patients d)) d)
               (session_user_id r)
    end).

(* ========== doctors ========== *)

(** lines 150-155 *)
Definition doctors : db.t -> request -> outcome :=
  login_required (fun d r =>
    match paginate (db.doctors d) (page_arg r) 10 with
    | Some doctors_list =>
        respond d r (render_template "admin/doctors.html" (doctors_page doctors_list)) []
    | None => respond d r (abort (no_page (page_arg r) 10)) []
    end).

(** lines 157-173 *)
Definition add_doctor : db.t -> request -> outcome :=
  login_required (fun d r =>
    let form := doctor_form None r in
    if validate_on_submit r (DoctorForm.errors form) then
      match DoctorForm.full_name form, DoctorForm.specialty form, DoctorForm.phone form with
      | Some full_name, Some specialty, Some phone =>
          let doctor := Doctor.mk (next_rowid Doctor.id (db.doctors d))
                          full_name specialty phone (DoctorForm.email form)
                          (DoctorForm.room form) in
          mk_outcome (redirect Doctors) [("Врач добавлен!", "success")]
            (db.with_doctors (insert_row Doctor.id doctor (db.doctors d)) d)
            (session_user_id r)
      | _, _, _ => respond d r (abort 500) []
      end
    else respond d r (render_template "admin/doctor_form.html"
                        (doctor_form_page form "Добавить врача")) []).

(** lines 175-185 *)
Definition edit_doctor (id : Z) : db.t -> request -> outcome :=
  login_required (fun d r =>
    match query_get Doctor.id id (db.doctors d) with
    | None => respond d r (abort 404) []
    | Some doctor =>
        let form := doctor_form (Some doctor) r in
        if validate_on_submit r (DoctorForm.errors form) then
          match DoctorForm.full_name form, DoctorForm.specialty form, DoctorForm.phone form with
          | Some full_name, Some specialty, Some phone =>
              let doctor := Doctor.mk (Doctor.id doctor)
                              full_name specialty phone (DoctorForm.email form)
                              (DoctorForm.room form) in
              mk_outcome (redirect Doctors) [("Врач обновлён!", "success")]
                (db.with_doctors (update_row Doctor.id doctor (db.doctors d)) d)
                (session_user_id r)
          | _, _, _ => respond d r (abort 500) []
          end
        else respond d r (render_template "admin/doctor_form.html"
                            (doctor_form_page form "Редактировать врача")) []
    end).

(** lines 187-194; the appointments of the doctor stop the delete as
    they do for a patient. *)
Definition delete_doctor (id : Z) : db.t -> request -> outcome :=
  login_required (fun d r =>
    match query_get Doctor.id id (db.doctors d) with
    | None => respond d r (abort 404) []
    | Some doctor =>
        if existsb (fun a => Appointment.doctor_id a =? Doctor.id doctor)
             (db.appointments d)
        then respond d r (abort 500) []
        else mk_outcome (redirect Doctors) [("Врач удалён!", "warning")]
               (db.with_doctors (delete_row Doctor.id (Doctor.id doctor) (db.doctors d)) d)
               (session_user_id r)
    end).

(* ========== appointments ========== *)

(** lines 197-202 *)
Definition appointments : db.t -> request -> outcome :=
  login_required (fun d r =>
    match paginate (order_by_date_desc (db.appointments d)) (page_arg r) 10 with
    | Some appointments_list =>
        respond d r (render_template "admin/appointments.html"
                       (appointments_page appointments_list)) []
    | None => respond d r (abort (no_page (page_arg r) 10)) []
    end).

(** [[(p.id, p.full_name) for p in Patient.query.all()]] *)
Definition patient_options (d : db.t) : list (Z * string) :=
  map (fun p => (Patient.id p, Patient.full_name p)) (db.patients d).

(** [[(d.id, f"{d.full_name} ({d.specialty})") for d in Doctor.query.all()]] *)
Definition doctor_options (d : db.t) : list (Z * string) :=
  map (fun x => (Doctor.id x,
                 (Doctor.full_name x ++ " (" ++ Doctor.specialty x ++ ")")%string))
      (db.doctors d).

(** The column default of [status] fills a value left unset by the
    [INSERT]. *)
Definition insert_appointment (a : Appointment.t) (t : list Appointment.t)
    : list Appointment.t :=
  let status := match Appointment.status a with
                | Some s => Some s
                | None => Some Appointment.status_default
                end in
  insert_row Appointment.id
    (Appointment.mk (next_rowid Appointment.id t) (Appointment.patient_id a)
       (Appointment.doctor_id a) (Appointment.appointment_date a) status) t.

(** The appointment form with the choices of lines 208-209 and 233-234,
    once [validate_on_submit] was called on it. *)
Definition appointment_form (d : db.t) (obj : option Appointment.t) (r : request)
    : AppointmentForm.t :=
  let form := AppointmentForm.process obj
                (body_of r (appointment_formdata r) AppointmentForm.no_formdata) in
  let form := AppointmentForm.set_choices (patient_options d) (doctor_options d) form in
  if is_submitted (method r) then AppointmentForm.validate (csrf_ok r) form else form.

Definition bad_date_flash : string * string :=
  ("Неверный формат даты. Используйте ГГГГ-ММ-ДД ЧЧ:ММ", "danger").

(** lines 204-226 *)
Definition add_appointment : db.t -> request -> outcome :=
  login_required (fun d r =>
    let form := appointment_form d None r in
    if validate_on_submit r (AppointmentForm.errors form) then
      match AppointmentForm.appointment_date form with
      | Some (Text s) =>
          match strptime s with
          | None =>
              respond d r (render_template "admin/appointment_form.html"
                             (appointment_form_page form "Добавить приём"))
                [bad_date_flash]
          | Some appt_date =>
              match AppointmentForm.patient_id form, AppointmentForm.doctor_id form with
              | Some patient_id, Some doctor_id =>
                  let appointment := Appointment.mk 0 patient_id doctor_id appt_date
                                       (AppointmentForm.status form) in
                  mk_outcome (redirect Appointments) [("Приём добавлен!", "success")]
                    (db.with_appointments
                       (insert_appointment appointment (db.appointments d)) d)
                    (session_user_id r)
              | _, _ => respond d r (abort 500) []
              end
          end
      | _ => respond d r (abort 500) []   (* strptime: TypeError *)
      end
    else respond d r (render_template "admin/appointment_form.html"
                        (appointment_form_page form "Добавить приём")) []).

(** lines 228-250 *)
Definition edit_appointment (id : Z) : db.t -> request -> outcome :=
  login_required (fun d r =>
    match query_get Appointment.id id (db.appointments d) with
    | None => respond d r (abort 404) []
    | Some appointment =>
        let form := appointment_form d (Some appointment) r in
        if validate_on_submit r (AppointmentForm.errors form) then
          match AppointmentForm.appointment_date form with
          | Some (Text s) =>
              match strptime s with
              | None =>
                  respond d r (render_template "admin/appointment_form.html"
                                 (appointment_form_page form "Редактировать приём"))
                    [bad_date_flash]
              | Some appt_date =>
                  match AppointmentForm.patient_id form, AppointmentForm.doctor_id form with
                  | Some patient_id, Some doctor_id =>
                      let appointment :=
                        Appointment.mk (Appointment.id appointment) patient_id doctor_id
                          appt_date (AppointmentForm.status form) in
                      mk_outcome (redirect Appointments) [("Приём обновлён!", "success")]
                        (db.with_appointments
                           (update_row Appointment.id appointment (db.appointments d)) d)
                        (session_user_id r)
                  | _, _ => respond d r (abort 500) []
                  end
              end
          | _ => respond d r (abort 500) []   (* strptime: TypeError *)
          end
        else
          let form := AppointmentForm.set_appointment_date
                        (Text (strftime (Appointment.appointment_date appointment))) form in
          respond d r (render_template "admin/appointment_form.html"
                         (appointment_form_page form "Редактировать приём")) []
    end).

(** lines 252-259 *)
Definition delete_appointment (id : Z) : db.t -> request -> outcome :=
  login_required (fun d r =>
    match query_get Appointment.id id (db.appointments d) with
    | None => respond d r (abort 404) []
    | Some appointment =>
        mk_outcome (redirect Appointments) [("Приём удалён!", "warning")]
          (db.with_appointments
             (delete_row Appointment.id (Appointment.id appointment) (db.appointments d)) d)
          (session_user_id r)
    end).

(** lines 262-266 *)
Definition index (d : db.t) (r : request) : outcome :=
  if is_authenticated d r then respond d r (redirect Dashboard) []
  else respond d r (redirect Login) [].

(** A view that takes an id begins, once [login_required] has let the
    request in, with [get_or_404(id)] (lines 131, 143, 178, 190, 231,
    255).  An id above [max_int64] cannot be bound to the query: the
    driver raises [OverflowError] and the request ends with status 500,
    nothing read and nothing written.  The views above are written for an
    id the driver takes. *)
Definition bound_id (id : Z) (view : db.t -> request -> outcome)
    (d : db.t) (r : request) : outcome :=
  if is_authenticated d r && (max_int64 <? id)
  then respond d r (abort 500) []
  else view d r.

(** The view of an endpoint, as the [@app.route] lines bind them, called
    with the id of the URL. *)
Definition view (e : endpoint) : db.t -> request -> outcome :=
  match e with
  | Login => login
  | Logout => logout
  | Dashboard => dashboard
  | Patients => patients
  | AddPatient => add_patient
  | EditPatient id => bound_id id (edit_patient id)
  | DeletePatient id => bound_id id (delete_patient id)
  | Doctors => doctors
  | AddDoctor => add_doctor
  | EditDoctor id => bound_id id (edit_doctor id)
  | DeleteDoctor id => bound_id id (delete_doctor id)
  | Appointments => appointments
  | AddAppointment => add_appointment
  | EditAppointment id => bound_id id (edit_appointment id)
  | DeleteAppointment id => bound_id id (delete_appointment id)
  | Index => index
  end.

(** [dispatch_request]: Flask answers OPTIONS itself and refuses with 405
    a method the rule does not take; the view runs for the others. *)
Definition dispatch (d : db.t) (r : request) : outcome :=
  match method r with
  | OPTIONS => respond d r options_reply []
  | m => if accepts (target r) m then view (target r) d r
         else respond d r (abort 405) []
  end.

(** [full_dispatch_request]: before anything else Flask runs the
    [@app.before_first_request] functions, here [create_admin], when the
    request is the first one the process handles; then it matches the URL
    and calls the view. *)
Definition full_dispatch_request (got_first_request : bool)
    (d : db.t) (r : request) : outcome :=
  dispatch (if got_first_request then d else create_admin d) r.

(** The tables after the requests [rs], handled in turn. *)
Fixpoint serve_from (got_first_request : bool) (d : db.t) (rs : list request)
    : db.t :=
  match rs with
  | [] => d
  | r :: rs' => serve_from true (store (full_dispatch_request got_first_request d r)) rs'
  end.

(** The tables after a sequence of requests handled by a process started
    on the tables [d]. *)
Definition serve (d : db.t) (rs : list request) : db.t := serve_from false d rs.
End Views.
End app.

(* ------------------------------------------------------------------ *)
(** *** Instances of the library functions, to run the views *)

(** A password hash that keeps the password behind a prefix. *)
Definition sample_generate_password_hash (password : string) : string :=
  ("plain$" ++ password)%string.

Definition sample_check_password_hash (pwhash password : string) : bool :=
  String.eqb pwhash (sample_generate_password_hash password).

(** A syntax test in the manner of the validator: some text, an at sign,
    and a domain that holds a dot and no further at sign. *)
Fixpoint has_char (c : ascii) (s : string) : bool :=
  match s with
  | EmptyString => false
  | String x rest => Ascii.eqb c x || has_char c rest
  end.

Fixpoint domain_after_at (s : string) : option string :=
  match s with
  | EmptyString => None
  | String x rest => if Ascii.eqb x "@" then Some rest else domain_after_at rest
  end.

Definition sample_email_syntax (s : string) : bool :=
  match s with
  | EmptyString => false
  | String x rest =>
      negb (Ascii.eqb x "@") &&
      match domain_after_at rest with
      | Some dom => has_char "." dom && negb (has_char "@" dom)
      | None => false
      end
  end.

(** A store and requests to run the views on. *)
Definition sample_now : datetime.t := datetime.mk 2024 3 15 9 0 0 0.

Definition sample_db : db.t :=
  db.mk
    [AdminUser.mk 1 "admin" (sample_generate_password_hash "admin123")]
    [Patient.mk 1 "Ivan Petrov" "+7 900 111" (Some "ivan@example.org")
       (Some (date.mk 1990 1 2)) (Some "Lenina 1");
     Patient.mk 2 "Olga Smirnova" "+7 900 333" (Some "olga@example.org")
       (Some (date.mk 1985 7 30)) (Some "Mira 5")]
    [Doctor.mk 1 "Anna Sidorova" "therapist" "+7 900 222"
       (Some "anna@clinic.example") (Some "12");
     Doctor.mk 2 "Pavel Orlov" "surgeon" "+7 900 444"
       (Some "pavel@clinic.example") (Some "14")]
    [Appointment.mk 1 1 1 (datetime.mk 2024 3 15 14 30 0 0) (Some "запланирован");
     Appointment.mk 2 1 1 (datetime.mk 2024 3 14 10 0 0 0) (Some "завершён")].

(** A request with an empty body. *)
Definition request_to (m : http_method) (e : endpoint) (user : option Z) : request :=
  mk_request m e user None true LoginForm.no_formdata PatientForm.no_formdata
    DoctorForm.no_formdata AppointmentForm.no_formdata sample_now.

Definition post_login (name password : string) : request :=
  mk_request POST Login None None true
    (LoginForm.mk_formdata (Some name) (Some password)) PatientForm.no_formdata
    DoctorForm.no_formdata AppointmentForm.no_formdata sample_now.

Definition post_patient (e : endpoint) (fd : PatientForm.formdata) : request :=
  mk_request POST e (Some 1) None true LoginForm.no_formdata fd
    DoctorForm.no_formdata AppointmentForm.no_formdata sample_now.

Definition post_doctor (e : endpoint) (fd : DoctorForm.formdata) : request :=
  mk_request POST e (Some 1) None true LoginForm.no_formdata PatientForm.no_formdata
    fd AppointmentForm.no_formdata sample_now.

Definition post_appointment (e : endpoint) (fd : AppointmentForm.formdata) : request :=
  mk_request POST e (Some 1) None true LoginForm.no_formdata PatientForm.no_formdata
    DoctorForm.no_formdata fd sample_now.

Definition sample_patient_body : PatientForm.formdata :=
  PatientForm.mk_formdata (Some "Petr Ivanov") (Some "+7 900 555")
    (Some "petr@example.org") (Some "1979-11-05") (Some "Mira 7").

Definition sample_doctor_body : DoctorForm.formdata :=
  DoctorForm.mk_formdata (Some "Vera Belova") (Some "cardiologist")
    (Some "+7 900 666") (Some "vera@clinic.example") (Some "21").

Definition sample_appointment_body : AppointmentForm.formdata :=
  AppointmentForm.mk_formdata (Given 2) (Given 2) (Some "2024-3-5 7:05")
    (Some "отменён").

(** A request for a page of a list. *)
Definition get_page (e : endpoint) (page : Z) : request :=
  mk_request GET e (Some 1) (Some page) true LoginForm.no_formdata
    PatientForm.no_formdata DoctorForm.no_formdata AppointmentForm.no_formdata
    sample_now.

(* ================================================================== *)
(** ** Vocabulary of the statements *)

Definition date_eq_dec (a b : date.t) : {a = b} + {a <> b}.
Proof. decide equality; apply Z.eq_dec. Defined.

(** The number of appointments of a list dated on a given day. *)
Fixpoint count_dated (today : date.t) (l : list Appointment.t) : nat :=
  match l with
  | [] => 0%nat
  | a :: l' =>
      ((if date_eq_dec (datetime.date (Appointment.appointment_date a)) today
        then 1 else 0) + count_dated today l')%nat
  end.

(** The page a refused login is answered with; it is made of the
    submitted body alone. *)
Definition failed_login_page (r : request) : response :=
  render_template "login.html" (login_page (app.login_form r)).

(** The form holds what the body held for each submitted field. *)
Definition keeps_entered_values (fd : AppointmentForm.formdata)
    (f : AppointmentForm.t) : Prop :=
  (forall p, AppointmentForm.fd_patient_id fd = Given p ->
             AppointmentForm.patient_id f = Some p) /\
  (forall q, AppointmentForm.fd_doctor_id fd = Given q ->
             AppointmentForm.doctor_id f = Some q) /\
  (forall s, AppointmentForm.fd_appointment_date fd = Some s ->
             AppointmentForm.appointment_date f = Some (Text s)) /\
  (forall st, AppointmentForm.fd_status fd = Some st ->
              AppointmentForm.status f = Some st).

(** The outcome is the appointment form shown again, with an error on the
    named field, and nothing written. *)
Definition rejects_field (d : db.t) (o : outcome) (field : string) : Prop :=
  store o = d /\
  exists form title e,
    reply o = render_template "admin/appointment_form.html"
                (appointment_form_page form title) /\
    In (field, e) (AppointmentForm.errors form).

(** The appointment names a patient and a doctor of the tables. *)
Definition references_existing (d : db.t) (a : Appointment.t) : Prop :=
  (exists p, In p (db.patients d) /\ Patient.id p = Appointment.patient_id a) /\
  (exists x, In x (db.doctors d) /\ Doctor.id x = Appointment.doctor_id a).

(** *** Insertion order

    The order of insertion is kept by watching the ids of a table from one
    request to the next: the ids that remain keep their order and an id
    that appears goes last. *)

Definition mem (i : Z) (l : list Z) : bool := existsb (Z.eqb i) l.

Definition track (before after log : list Z) : list Z :=
  filter (fun i => mem i after) log ++ filter (fun i => negb (mem i before)) after.

Fixpoint insertion_order (ids : db.t -> list Z) (step : db.t -> request -> db.t)
    (d : db.t) (rs : list request) (log : list Z) : list Z :=
  match rs with
  | [] => log
  | r :: rs' =>
      insertion_order ids step (step d r) rs' (track (ids d) (ids (step d r)) log)
  end.

Definition patient_ids (d : db.t) : list Z := map Patient.id (db.patients d).
Definition doctor_ids (d : db.t) : list Z := map Doctor.id (db.doctors d).

(** The window of page [page] starts at or past the end of a table of
    [rows] rows, and is not the first. *)
Definition past_the_end (rows : nat) (page : Z) : Prop :=
  1 < page /\ Z.of_nat rows <= (page - 1) * 10.

(** What one request does to the ids of a table: nothing, or an id above
    all the others is added at the end, or an id is removed. *)
Definition table_step (ids ids' : list Z) : Prop :=
  ids' = ids \/
  (exists n, (forall i, In i ids -> i < n) /\ ids' = ids ++ [n]) \/
  (exists i, ids' = filter (fun j => negb (j =? i)) ids).

(** *** What the rows of the tables satisfy *)

Definition appointment_ids (d : db.t) : list Z := map Appointment.id (db.appointments d).

(** The keys of a table grow along its rows. *)
Fixpoint increasingb (l : list Z) : bool :=
  match l with
  | [] => true
  | i :: l' => forallb (fun j => i <? j) l' && increasingb l'
  end.

Definition keys_increasingb (d : db.t) : bool :=
  increasingb (patient_ids d) && increasingb (doctor_ids d) &&
  increasingb (appointment_ids d).

(** A text that passes [DataRequired(), Length(max)]. *)
Definition text_okb (max : Z) (s : string) : bool :=
  negb (blank s) && (len s <=? max).

Definition email_okb (email_syntax : string -> bool) (e : option string) : bool :=
  match e with
  | Some s => (len s <=? 120) && email_syntax s
  | None => false
  end.

Definition birth_date_okb (b : option date.t) : bool :=
  match b with
  | Some x => date.valid x
  | None => true
  end.

Definition patient_okb (email_syntax : string -> bool) (p : Patient.t) : bool :=
  text_okb 150 (Patient.full_name p) && text_okb 20 (Patient.phone p) &&
  email_okb email_syntax (Patient.email p) && birth_date_okb (Patient.birth_date p).

Definition doctor_okb (email_syntax : string -> bool) (x : Doctor.t) : bool :=
  text_okb 150 (Doctor.full_name x) && text_okb 100 (Doctor.specialty x) &&
  text_okb 20 (Doctor.phone x) && email_okb email_syntax (Doctor.email x) &&
  Length 20 (Doctor.room x).

(** The appointment names a patient and a doctor of the tables. *)
Definition referencesb (d : db.t) (a : Appointment.t) : bool :=
  mem (Appointment.patient_id a) (patient_ids d) &&
  mem (Appointment.doctor_id a) (doctor_ids d).

(** A date of the calendar on a whole minute. *)
Definition date_okb (x : datetime.t) : bool :=
  datetime.valid x && (datetime.second x =? 0) && (datetime.microsecond x =? 0).

Definition status_okb (s : option string) : bool :=
  valid_choice String.eqb AppointmentForm.status_choices s.

Definition referentially_intactb (d : db.t) : bool :=
  forallb (referencesb d) (db.appointments d).

Definition rows_well_formedb (email_syntax : string -> bool) (d : db.t) : bool :=
  forallb (patient_okb email_syntax) (db.patients d) &&
  forallb (doctor_okb email_syntax) (db.doctors d) &&
  forallb (fun a => date_okb (Appointment.appointment_date a) &&
                    status_okb (Appointment.status a)) (db.appointments d).

(** *** What one request writes

    The tables after a request are the tables before it, or differ from
    them by one write of one view. *)
Inductive effect (email_syntax : string -> bool) (d : db.t) : db.t -> Prop :=
| no_write : effect email_syntax d d
| patient_added (p : Patient.t) :
    Patient.id p = next_rowid Patient.id (db.patients d) ->
    patient_okb email_syntax p = true ->
    effect email_syntax d
      (db.with_patients (insert_row Patient.id p (db.patients d)) d)
| patient_updated (old p : Patient.t) :
    query_get Patient.id (Patient.id p) (db.patients d) = Some old ->
    (patient_okb email_syntax old = true -> patient_okb email_syntax p = true) ->
    effect email_syntax d
      (db.with_patients (update_row Patient.id p (db.patients d)) d)
| patient_deleted (i : Z) :
    existsb (fun a => Appointment.patient_id a =? i) (db.appointments d) = false ->
    effect email_syntax d
      (db.with_patients (delete_row Patient.id i (db.patients d)) d)
| doctor_added (x : Doctor.t) :
    Doctor.id x = next_rowid Doctor.id (db.doctors d) ->
    doctor_okb email_syntax x = true ->
    effect email_syntax d
      (db.with_doctors (insert_row Doctor.id x (db.doctors d)) d)
| doctor_updated (old x : Doctor.t) :
    query_get Doctor.id (Doctor.id x) (db.doctors d) = Some old ->
    doctor_okb email_syntax x = true ->
    effect email_syntax d
      (db.with_doctors (update_row Doctor.id x (db.doctors d)) d)
| doctor_deleted (i : Z) :
    existsb (fun a => Appointment.doctor_id a =? i) (db.appointments d) = false ->
    effect email_syntax d
      (db.with_doctors (delete_row Doctor.id i (db.doctors d)) d)
| appointment_added (a : Appointment.t) :
    Appointment.id a = next_rowid Appointment.id (db.appointments d) ->
    referencesb d a = true ->
    date_okb (Appointment.appointment_date a) = true ->
    status_okb (Appointment.status a) = true ->
    effect email_syntax d
      (db.with_appointments (insert_row Appointment.id a (db.appointments d)) d)
| appointment_updated (old a : Appointment.t) :
    query_get Appointment.id (Appointment.id a) (db.appointments d) = Some old ->
    referencesb d a = true ->
    date_okb (Appointment.appointment_date a) = true ->
    status_okb (Appointment.status a) = true ->
    effect email_syntax d
      (db.with_appointments (update_row Appointment.id a (db.appointments d)) d)
| appointment_deleted (i : Z) :
    effect email_syntax d
      (db.with_appointments (delete_row Appointment.id i (db.appointments d)) d).

(** The views that write: add, edit and delete. *)
Definition write_endpoint (e : endpoint) : bool :=
  match e with
  | AddPatient | EditPatient _ | DeletePatient _
  | AddDoctor | EditDoctor _ | DeleteDoctor _
  | AddAppointment | EditAppointment _ | DeleteAppointment _ => true
  | _ => false
  end.

(** No date of the list is earlier than a date that follows it. *)
Fixpoint descendingb (l : list datetime.t) : bool :=
  match l with
  | [] => true
  | x :: l' => forallb (fun y => negb (datetime.ltb x y)) l' && descendingb l'
  end.

(* ================================================================== *)
(** * Properties *)

(** ** Dates: formatting and parsing *)

Ltac enum_range m lo n tac :=
  lazymatch n with
  | O => exfalso; lia
  | S ?n' =>
      destruct (Z.eq_dec m lo) as [->|];
      [ tac
      | let lo' := eval compute in (lo + 1) in enum_range m lo' n' tac ]
  end.

Ltac run_matcher H := vm_compute; rewrite H; reflexivity.

Lemma code_ascii_of_nat (c : Z) :
  0 <= c < 256 -> code (ascii_of_nat (Z.to_nat c)) = c.
Proof. intros H. unfold code. rewrite nat_ascii_embedding by lia. lia. Qed.

(** A text of characters below 128 is the list of its bytes. *)
Lemma code_points_ascii_text (l : list Z) :
  Forall (fun c => 0 <= c < 128) l -> code_points (ascii_text l) = l.
Proof.
  unfold code_points. induction 1 as [|c l Hc _ IH]; [reflexivity|].
  cbn [ascii_text fold_right]. fold (ascii_text l).
  cbn [decode]. rewrite code_ascii_of_nat by lia.
  unfold lead. destruct (Z.ltb_spec c 128) as [_|]; [|lia].
  rewrite IH. reflexivity.
Qed.

Lemma decimal_ascii (d : Z) : 0 <= d <= 9 -> decimal (48 + d) = Some d.
Proof. intros Hd. enum_range d 0 10%nat reflexivity. Qed.

Lemma is_space_digit (d : Z) : 0 <= d <= 9 -> is_space (48 + d) = false.
Proof. intros Hd. enum_range d 0 10%nat reflexivity. Qed.

Lemma pad2_ascii (n : Z) : Forall (fun c => 0 <= c < 128) (pad2 n).
Proof. unfold pad2. repeat constructor; Z.div_mod_to_equations; lia. Qed.

Lemma year_digits_ascii (y : Z) :
  1 <= y <= 9999 -> Forall (fun c => 0 <= c < 128) (year_digits y).
Proof.
  intros Hy. unfold year_digits, pad4, pad2.
  destruct (Z.ltb_spec y 10); [|destruct (Z.ltb_spec y 100);
    [|destruct (Z.ltb_spec y 1000)]];
    repeat constructor; Z.div_mod_to_equations; lia.
Qed.

Lemma re_Y_pad4 {A : Type} (y : Z) (rest : list Z)
    (k : Z -> list Z -> option A) :
  0 <= y <= 9999 -> re_Y (pad4 y ++ rest) k = k y rest.
Proof.
  intros Hy. unfold pad4, pad2, re_Y. cbn [app].
  rewrite !decimal_ascii by (Z.div_mod_to_equations; lia).
  f_equal. Z.div_mod_to_equations. lia.
Qed.

Lemma re_m_pad2 {A : Type} (m : Z) (rest : list Z)
    (k : Z -> list Z -> option A) (r : A) :
  1 <= m <= 12 -> k m rest = Some r -> re_m (pad2 m ++ rest) k = Some r.
Proof.
  intros Hm H. enum_range m 1 12%nat ltac:(run_matcher H).
Qed.

Lemma re_d_pad2 {A : Type} (d : Z) (rest : list Z)
    (k : Z -> list Z -> option A) (r : A) :
  1 <= d <= 31 -> k d rest = Some r -> re_d (pad2 d ++ rest) k = Some r.
Proof.
  intros Hd H. enum_range d 1 31%nat ltac:(run_matcher H).
Qed.

Lemma re_H_pad2 {A : Type} (h : Z) (rest : list Z)
    (k : Z -> list Z -> option A) (r : A) :
  0 <= h <= 23 -> k h rest = Some r -> re_H (pad2 h ++ rest) k = Some r.
Proof.
  intros Hh H. enum_range h 0 24%nat ltac:(run_matcher H).
Qed.

Lemma re_M_pad2 {A : Type} (m : Z) (rest : list Z)
    (k : Z -> list Z -> option A) (r : A) :
  0 <= m <= 59 -> k m rest = Some r -> re_M (pad2 m ++ rest) k = Some r.
Proof.
  intros Hm H. enum_range m 0 60%nat ltac:(run_matcher H).
Qed.

(** A blank followed by a two-digit field is one run of [\s+]. *)
Lemma re_spaces1_pad2 {A : Type} (n : Z) (rest : list Z)
    (k : list Z -> option A) :
  re_spaces1 (32 :: pad2 n ++ rest) k = k (pad2 n ++ rest).
Proof.
  unfold re_spaces1. change (is_space 32) with true. cbn iota.
  unfold pad2. cbn [app re_spaces].
  rewrite is_space_digit by (Z.div_mod_to_equations; lia). reflexivity.
Qed.

Lemma days_in_month_le (y m : Z) : days_in_month y m <= 31.
Proof.
  unfold days_in_month.
  repeat match goal with |- context [if ?b then _ else _] => destruct b end; lia.
Qed.

Lemma valid_bounds (x : datetime.t) :
  datetime.valid x = true ->
  1 <= datetime.year x <= 9999 /\ 1 <= datetime.month x <= 12 /\
  1 <= datetime.day x <= 31 /\ 0 <= datetime.hour x <= 23 /\
  0 <= datetime.minute x <= 59.
Proof.
  intros Hv. destruct x as [y m d h mi s u].
  unfold datetime.valid, date.valid in Hv. cbn in Hv.
  repeat (apply andb_prop in Hv; destruct Hv as [Hv ?]).
  repeat match goal with H : (_ <=? _) = true |- _ => apply Z.leb_le in H end.
  apply Z.leb_le in Hv. pose proof (days_in_month_le y m).
  cbn [datetime.year datetime.month datetime.day datetime.hour datetime.minute]. lia.
Qed.

Lemma strftime_code_points (x : datetime.t) :
  datetime.valid x = true ->
  code_points (strftime x) =
    year_digits (datetime.year x) ++ 45 :: pad2 (datetime.month x) ++
    45 :: pad2 (datetime.day x) ++ 32 :: pad2 (datetime.hour x) ++
    58 :: pad2 (datetime.minute x).
Proof.
  intros Hv. apply valid_bounds in Hv. unfold strftime.
  apply code_points_ascii_text.
  repeat first [ apply Forall_app; split | apply Forall_cons; [lia|]
               | apply pad2_ascii | apply year_digits_ascii; lia ].
Qed.

(** Parsing what [strftime] wrote gives the value back, for a value
    whose seconds and microseconds are zero and whose year has four
    digits. *)
Lemma strptime_strftime (x : datetime.t) :
  datetime.valid x = true ->
  datetime.second x = 0 -> datetime.microsecond x = 0 ->
  1000 <= datetime.year x ->
  strptime (strftime x) = Some x.
Proof.
  intros Hv Hs Hu Hy. unfold strptime.
  rewrite strftime_code_points by exact Hv.
  pose proof (valid_bounds x Hv) as Hb.
  destruct x as [y m d h mi s u]. cbn in Hs, Hu, Hy, Hb. subst s u.
  unfold match_date. cbn [datetime.year datetime.month
    datetime.day datetime.hour datetime.minute].
  unfold year_digits.
  destruct (Z.ltb_spec y 10); [lia|]. destruct (Z.ltb_spec y 100); [lia|].
  destruct (Z.ltb_spec y 1000); [lia|].
  rewrite re_Y_pad4 by lia. cbn [lit]. change (45 =? 45) with true. cbn iota.
  erewrite re_m_pad2; [ | lia | ].
  2:{ cbn [lit]. change (45 =? 45) with true. cbn iota.
      eapply re_d_pad2; [lia | ]. cbv beta.
      rewrite re_spaces1_pad2.
      eapply re_H_pad2; [lia | ]. cbv beta.
      cbn [lit]. change (58 =? 58) with true. cbn iota.
      rewrite <- (app_nil_r (pad2 mi)).
      eapply re_M_pad2; [lia | reflexivity]. }
  cbv beta iota. rewrite Hv. reflexivity.
Qed.

(** For a year below 1000 [strftime] writes fewer than four digits, and
    [strptime], whose [%Y] asks for four, refuses the text. *)
Lemma strptime_strftime_short_year (x : datetime.t) :
  datetime.valid x = true ->
  datetime.year x < 1000 ->
  strptime (strftime x) = None.
Proof.
  intros Hv Hy. unfold strptime.
  rewrite strftime_code_points by exact Hv.
  unfold match_date, year_digits, pad2, re_Y.
  assert (Hdash : decimal 45 = None) by reflexivity.
  destruct (Z.ltb_spec (datetime.year x) 10);
    [|destruct (Z.ltb_spec (datetime.year x) 100);
      [|destruct (Z.ltb_spec (datetime.year x) 1000); [|lia]]];
    cbn [app]; rewrite Hdash;
    repeat match goal with
           | |- context [match decimal ?c with _ => _ end] => destruct (decimal c)
           end; reflexivity.
Qed.

(** What [strptime] returns is a date and time of the calendar, on a
    whole minute. *)
Lemma strptime_valid (s : string) (x : datetime.t) :
  strptime s = Some x ->
  datetime.valid x = true /\ datetime.second x = 0 /\ datetime.microsecond x = 0.
Proof.
  unfold strptime.
  destruct (match_date _ _) as [[[[[[y m] d] h] mi] [|c rest]]|]; try discriminate.
  destruct (datetime.valid _) eqn:Hv; [|discriminate].
  intros [= <-]. auto.
Qed.

Example strptime_ok :
  strptime "2024-03-15 14:30" = Some (datetime.mk 2024 3 15 14 30 0 0).
Proof. reflexivity. Qed.

Example strptime_bad : strptime "2024-13-40 25:99" = None.
Proof. reflexivity. Qed.

Example strptime_short_fields :
  strptime "2024-3-5  7:05" = Some (datetime.mk 2024 3 5 7 5 0 0).
Proof. reflexivity. Qed.

Example strptime_no_such_day : strptime "2023-02-29 10:00" = None.
Proof. reflexivity. Qed.

Example strptime_seconds_left_over : strptime "2024-03-15 14:30:00" = None.
Proof. reflexivity. Qed.

(** [\d] takes the decimal digits of any script and [\s] any blank. *)
Example strptime_arabic_indic_year :
  strptime "٢٠٢٤-03-15 14:30" = Some (datetime.mk 2024 3 15 14 30 0 0).
Proof. reflexivity. Qed.

Example strptime_no_break_space :
  strptime "2024-03-15 14:30" = Some (datetime.mk 2024 3 15 14 30 0 0).
Proof. reflexivity. Qed.

Example strptime_month_digits_are_ascii : strptime "2024-٠٣-15 14:30" = None.
Proof. reflexivity. Qed.

Example strftime_short_year :
  strftime (datetime.mk 987 3 5 7 5 0 0) = "987-03-05 07:05".
Proof. reflexivity. Qed.

Example len_counts_characters : len "кабинет номер" = 13.
Proof. reflexivity. Qed.

Example blank_no_break_space : blank " 　" = true.
Proof. reflexivity. Qed.

Lemma date_eqb_eq (a b : date.t) : date.eqb a b = true <-> a = b.
Proof.
  destruct a as [y m d], b as [y' m' d']. unfold date.eqb. cbn.
  rewrite !andb_true_iff, !Z.eqb_eq. split.
  - intros [[-> ->] ->]. reflexivity.
  - intros [= -> -> ->]. auto.
Qed.

(* ------------------------------------------------------------------ *)
(** ** Tables *)

Section TableFacts.
Context {row : Type} (rowid : row -> Z).

Lemma query_get_rowid (i : Z) (t : list row) (a : row) :
  query_get rowid i t = Some a -> rowid a = i /\ In a t.
Proof.
  unfold query_get. intros H. apply find_some in H.
  destruct H as [Hin Heq]. apply Z.eqb_eq in Heq. auto.
Qed.

Lemma query_get_none (i : Z) (t : list row) :
  query_get rowid i t = None <-> (forall a, In a t -> rowid a <> i).
Proof.
  unfold query_get. split.
  - intros H a Hin Heq. apply (find_none _ _ H) in Hin.
    apply Z.eqb_neq in Hin. contradiction.
  - intros H. induction t as [|x t IH]; cbn; [reflexivity|].
    destruct (Z.eqb_spec (rowid x) i) as [Heq|Hne].
    + exfalso. apply (H x); [left; reflexivity | exact Heq].
    + apply IH. intros a Hin. apply H. right. exact Hin.
Qed.

Lemma in_delete_row (i : Z) (t : list row) (a : row) :
  In a (delete_row rowid i t) <-> In a t /\ rowid a <> i.
Proof.
  unfold delete_row. rewrite filter_In, negb_true_iff, Z.eqb_neq. reflexivity.
Qed.

Lemma query_get_delete_row (i : Z) (t : list row) :
  query_get rowid i (delete_row rowid i t) = None.
Proof.
  apply query_get_none. intros a Hin. apply in_delete_row in Hin. tauto.
Qed.

Lemma in_insert_row (r : row) (t : list row) (a : row) :
  In a (insert_row rowid r t) <-> a = r \/ In a t.
Proof.
  induction t as [|x t IH]; cbn.
  - intuition congruence.
  - destruct (rowid r <? rowid x); cbn; [intuition congruence|].
    rewrite IH. intuition congruence.
Qed.

Lemma in_update_row (r : row) (t : list row) (a : row) :
  In a (update_row rowid r t) -> a = r \/ In a t.
Proof.
  unfold update_row. rewrite in_map_iff. intros [x [Hx Hin]].
  destruct (rowid x =? rowid r); subst; auto.
Qed.

Lemma query_get_update_row (r : row) (t : list row) (a : row) :
  query_get rowid (rowid r) t = Some a ->
  query_get rowid (rowid r) (update_row rowid r t) = Some r.
Proof.
  unfold query_get, update_row.
  induction t as [|x t IH]; cbn; [discriminate|].
  destruct (Z.eqb_spec (rowid x) (rowid r)) as [Heq|Hne].
  - intros _. cbn. rewrite Z.eqb_refl. reflexivity.
  - intros H. cbn. destruct (Z.eqb_spec (rowid x) (rowid r)); [contradiction|].
    apply IH. exact H.
Qed.

Lemma map_rowid_update_row (r : row) (t : list row) :
  map rowid (update_row rowid r t) = map rowid t.
Proof.
  unfold update_row. rewrite map_map. apply map_ext_in. intros x _.
  destruct (Z.eqb_spec (rowid x) (rowid r)); congruence.
Qed.

Lemma map_rowid_delete_row (i : Z) (t : list row) :
  map rowid (delete_row rowid i t) = filter (fun j => negb (j =? i)) (map rowid t).
Proof.
  unfold delete_row. induction t as [|x t IH]; cbn; [reflexivity|].
  destruct (rowid x =? i); cbn; rewrite IH; reflexivity.
Qed.

Lemma rowid_lt_next (t : list row) (a : row) :
  In a t -> rowid a < next_rowid rowid t.
Proof.
  unfold next_rowid. induction t as [|x t IH]; cbn [map fold_right]; [contradiction|].
  intros [->|Hin]; [lia|]. specialize (IH Hin). lia.
Qed.

(** A row whose key is above all the keys of the table is stored last. *)
Lemma insert_row_last (r : row) (t : list row) :
  (forall a, In a t -> rowid a < rowid r) ->
  insert_row rowid r t = t ++ [r].
Proof.
  induction t as [|x t IH]; cbn; intros H; [reflexivity|].
  destruct (Z.ltb_spec (rowid r) (rowid x)) as [Hlt|Hge].
  - specialize (H x (or_introl eq_refl)). lia.
  - rewrite IH; [reflexivity|]. intros a Hin. apply H. right. exact Hin.
Qed.
End TableFacts.

Lemma in_firstn {A : Type} (n : nat) (l : list A) (a : A) :
  In a (firstn n l) -> In a l.
Proof.
  intros H. rewrite <- (firstn_skipn n l). apply in_or_app. left. exact H.
Qed.

Lemma in_skipn {A : Type} (n : nat) (l : list A) (a : A) :
  In a (skipn n l) -> In a l.
Proof.
  intros H. rewrite <- (firstn_skipn n l). apply in_or_app. right. exact H.
Qed.

Lemma paginate_items {A : Type} (q : list A) (page per_page : Z) (p : Pagination.t A) :
  paginate q page per_page = Some p ->
  1 <= page /\
  Pagination.items p =
    firstn (Z.to_nat per_page) (skipn (Z.to_nat ((page - 1) * per_page)) q).
Proof.
  unfold paginate. destruct (Z.ltb_spec page 1) as [|Hp]; [discriminate|].
  destruct (firstn _ _) eqn:E.
  - destruct (page =? 1); [|discriminate]. intros [= <-]. cbn. auto.
  - intros [= <-]. cbn. auto.
Qed.

Lemma paginate_in {A : Type} (q : list A) (page per_page : Z) (p : Pagination.t A) (a : A) :
  paginate q page per_page = Some p -> In a (Pagination.items p) -> In a q.
Proof.
  intros H Hin. apply paginate_items in H. destruct H as [_ H]. rewrite H in Hin.
  apply in_firstn in Hin. apply in_skipn in Hin. exact Hin.
Qed.

Lemma in_insert_desc (a x : Appointment.t) (l : list Appointment.t) :
  In x (insert_desc a l) <-> x = a \/ In x l.
Proof.
  induction l as [|b l IH]; cbn [insert_desc In].
  - intuition congruence.
  - destruct (datetime.ltb (Appointment.appointment_date a) (Appointment.appointment_date b));
      cbn [In]; [rewrite IH|]; intuition congruence.
Qed.

Lemma in_order_by_date_desc (x : Appointment.t) (l : list Appointment.t) :
  In x (order_by_date_desc l) <-> In x l.
Proof.
  unfold order_by_date_desc. induction l as [|a l IH]; cbn [fold_right In]; [tauto|].
  rewrite in_insert_desc, IH. intuition congruence.
Qed.

(* ------------------------------------------------------------------ *)
(** ** The views *)

Lemma create_admin_tables (generate_password_hash : string -> string) (d : db.t) :
  db.patients (app.create_admin generate_password_hash d) = db.patients d /\
  db.doctors (app.create_admin generate_password_hash d) = db.doctors d /\
  db.appointments (app.create_admin generate_password_hash d) = db.appointments d.
Proof.
  unfold app.create_admin. destruct (find _ _); repeat split; reflexivity.
Qed.

Section ViewFacts.
Variable check_password_hash : string -> string -> bool.
Variable generate_password_hash : string -> string.
Variable email_syntax : string -> bool.

Local Abbreviation view := (app.view check_password_hash email_syntax).
Local Abbreviation dispatch := (app.dispatch check_password_hash email_syntax).
Local Abbreviation full_dispatch_request :=
  (app.full_dispatch_request check_password_hash generate_password_hash email_syntax).
Local Abbreviation login := (app.login check_password_hash).

Lemma login_required_anonymous (f : db.t -> request -> outcome) (d : db.t) (r : request) :
  app.is_authenticated d r = false ->
  app.login_required f d r =
    app.respond d r (redirect Login) [("Please log in to access this page.", "message")].
Proof. unfold app.login_required. intros ->. reflexivity. Qed.

Lemma login_required_authenticated (f : db.t -> request -> outcome) (d : db.t) (r : request) :
  app.is_authenticated d r = true -> app.login_required f d r = f d r.
Proof. unfold app.login_required. intros ->. reflexivity. Qed.

(** C1. A request to a route under /admin (the dashboard; list, add,
    edit and delete of patients, doctors and appointments) whose session
    names no administrator of the tables it finds is answered, when its
    method is one the route takes, by the redirect to the login page, and
    its view writes nothing: the tables and the session after it are
    those it found.  The tables a request finds are those of the store,
    except for the first request the process handles, before which
    [create_admin] has run: patients, doctors and appointments are as
    before in any case, and so are the administrators when the request is
    not the first or one of them is named admin. *)
Theorem C1_admin_routes_need_a_session (got_first_request : bool)
    (d : db.t) (r : request) :
  let found := if got_first_request then d
               else app.create_admin generate_password_hash d in
  let o := full_dispatch_request got_first_request d r in
  admin_route (target r) = true ->
  app.is_authenticated found r = false ->
  store o = found /\
  session o = session_user_id r /\
  (accepts (target r) (method r) = true -> reply o = redirect Login) /\
  db.patients (store o) = db.patients d /\
  db.doctors (store o) = db.doctors d /\
  db.appointments (store o) = db.appointments d /\
  (got_first_request = true \/
   (exists u, find (fun a => String.eqb (AdminUser.username a) "admin")
                (db.admin_users d) = Some u) ->
   store o = d).
Proof.
  intros found o Hadmin Hanon. subst o. unfold app.full_dispatch_request. fold found.
  assert (Hview : view (target r) found r =
            app.respond found r (redirect Login)
              [("Please log in to access this page.", "message")]).
  { destruct (target r); try discriminate Hadmin; cbn [app.view];
      unfold app.bound_id; rewrite ?Hanon; cbn [andb];
      apply login_required_anonymous; exact Hanon. }
  assert (Hstore : store (dispatch found r) = found).
  { unfold app.dispatch.
    destruct (method r);
      try (destruct (accepts (target r) _); [rewrite Hview|]); reflexivity. }
  assert (Hfound : db.patients found = db.patients d /\
                   db.doctors found = db.doctors d /\
                   db.appointments found = db.appointments d).
  { subst found. destruct got_first_request;
      [repeat split; reflexivity | apply create_admin_tables]. }
  rewrite Hstore. destruct Hfound as [Hp [Hd Ha]].
  split; [reflexivity|]. split; [|split; [|split; [exact Hp|split; [exact Hd|split;
    [exact Ha|]]]]].
  - unfold app.dispatch.
    destruct (method r);
      try (destruct (accepts (target r) _); [rewrite Hview|]); reflexivity.
  - unfold app.dispatch.
    destruct (method r) eqn:Hm;
      try (intros Hacc; rewrite Hacc, Hview; reflexivity).
    unfold accepts. destruct (target r); discriminate.
  - subst found. intros [-> | [u Hu]]; [reflexivity|].
    destruct got_first_request; [reflexivity|].
    unfold app.create_admin. rewrite Hu. reflexivity.
Qed.

(** C2. Two refused attempts to log in, one under a name the table does
    not hold and one under a name it holds with a password that does not
    check, have the same outcome: the one failure message, the page made
    of the submitted body alone, the session left as it was and the
    tables untouched. *)
Theorem C2_failed_logins_look_alike (d : db.t) (r1 r2 : request)
    (name1 pw1 name2 pw2 : string) (u : AdminUser.t) :
  app.is_authenticated d r1 = false ->
  app.is_authenticated d r2 = false ->
  method r1 = POST -> method r2 = POST ->
  csrf_ok r1 = true -> csrf_ok r2 = true ->
  login_formdata r1 = LoginForm.mk_formdata (Some name1) (Some pw1) ->
  login_formdata r2 = LoginForm.mk_formdata (Some name2) (Some pw2) ->
  blank name1 = false -> blank pw1 = false ->
  blank name2 = false -> blank pw2 = false ->
  find (fun a => String.eqb (AdminUser.username a) name1) (db.admin_users d) = None ->
  find (fun a => String.eqb (AdminUser.username a) name2) (db.admin_users d) = Some u ->
  app.check_password check_password_hash u pw2 = false ->
  let o1 := login d r1 in
  let o2 := login d r2 in
  flashed o1 = [app.bad_login_flash] /\ flashed o2 = flashed o1 /\
  reply o1 = failed_login_page r1 /\ reply o2 = failed_login_page r2 /\
  session o1 = session_user_id r1 /\ session o2 = session_user_id r2 /\
  store o1 = d /\ store o2 = d.
Proof.
  intros A1 A2 M1 M2 C1 C2 F1 F2 Bn1 Bp1 Bn2 Bp2 Hnone Hsome Hpw.
  unfold failed_login_page, app.login, app.login_form, app.validate_on_submit,
    app.body_of.
  rewrite A1, A2, M1, M2, C1, C2, F1, F2. cbn.
  unfold required_text, DataRequired. rewrite Bn1, Bp1, Bn2, Bp2. cbn.
  rewrite Hnone, Hsome, Hpw. cbn. repeat split; reflexivity.
Qed.
End ViewFacts.

(** C9. The dashboard writes nothing, and its count of today's
    appointments is the number of appointments whose date is the date of
    the server's clock when the request is handled; with one appointment
    dated today and one dated another day, such as yesterday, in the
    table, the count is 1. *)
Theorem C9_dashboard_counts_today (d : db.t) (r : request) :
  app.is_authenticated d r = true ->
  let o := app.dashboard d r in
  let today := datetime.date (now r) in
  store o = d /\ session o = session_user_id r /\
  exists s,
    reply o = render_template "admin/dashboard.html" (dashboard_page s) /\
    stats.today_appointments s = Z.of_nat (count_dated today (db.appointments d)) /\
    (forall a1 a2,
       db.appointments d = [a1; a2] \/ db.appointments d = [a2; a1] ->
       datetime.date (Appointment.appointment_date a1) = today ->
       datetime.date (Appointment.appointment_date a2) <> today ->
       stats.today_appointments s = 1).
Proof.
  intros Hauth o today. subst o.
  unfold app.dashboard. rewrite login_required_authenticated by exact Hauth.
  cbn [store session reply app.respond].
  split; [reflexivity|]. split; [reflexivity|].
  eexists. split; [reflexivity|]. cbn [stats.today_appointments].
  assert (Hcount : forall l,
            List.length (filter (fun a =>
               date.eqb (datetime.date (Appointment.appointment_date a)) today) l)
            = count_dated today l).
  { induction l as [|a l IH]; [reflexivity|]. cbn [filter count_dated].
    destruct (date_eq_dec (datetime.date (Appointment.appointment_date a)) today) as [e|n].
    - rewrite (proj2 (date_eqb_eq _ _) e). cbn. rewrite IH. reflexivity.
    - destruct (date.eqb _ today) eqn:E.
      + apply date_eqb_eq in E. contradiction.
      + rewrite IH. reflexivity. }
  split.
  - rewrite Hcount. reflexivity.
  - intros a1 a2 Hl H1 H2. rewrite Hcount.
    destruct Hl as [-> | ->]; cbn [count_dated];
      destruct (date_eq_dec (datetime.date (Appointment.appointment_date a1)) today);
      destruct (date_eq_dec (datetime.date (Appointment.appointment_date a2)) today);
      try contradiction; reflexivity.
Qed.

(** C5. For patients, doctors and appointments alike: after a delete
    that went through, no page of the list shows a record under the id,
    and a second delete of the id is answered with 404 and writes
    nothing. *)
Theorem C5_delete_then_gone (d : db.t) (r : request) (id : Z) :
  app.is_authenticated d r = true ->
  (reply (app.delete_patient id d r) = redirect Patients ->
   let d' := store (app.delete_patient id d r) in
   (forall r' t p, reply (app.patients d' r') = render_template t (patients_page p) ->
      forall x, In x (Pagination.items p) -> Patient.id x <> id) /\
   (forall r', app.is_authenticated d' r' = true ->
      reply (app.delete_patient id d' r') = abort 404 /\
      store (app.delete_patient id d' r') = d')) /\
  (reply (app.delete_doctor id d r) = redirect Doctors ->
   let d' := store (app.delete_doctor id d r) in
   (forall r' t p, reply (app.doctors d' r') = render_template t (doctors_page p) ->
      forall x, In x (Pagination.items p) -> Doctor.id x <> id) /\
   (forall r', app.is_authenticated d' r' = true ->
      reply (app.delete_doctor id d' r') = abort 404 /\
      store (app.delete_doctor id d' r') = d')) /\
  (reply (app.delete_appointment id d r) = redirect Appointments ->
   let d' := store (app.delete_appointment id d r) in
   (forall r' t p, reply (app.appointments d' r') = render_template t (appointments_page p) ->
      forall x, In x (Pagination.items p) -> Appointment.id x <> id) /\
   (forall r', app.is_authenticated d' r' = true ->
      reply (app.delete_appointment id d' r') = abort 404 /\
      store (app.delete_appointment id d' r') = d')).
Proof.
  intros Hauth. split; [|split].
  - unfold app.delete_patient at 1 2. rewrite login_required_authenticated by exact Hauth.
    destruct (query_get Patient.id id (db.patients d)) as [a|] eqn:Hget;
      [|discriminate].
    apply query_get_rowid in Hget. destruct Hget as [Hid _].
    destruct (existsb _ _); [discriminate|]. intros _. cbn [store]. rewrite Hid.
    split.
    + intros r' t p. unfold app.patients, app.login_required.
      destruct (app.is_authenticated _ r'); [|discriminate].
      cbn [db.patients db.with_patients].
      destruct (paginate _ _ _) as [q|] eqn:Hp; [|discriminate].
      intros [= _ <-] x Hin. apply (paginate_in _ _ _ _ _ Hp) in Hin.
      apply (proj1 (in_delete_row _ _ _ _)) in Hin. tauto.
    + intros r' Hauth'. unfold app.delete_patient.
      rewrite login_required_authenticated by exact Hauth'.
      cbn [db.patients db.with_patients]. rewrite query_get_delete_row.
      split; reflexivity.
  - unfold app.delete_doctor at 1 2. rewrite login_required_authenticated by exact Hauth.
    destruct (query_get Doctor.id id (db.doctors d)) as [a|] eqn:Hget;
      [|discriminate].
    apply query_get_rowid in Hget. destruct Hget as [Hid _].
    destruct (existsb _ _); [discriminate|]. intros _. cbn [store]. rewrite Hid.
    split.
    + intros r' t p. unfold app.doctors, app.login_required.
      destruct (app.is_authenticated _ r'); [|discriminate].
      cbn [db.doctors db.with_doctors].
      destruct (paginate _ _ _) as [q|] eqn:Hp; [|discriminate].
      intros [= _ <-] x Hin. apply (paginate_in _ _ _ _ _ Hp) in Hin.
      apply (proj1 (in_delete_row _ _ _ _)) in Hin. tauto.
    + intros r' Hauth'. unfold app.delete_doctor.
      rewrite login_required_authenticated by exact Hauth'.
      cbn [db.doctors db.with_doctors]. rewrite query_get_delete_row.
      split; reflexivity.
  - unfold app.delete_appointment at 1 2.
    rewrite login_required_authenticated by exact Hauth.
    destruct (query_get Appointment.id id (db.appointments d)) as [a|] eqn:Hget;
      [|discriminate].
    apply query_get_rowid in Hget. destruct Hget as [Hid _].
    intros _. cbn [store]. rewrite Hid.
    split.
    + intros r' t p. unfold app.appointments, app.login_required.
      destruct (app.is_authenticated _ r'); [|discriminate].
      cbn [db.appointments db.with_appointments].
      destruct (paginate _ _ _) as [q|] eqn:Hp; [|discriminate].
      intros [= _ <-] x Hin. apply (paginate_in _ _ _ _ _ Hp) in Hin.
      apply (proj1 (in_order_by_date_desc _ _)) in Hin.
      apply (proj1 (in_delete_row _ _ _ _)) in Hin. tauto.
    + intros r' Hauth'. unfold app.delete_appointment.
      rewrite login_required_authenticated by exact Hauth'.
      cbn [db.appointments db.with_appointments]. rewrite query_get_delete_row.
      split; reflexivity.
Qed.

(* ------------------------------------------------------------------ *)
(** ** Form validation *)

Lemma no_errors_nil (es : form_errors) : no_errors es = true <-> es = [].
Proof. destruct es; cbn; split; congruence. Qed.

Lemma no_errors_in (es : form_errors) (x : string * field_error) :
  In x es -> no_errors es = false.
Proof. destruct es; [contradiction | reflexivity]. Qed.

Lemma on_field_nil (name : string) (es : list field_error) :
  on_field name es = [] -> es = [].
Proof. destruct es; [reflexivity | discriminate]. Qed.

Lemma on_field_in (name : string) (es : list field_error) (e : field_error) :
  In e es -> In (name, e) (on_field name es).
Proof. intros H. unfold on_field. apply (in_map (fun e => (name, e))). exact H. Qed.

Lemma valid_choice_patient (d : db.t) (p : Z) :
  valid_choice Z.eqb (app.patient_options d) (Some p) = true <->
  exists x, In x (db.patients d) /\ Patient.id x = p.
Proof.
  unfold valid_choice, app.patient_options. rewrite existsb_exists. split.
  - intros [c [Hin Heq]]. apply in_map_iff in Hin. destruct Hin as [x [<- Hx]].
    cbn in Heq. apply Z.eqb_eq in Heq. eauto.
  - intros [x [Hx <-]]. eexists. split.
    + apply in_map_iff. exists x. split; [reflexivity | exact Hx].
    + cbn. apply Z.eqb_refl.
Qed.

Lemma valid_choice_doctor (d : db.t) (q : Z) :
  valid_choice Z.eqb (app.doctor_options d) (Some q) = true <->
  exists x, In x (db.doctors d) /\ Doctor.id x = q.
Proof.
  unfold valid_choice, app.doctor_options. rewrite existsb_exists. split.
  - intros [c [Hin Heq]]. apply in_map_iff in Hin. destruct Hin as [x [<- Hx]].
    cbn in Heq. apply Z.eqb_eq in Heq. eauto.
  - intros [x [Hx <-]]. eexists. split.
    + apply in_map_iff. exists x. split; [reflexivity | exact Hx].
    + cbn. apply Z.eqb_refl.
Qed.

Lemma valid_choice_status (st : string) :
  valid_choice String.eqb AppointmentForm.status_choices (Some st) = true <->
  In st (map fst AppointmentForm.status_choices).
Proof.
  unfold valid_choice. rewrite existsb_exists. split.
  - intros [c [Hin Heq]]. apply String.eqb_eq in Heq. subst st.
    apply in_map. exact Hin.
  - intros Hin. apply in_map_iff in Hin. destruct Hin as [c [<- Hc]].
    exists c. split; [exact Hc | apply String.eqb_refl].
Qed.

(** The fields of the appointment form of a submitted request. *)
Lemma appointment_form_submitted (d : db.t) (obj : option Appointment.t) (r : request) :
  is_submitted (method r) = true ->
  app.appointment_form d obj r =
    AppointmentForm.validate (csrf_ok r)
      (AppointmentForm.set_choices (app.patient_options d) (app.doctor_options d)
         (AppointmentForm.process obj (appointment_formdata r))).
Proof.
  intros H. unfold app.appointment_form, app.body_of. rewrite H. reflexivity.
Qed.

Lemma keeps_entered_values_form (d : db.t) (obj : option Appointment.t) (r : request) :
  is_submitted (method r) = true ->
  keeps_entered_values (appointment_formdata r) (app.appointment_form d obj r).
Proof.
  intros H. rewrite appointment_form_submitted by exact H.
  unfold keeps_entered_values. cbn.
  repeat split; intros x Hx; rewrite Hx; reflexivity.
Qed.

(** What a validated appointment form without errors holds. *)
Lemma appointment_form_accepted (d : db.t) (obj : option Appointment.t) (r : request) :
  app.validate_on_submit r (AppointmentForm.errors (app.appointment_form d obj r)) = true ->
  let f := app.appointment_form d obj r in
  is_submitted (method r) = true /\
  (exists p, AppointmentForm.patient_id f = Some p /\
             exists x, In x (db.patients d) /\ Patient.id x = p) /\
  (exists q, AppointmentForm.doctor_id f = Some q /\
             exists x, In x (db.doctors d) /\ Doctor.id x = q) /\
  (exists st, AppointmentForm.status f = Some st /\
              In st (map fst AppointmentForm.status_choices)).
Proof.
  intros H f. subst f. unfold app.validate_on_submit in H.
  apply andb_prop in H. destruct H as [Hs He]. split; [exact Hs|].
  rewrite appointment_form_submitted in * by exact Hs.
  apply no_errors_nil in He. cbn in He.
  repeat (apply app_eq_nil in He; destruct He as [? He]).
  repeat match goal with H : on_field _ _ = [] |- _ => apply on_field_nil in H end.
  cbn. repeat split.
  - unfold AppointmentForm.select_int_errors in H0.
    destruct (fst (select_int_field _ (AppointmentForm.fd_patient_id _))) as [p|];
      [|discriminate].
    exists p. split; [reflexivity|]. apply valid_choice_patient.
    destruct (DataRequired_int (Some p)); [|discriminate].
    apply app_eq_nil in H0. destruct H0 as [_ H0].
    destruct (valid_choice _ _ _); [reflexivity | discriminate].
  - unfold AppointmentForm.select_int_errors in H1.
    destruct (fst (select_int_field _ (AppointmentForm.fd_doctor_id _))) as [q|];
      [|discriminate].
    exists q. split; [reflexivity|]. apply valid_choice_doctor.
    destruct (DataRequired_int (Some q)); [|discriminate].
    apply app_eq_nil in H1. destruct H1 as [_ H1].
    destruct (valid_choice Z.eqb (app.doctor_options d) _); [reflexivity | discriminate].
  - unfold AppointmentForm.status_errors in He.
    destruct (text_field _ (AppointmentForm.fd_status _)) as [st|];
      [|discriminate].
    exists st. split; [reflexivity|]. apply valid_choice_status.
    destruct (valid_choice String.eqb _ _); [reflexivity | discriminate].
Qed.

Lemma patient_id_error (d : db.t) (obj : option Appointment.t) (r : request) (p : Z) :
  is_submitted (method r) = true ->
  AppointmentForm.fd_patient_id (appointment_formdata r) = Given p ->
  query_get Patient.id p (db.patients d) = None ->
  exists e, In ("patient_id", e) (AppointmentForm.errors (app.appointment_form d obj r)).
Proof.
  intros Hs Hfd Hnone. rewrite appointment_form_submitted by exact Hs.
  assert (Hv : valid_choice Z.eqb (app.patient_options d) (Some p) = false).
  { destruct (valid_choice _ _ _) eqn:E; [|reflexivity].
    apply valid_choice_patient in E. destruct E as [x [Hin Hid]].
    exfalso. exact (proj1 (query_get_none _ _ _) Hnone x Hin Hid). }
  cbn. rewrite Hfd. cbn [select_int_field fst snd].
  unfold AppointmentForm.select_int_errors at 1. rewrite Hv.
  exists (if DataRequired_int (Some p) then NotAValidChoice else Required).
  apply in_or_app. right. apply in_or_app. left.
  apply on_field_in. destruct (DataRequired_int (Some p)); left; reflexivity.
Qed.

Lemma doctor_id_error (d : db.t) (obj : option Appointment.t) (r : request) (q : Z) :
  is_submitted (method r) = true ->
  AppointmentForm.fd_doctor_id (appointment_formdata r) = Given q ->
  query_get Doctor.id q (db.doctors d) = None ->
  exists e, In ("doctor_id", e) (AppointmentForm.errors (app.appointment_form d obj r)).
Proof.
  intros Hs Hfd Hnone. rewrite appointment_form_submitted by exact Hs.
  assert (Hv : valid_choice Z.eqb (app.doctor_options d) (Some q) = false).
  { destruct (valid_choice _ _ _) eqn:E; [|reflexivity].
    apply valid_choice_doctor in E. destruct E as [x [Hin Hid]].
    exfalso. exact (proj1 (query_get_none _ _ _) Hnone x Hin Hid). }
  cbn. rewrite Hfd. cbn [select_int_field fst snd].
  unfold AppointmentForm.select_int_errors at 2. rewrite Hv.
  exists (if DataRequired_int (Some q) then NotAValidChoice else Required).
  apply in_or_app. right. apply in_or_app. right. apply in_or_app. left.
  apply on_field_in. destruct (DataRequired_int (Some q)); left; reflexivity.
Qed.

(** A text that is no number in the patient field: on the add form the
    field is left without data and [DataRequired] reports alone; on the
    edit form the field keeps the stored id and the error of filling
    stays. *)
Example malformed_id_on_add :
  let r := post_appointment AddAppointment
             (AppointmentForm.mk_formdata Malformed (Given 1)
                (Some "2024-03-15 14:30") (Some "запланирован")) in
  AppointmentForm.errors (app.appointment_form sample_db None r) =
    [("patient_id", Required)].
Proof. reflexivity. Qed.

Example malformed_id_on_edit :
  let r := post_appointment (EditAppointment 1)
             (AppointmentForm.mk_formdata Malformed (Given 1)
                (Some "2024-03-15 14:30") (Some "запланирован")) in
  AppointmentForm.errors
    (app.appointment_form sample_db
       (Some (Appointment.mk 1 1 1 (datetime.mk 2024 3 15 14 30 0 0)
                (Some "запланирован"))) r) =
    [("patient_id", CouldNotCoerce)].
Proof. reflexivity. Qed.

(** An id above the keys of the store: the request of an administrator
    ends with status 500 and the tables as they were; without a session
    it is sent to the login page, as for any id. *)
Example id_above_the_keys :
  let dispatch := app.dispatch sample_check_password_hash sample_email_syntax in
  let r := post_patient (DeletePatient (max_int64 + 1)) PatientForm.no_formdata in
  let r' := mk_request POST (DeletePatient (max_int64 + 1)) None None true
              LoginForm.no_formdata PatientForm.no_formdata DoctorForm.no_formdata
              AppointmentForm.no_formdata sample_now in
  reply (dispatch sample_db r) = abort 500 /\
  store (dispatch sample_db r) = sample_db /\
  reply (dispatch sample_db r') = redirect Login /\
  reply (dispatch sample_db
           (post_patient (DeletePatient max_int64) PatientForm.no_formdata)) = abort 404.
Proof. repeat split; reflexivity. Qed.

Lemma status_error (d : db.t) (obj : option Appointment.t) (r : request) (st : string) :
  is_submitted (method r) = true ->
  AppointmentForm.fd_status (appointment_formdata r) = Some st ->
  ~ In st (map fst AppointmentForm.status_choices) ->
  In ("status", NotAValidChoice)
    (AppointmentForm.errors (app.appointment_form d obj r)).
Proof.
  intros Hs Hfd Hnot. rewrite appointment_form_submitted by exact Hs.
  assert (Hv : valid_choice String.eqb AppointmentForm.status_choices (Some st) = false).
  { destruct (valid_choice _ _ _) eqn:E; [|reflexivity].
    apply valid_choice_status in E. contradiction. }
  cbn. rewrite Hfd. cbn [text_field].
  unfold AppointmentForm.status_errors. rewrite Hv.
  repeat (apply in_or_app; right). left. reflexivity.
Qed.

Lemma add_appointment_rejects (d : db.t) (r : request) (field : string) (e : field_error) :
  app.is_authenticated d r = true ->
  In (field, e) (AppointmentForm.errors (app.appointment_form d None r)) ->
  rejects_field d (app.add_appointment d r) field.
Proof.
  intros Hauth Hin. unfold app.add_appointment.
  rewrite login_required_authenticated by exact Hauth.
  unfold app.validate_on_submit. rewrite (no_errors_in _ _ Hin), andb_false_r.
  split; [reflexivity|]. do 3 eexists. split; [reflexivity | exact Hin].
Qed.

Lemma edit_appointment_rejects (d : db.t) (r : request) (id : Z) (a : Appointment.t)
    (field : string) (e : field_error) :
  app.is_authenticated d r = true ->
  query_get Appointment.id id (db.appointments d) = Some a ->
  In (field, e) (AppointmentForm.errors (app.appointment_form d (Some a) r)) ->
  rejects_field d (app.edit_appointment id d r) field.
Proof.
  intros Hauth Hget Hin. unfold app.edit_appointment.
  rewrite login_required_authenticated by exact Hauth. rewrite Hget.
  unfold app.validate_on_submit. rewrite (no_errors_in _ _ Hin), andb_false_r.
  split; [reflexivity|]. do 3 eexists. split; [reflexivity | exact Hin].
Qed.

(** The rows a write of the appointment views adds or changes name rows
    of the two other tables. *)
Lemma add_appointment_writes (d : db.t) (r : request) (a : Appointment.t) :
  In a (db.appointments (store (app.add_appointment d r))) ->
  ~ In a (db.appointments d) ->
  references_existing (store (app.add_appointment d r)) a.
Proof.
  unfold app.add_appointment, app.login_required.
  destruct (app.is_authenticated d r); [|intros; contradiction].
  destruct (app.validate_on_submit r _) eqn:Hv; [|intros; contradiction].
  apply appointment_form_accepted in Hv.
  destruct Hv as [_ [[p [Hp Hpx]] [[q [Hq Hqx]] _]]].
  destruct (AppointmentForm.appointment_date _) as [[s|x]|]; try (intros; contradiction).
  destruct (strptime s) as [dt|]; [|intros; contradiction].
  rewrite Hp, Hq. cbn [store db.appointments db.with_appointments].
  unfold app.insert_appointment. intros Hin Hnot.
  apply in_insert_row in Hin. destruct Hin as [-> | Hin]; [|contradiction].
  split; cbn; assumption.
Qed.

Lemma edit_appointment_writes (d : db.t) (r : request) (id : Z) (a : Appointment.t) :
  In a (db.appointments (store (app.edit_appointment id d r))) ->
  ~ In a (db.appointments d) ->
  references_existing (store (app.edit_appointment id d r)) a.
Proof.
  unfold app.edit_appointment, app.login_required.
  destruct (app.is_authenticated d r); [|intros; contradiction].
  destruct (query_get Appointment.id id (db.appointments d)) as [old|];
    [|intros; contradiction].
  destruct (app.validate_on_submit r _) eqn:Hv; [|intros; contradiction].
  apply appointment_form_accepted in Hv.
  destruct Hv as [_ [[p [Hp Hpx]] [[q [Hq Hqx]] _]]].
  destruct (AppointmentForm.appointment_date _) as [[s|x]|]; try (intros; contradiction).
  destruct (strptime s) as [dt|]; [|intros; contradiction].
  rewrite Hp, Hq. cbn [store db.appointments db.with_appointments].
  intros Hin Hnot.
  apply in_update_row in Hin. destruct Hin as [-> | Hin]; [|contradiction].
  split; cbn; assumption.
Qed.

(** C4. An appointment submitted to the add view, or to the edit view of
    a stored appointment, with a patient id or a doctor id that names no
    row of its table is turned down with a validation error on that field
    and nothing is written; and every row an appointment view writes
    names a patient and a doctor that the tables hold at that moment. *)
Theorem C4_appointments_reference_existing_rows (d : db.t) (r : request) (id : Z) :
  app.is_authenticated d r = true ->
  is_submitted (method r) = true ->
  (forall p,
     AppointmentForm.fd_patient_id (appointment_formdata r) = Given p ->
     query_get Patient.id p (db.patients d) = None ->
     rejects_field d (app.add_appointment d r) "patient_id" /\
     (forall a, query_get Appointment.id id (db.appointments d) = Some a ->
                rejects_field d (app.edit_appointment id d r) "patient_id")) /\
  (forall q,
     AppointmentForm.fd_doctor_id (appointment_formdata r) = Given q ->
     query_get Doctor.id q (db.doctors d) = None ->
     rejects_field d (app.add_appointment d r) "doctor_id" /\
     (forall a, query_get Appointment.id id (db.appointments d) = Some a ->
                rejects_field d (app.edit_appointment id d r) "doctor_id")) /\
  (forall a,
     In a (db.appointments (store (app.add_appointment d r))) ->
     ~ In a (db.appointments d) ->
     references_existing (store (app.add_appointment d r)) a) /\
  (forall a,
     In a (db.appointments (store (app.edit_appointment id d r))) ->
     ~ In a (db.appointments d) ->
     references_existing (store (app.edit_appointment id d r)) a).
Proof.
  intros Hauth Hs. split; [|split; [|split]].
  - intros p Hfd Hnone. split.
    + destruct (patient_id_error d None r p Hs Hfd Hnone) as [e He].
      exact (add_appointment_rejects d r _ e Hauth He).
    + intros a Hget.
      destruct (patient_id_error d (Some a) r p Hs Hfd Hnone) as [e He].
      exact (edit_appointment_rejects d r id a _ e Hauth Hget He).
  - intros q Hfd Hnone. split.
    + destruct (doctor_id_error d None r q Hs Hfd Hnone) as [e He].
      exact (add_appointment_rejects d r _ e Hauth He).
    + intros a Hget.
      destruct (doctor_id_error d (Some a) r q Hs Hfd Hnone) as [e He].
      exact (edit_appointment_rejects d r id a _ e Hauth Hget He).
  - intros a. apply add_appointment_writes.
  - intros a. apply edit_appointment_writes.
Qed.

(** C7. The status of a submitted appointment is one of the three values
    of the field: a submission to the add view, or to the edit view of a
    stored appointment, with another status is turned down with the
    error of the field and nothing is written, so no other value is put
    in its place; what the views store is one of the three; and an
    appointment inserted without a status receives the first of them,
    the default of the column. *)
Theorem C7_status_is_one_of_three (d : db.t) (r : request) (id : Z) :
  app.is_authenticated d r = true ->
  is_submitted (method r) = true ->
  map fst AppointmentForm.status_choices = ["запланирован"; "завершён"; "отменён"] /\
  (forall st,
     AppointmentForm.fd_status (appointment_formdata r) = Some st ->
     ~ In st (map fst AppointmentForm.status_choices) ->
     rejects_field d (app.add_appointment d r) "status" /\
     (forall a, query_get Appointment.id id (db.appointments d) = Some a ->
                rejects_field d (app.edit_appointment id d r) "status")) /\
  (forall a,
     In a (db.appointments (store (app.add_appointment d r))) \/
     In a (db.appointments (store (app.edit_appointment id d r))) ->
     ~ In a (db.appointments d) ->
     exists st, Appointment.status a = Some st /\
                In st (map fst AppointmentForm.status_choices)) /\
  (forall a t,
     Appointment.status a = None ->
     app.insert_appointment a t =
       insert_row Appointment.id
         (Appointment.mk (next_rowid Appointment.id t) (Appointment.patient_id a)
            (Appointment.doctor_id a) (Appointment.appointment_date a)
            (Some "запланирован")) t).
Proof.
  intros Hauth Hs. split; [reflexivity|]. split; [|split].
  - intros st Hfd Hnot. split.
    + exact (add_appointment_rejects d r _ _ Hauth (status_error d None r st Hs Hfd Hnot)).
    + intros a Hget.
      exact (edit_appointment_rejects d r id a _ _ Hauth Hget
               (status_error d (Some a) r st Hs Hfd Hnot)).
  - intros a [Hin | Hin] Hnot.
    + revert Hin. unfold app.add_appointment.
      rewrite login_required_authenticated by exact Hauth.
      destruct (app.validate_on_submit r _) eqn:Hv; [|intros; contradiction].
      apply appointment_form_accepted in Hv.
      destruct Hv as [_ [[p [Hp _]] [[q [Hq _]] [st [Hst Hin]]]]].
      destruct (AppointmentForm.appointment_date _) as [[s|x]|]; try (intros; contradiction).
      destruct (strptime s) as [dt|]; [|intros; contradiction].
      rewrite Hp, Hq, Hst. cbn [store db.appointments db.with_appointments].
      unfold app.insert_appointment. intros Ha.
      apply in_insert_row in Ha. destruct Ha as [-> | Ha]; [|contradiction].
      exists st. split; [reflexivity | exact Hin].
    + revert Hin. unfold app.edit_appointment.
      rewrite login_required_authenticated by exact Hauth.
      destruct (query_get Appointment.id id (db.appointments d)) as [old|];
        [|intros; contradiction].
      destruct (app.validate_on_submit r _) eqn:Hv; [|intros; contradiction].
      apply appointment_form_accepted in Hv.
      destruct Hv as [_ [[p [Hp _]] [[q [Hq _]] [st [Hst Hin]]]]].
      destruct (AppointmentForm.appointment_date _) as [[s|x]|]; try (intros; contradiction).
      destruct (strptime s) as [dt|]; [|intros; contradiction].
      rewrite Hp, Hq, Hst. cbn [store db.appointments db.with_appointments].
      intros Ha.
      apply in_update_row in Ha. destruct Ha as [-> | Ha]; [|contradiction].
      exists st. split; [reflexivity | exact Hin].
  - intros a t Hnone. unfold app.insert_appointment. rewrite Hnone. reflexivity.
Qed.

Lemma validate_on_submit_submitted (r : request) (es : form_errors) :
  app.validate_on_submit r es = true -> is_submitted (method r) = true.
Proof. unfold app.validate_on_submit. intros H. apply andb_prop in H. tauto. Qed.

(** A date text that does not parse leaves the tables as they were,
    whatever else the request holds. *)
Lemma unparsed_date_writes_nothing (d : db.t) (r : request) (id : Z) (s : string) :
  AppointmentForm.fd_appointment_date (appointment_formdata r) = Some s ->
  strptime s = None ->
  store (app.add_appointment d r) = d /\ store (app.edit_appointment id d r) = d.
Proof.
  intros Hfd Hbad. split.
  - unfold app.add_appointment, app.login_required.
    destruct (app.is_authenticated d r); [|reflexivity].
    destruct (app.validate_on_submit r _) eqn:Hv; [|reflexivity].
    apply validate_on_submit_submitted in Hv.
    destruct (keeps_entered_values_form d None r Hv) as [_ [_ [Hd _]]].
    rewrite (Hd s Hfd), Hbad. reflexivity.
  - unfold app.edit_appointment, app.login_required.
    destruct (app.is_authenticated d r); [|reflexivity].
    destruct (query_get Appointment.id id (db.appointments d)) as [old|]; [|reflexivity].
    destruct (app.validate_on_submit r _) eqn:Hv; [|reflexivity].
    apply validate_on_submit_submitted in Hv.
    destruct (keeps_entered_values_form d (Some old) r Hv) as [_ [_ [Hd _]]].
    rewrite (Hd s Hfd), Hbad. reflexivity.
Qed.

(** C3. For a submission to the add view or to the edit view of a stored
    appointment that comes to the parsing of its date text (the session
    names an administrator, the validators of the form pass): a text
    that does not parse under [%Y-%m-%d %H:%M], as 2024-13-40 25:99 does
    not, is answered with the message on the date format and the form
    shown again with the submitted values, and no row is written or
    changed; a text that parses, as 2024-03-15 14:30 does, is taken and
    the row is stored with exactly the parsed value.  A text that does
    not parse writes nothing in any case. *)
Theorem C3_appointment_date_is_parsed (d : db.t) (r : request) (id : Z) (s : string) :
  app.is_authenticated d r = true ->
  AppointmentForm.fd_appointment_date (appointment_formdata r) = Some s ->
  strptime "2024-13-40 25:99" = None /\
  strptime "2024-03-15 14:30" = Some (datetime.mk 2024 3 15 14 30 0 0) /\
  (strptime s = None ->
   store (app.add_appointment d r) = d /\ store (app.edit_appointment id d r) = d) /\
  (let f := app.appointment_form d None r in
   let o := app.add_appointment d r in
   app.validate_on_submit r (AppointmentForm.errors f) = true ->
   keeps_entered_values (appointment_formdata r) f /\
   (strptime s = None ->
    reply o = render_template "admin/appointment_form.html"
                (appointment_form_page f "Добавить приём") /\
    flashed o = [app.bad_date_flash] /\ store o = d) /\
   (forall dt, strptime s = Some dt ->
    reply o = redirect Appointments /\
    exists a,
      db.appointments (store o) = insert_row Appointment.id a (db.appointments d) /\
      In a (db.appointments (store o)) /\
      Appointment.appointment_date a = dt /\
      Some (Appointment.patient_id a) = AppointmentForm.patient_id f /\
      Some (Appointment.doctor_id a) = AppointmentForm.doctor_id f /\
      Appointment.status a = AppointmentForm.status f)) /\
  (forall old, query_get Appointment.id id (db.appointments d) = Some old ->
   let f := app.appointment_form d (Some old) r in
   let o := app.edit_appointment id d r in
   app.validate_on_submit r (AppointmentForm.errors f) = true ->
   keeps_entered_values (appointment_formdata r) f /\
   (strptime s = None ->
    reply o = render_template "admin/appointment_form.html"
                (appointment_form_page f "Редактировать приём") /\
    flashed o = [app.bad_date_flash] /\ store o = d) /\
   (forall dt, strptime s = Some dt ->
    reply o = redirect Appointments /\
    exists a,
      query_get Appointment.id id (db.appointments (store o)) = Some a /\
      Appointment.appointment_date a = dt /\
      Some (Appointment.patient_id a) = AppointmentForm.patient_id f /\
      Some (Appointment.doctor_id a) = AppointmentForm.doctor_id f /\
      Appointment.status a = AppointmentForm.status f)).
Proof.
  intros Hauth Hfd.
  split; [reflexivity|]. split; [reflexivity|].
  split; [apply unparsed_date_writes_nothing; exact Hfd|]. split.
  - intros f o Hv. subst o.
    pose proof (validate_on_submit_submitted _ _ Hv) as Hs.
    pose proof (keeps_entered_values_form d None r Hs) as Hk. fold f in Hk.
    split; [exact Hk|].
    destruct Hk as [_ [_ [Hd _]]]. specialize (Hd s Hfd).
    pose proof (appointment_form_accepted d None r Hv) as Hacc. cbv zeta in Hacc.
    fold f in Hacc. destruct Hacc as [_ [[p [Hp _]] [[q [Hq _]] [st [Hst _]]]]].
    unfold app.add_appointment. rewrite login_required_authenticated by exact Hauth.
    fold f. rewrite Hv, Hd, Hp, Hq, Hst. split.
    + intros ->. repeat split; reflexivity.
    + intros dt ->. split; [reflexivity|].
      cbn [store db.appointments db.with_appointments]. unfold app.insert_appointment.
      cbn [Appointment.status Appointment.patient_id Appointment.doctor_id
           Appointment.appointment_date].
      eexists. split; [reflexivity|]. split.
      * apply in_insert_row. left. reflexivity.
      * repeat split; reflexivity.
  - intros old Hget f o Hv. subst o.
    pose proof (validate_on_submit_submitted _ _ Hv) as Hs.
    pose proof (keeps_entered_values_form d (Some old) r Hs) as Hk. fold f in Hk.
    split; [exact Hk|].
    destruct Hk as [_ [_ [Hd _]]]. specialize (Hd s Hfd).
    pose proof (appointment_form_accepted d (Some old) r Hv) as Hacc. cbv zeta in Hacc.
    fold f in Hacc. destruct Hacc as [_ [[p [Hp _]] [[q [Hq _]] [st [Hst _]]]]].
    unfold app.edit_appointment. rewrite login_required_authenticated by exact Hauth.
    rewrite Hget. fold f. rewrite Hv, Hd, Hp, Hq, Hst. split.
    + intros ->. repeat split; reflexivity.
    + intros dt ->. split; [reflexivity|].
      cbn [store db.appointments db.with_appointments].
      destruct (query_get_rowid _ _ _ _ Hget) as [Hid _].
      eexists. split.
      * rewrite <- Hid at 1.
        apply (query_get_update_row Appointment.id
                 (Appointment.mk (Appointment.id old) p q dt (Some st)) _ old).
        cbn [Appointment.id]. rewrite Hid. exact Hget.
      * repeat split; reflexivity.
Qed.

(** C10. The edit view fills the date field with the text [strftime]
    writes for the stored date under [%Y-%m-%d %H:%M].  For a stored date
    of the calendar on a whole minute, a validated submission of the edit
    form that carries this text does as follows.  When the year has four
    digits, [strptime] reads the text back as the stored value, the view
    redirects to the list and the date of the appointment is as it was.
    When the year is below 1000, the text holds fewer than four digits of
    year, [strptime] refuses it, and the view shows the form again with
    the date-format message and writes nothing: the form that the view
    itself filled cannot be saved. *)
Theorem C10_prefilled_date_round_trip (d : db.t) (r : request) (id : Z)
    (a : Appointment.t) :
  let x := Appointment.appointment_date a in
  datetime.valid x = true ->
  datetime.second x = 0 -> datetime.microsecond x = 0 ->
  query_get Appointment.id id (db.appointments d) = Some a ->
  app.is_authenticated d r = true ->
  (is_submitted (method r) = false ->
   exists f,
     reply (app.edit_appointment id d r) =
       render_template "admin/appointment_form.html"
         (appointment_form_page f "Редактировать приём") /\
     AppointmentForm.appointment_date f = Some (Text (strftime x))) /\
  (app.validate_on_submit r
     (AppointmentForm.errors (app.appointment_form d (Some a) r)) = true ->
   AppointmentForm.fd_appointment_date (appointment_formdata r) = Some (strftime x) ->
   let o := app.edit_appointment id d r in
   (1000 <= datetime.year x ->
    strptime (strftime x) = Some x /\
    reply o = redirect Appointments /\
    exists a',
      query_get Appointment.id id (db.appointments (store o)) = Some a' /\
      Appointment.appointment_date a' = x) /\
   (datetime.year x < 1000 ->
    strptime (strftime x) = None /\
    reply o = render_template "admin/appointment_form.html"
                (appointment_form_page (app.appointment_form d (Some a) r)
                   "Редактировать приём") /\
    flashed o = [app.bad_date_flash] /\
    store o = d)).
Proof.
  intros x Hvalid Hsec Hmic Hget Hauth. split.
  - intros Hns. unfold app.edit_appointment.
    rewrite login_required_authenticated by exact Hauth. rewrite Hget.
    unfold app.validate_on_submit. rewrite Hns. cbn [andb].
    eexists. split; reflexivity.
  - intros Hv Hfd o. subst o.
    pose proof (validate_on_submit_submitted _ _ Hv) as Hs.
    destruct (keeps_entered_values_form d (Some a) r Hs) as [_ [_ [Hd _]]].
    specialize (Hd _ Hfd).
    pose proof (appointment_form_accepted d (Some a) r Hv) as Hacc. cbv zeta in Hacc.
    destruct Hacc as [_ [[p [Hp _]] [[q [Hq _]] _]]].
    unfold app.edit_appointment.
    rewrite login_required_authenticated by exact Hauth.
    rewrite Hget, Hv, Hd. split.
    + intros Hy. pose proof (strptime_strftime x Hvalid Hsec Hmic Hy) as Hrt.
      split; [exact Hrt|]. rewrite Hrt, Hp, Hq. split; [reflexivity|].
      cbn [store db.appointments db.with_appointments].
      destruct (query_get_rowid _ _ _ _ Hget) as [Hid _].
      eexists. split.
      * rewrite <- Hid at 1.
        apply (query_get_update_row Appointment.id
                 (Appointment.mk (Appointment.id a) p q x _) _ a).
        cbn [Appointment.id]. rewrite Hid. exact Hget.
      * reflexivity.
    + intros Hy. pose proof (strptime_strftime_short_year x Hvalid Hy) as Hrt.
      split; [exact Hrt|]. rewrite Hrt. repeat split; reflexivity.
Qed.

(* ------------------------------------------------------------------ *)
(** ** Lists in insertion order *)

Lemma mem_in (i : Z) (l : list Z) : mem i l = true <-> In i l.
Proof.
  unfold mem. rewrite existsb_exists. split.
  - intros [x [Hin Heq]]. apply Z.eqb_eq in Heq. subst. exact Hin.
  - intros Hin. exists i. split; [exact Hin | apply Z.eqb_refl].
Qed.

Lemma filter_all {A : Type} (f : A -> bool) (l : list A) :
  (forall x, In x l -> f x = true) -> filter f l = l.
Proof.
  induction l as [|a l IH]; intros H; cbn; [reflexivity|].
  rewrite (H a (or_introl eq_refl)). f_equal. apply IH.
  intros x Hx. apply H. right. exact Hx.
Qed.

Lemma filter_none {A : Type} (f : A -> bool) (l : list A) :
  (forall x, In x l -> f x = false) -> filter f l = [].
Proof.
  induction l as [|a l IH]; intros H; cbn; [reflexivity|].
  rewrite (H a (or_introl eq_refl)). apply IH.
  intros x Hx. apply H. right. exact Hx.
Qed.

Lemma track_step (ids ids' : list Z) : table_step ids ids' -> track ids ids' ids = ids'.
Proof.
  unfold track. intros [-> | [[n [Hn ->]] | [i ->]]].
  - rewrite filter_all by (intros x Hx; apply mem_in; exact Hx).
    rewrite filter_none by (intros x Hx; apply negb_false_iff, mem_in; exact Hx).
    apply app_nil_r.
  - rewrite filter_all
      by (intros x Hx; apply mem_in, in_or_app; left; exact Hx).
    rewrite filter_app.
    rewrite filter_none by (intros x Hx; apply negb_false_iff, mem_in; exact Hx).
    cbn. destruct (mem n ids) eqn:E; [|reflexivity].
    apply mem_in in E. specialize (Hn n E). lia.
  - rewrite (filter_none (fun j => negb (mem j ids))).
    2:{ intros x Hx. apply filter_In in Hx. apply negb_false_iff, mem_in. tauto. }
    rewrite app_nil_r. apply filter_ext_in. intros x Hx.
    destruct (negb (x =? i)) eqn:E.
    + apply mem_in, filter_In. split; [exact Hx | exact E].
    + destruct (mem x _) eqn:M; [|reflexivity].
      apply mem_in, filter_In in M. destruct M as [_ M]. congruence.
Qed.

Lemma insertion_order_follows (ids : db.t -> list Z) (step : db.t -> request -> db.t) :
  (forall d r, table_step (ids d) (ids (step d r))) ->
  forall rs d,
    insertion_order ids step d rs (ids d) = ids (fold_left step rs d).
Proof.
  intros Hstep. induction rs as [|r rs IH]; intros d; cbn; [reflexivity|].
  rewrite (track_step _ _ (Hstep d r)). apply IH.
Qed.

Lemma table_step_insert {row : Type} (rowid : row -> Z) (r : row) (t : list row) :
  rowid r = next_rowid rowid t ->
  table_step (map rowid t) (map rowid (insert_row rowid r t)).
Proof.
  intros Hid. right. left. exists (rowid r). split.
  - intros i Hin. apply in_map_iff in Hin. destruct Hin as [a [<- Ha]].
    rewrite Hid. apply rowid_lt_next. exact Ha.
  - rewrite insert_row_last.
    + rewrite map_app. reflexivity.
    + intros a Ha. rewrite Hid. apply rowid_lt_next. exact Ha.
Qed.

Lemma table_step_update {row : Type} (rowid : row -> Z) (r : row) (t : list row) :
  table_step (map rowid t) (map rowid (update_row rowid r t)).
Proof. left. apply map_rowid_update_row. Qed.

Lemma table_step_delete {row : Type} (rowid : row -> Z) (i : Z) (t : list row) :
  table_step (map rowid t) (map rowid (delete_row rowid i t)).
Proof. right. right. exists i. apply map_rowid_delete_row. Qed.

Lemma table_step_same (ids : list Z) : table_step ids ids.
Proof. left. reflexivity. Qed.

Create HintDb steps.
#[local] Hint Resolve table_step_same table_step_update table_step_delete : steps.

Ltac open_view :=
  repeat match goal with
    | |- context [if ?b then _ else _] =>
        lazymatch b with
        | context [match _ with _ => _ end] => fail
        | context [if _ then _ else _] => fail
        | _ => destruct b
        end
    | |- context [match ?x with _ => _ end] =>
        lazymatch x with
        | context [match _ with _ => _ end] => fail
        | context [if _ then _ else _] => fail
        | _ => destruct x
        end
    end.

Section Steps.
Variable check_password_hash : string -> string -> bool.
Variable generate_password_hash : string -> string.
Variable email_syntax : string -> bool.

Lemma view_patients_step (e : endpoint) (d : db.t) (r : request) :
  table_step (patient_ids d)
    (patient_ids (store (app.view check_password_hash email_syntax e d r))).
Proof.
  unfold patient_ids.
  destruct e; cbn [app.view]; unfold app.bound_id;
    try (destruct (_ && (max_int64 <? _)); [apply table_step_same|]);
    unfold app.login, app.logout, app.dashboard, app.patients, app.add_patient,
      app.edit_patient, app.delete_patient, app.doctors, app.add_doctor,
      app.edit_doctor, app.delete_doctor, app.appointments, app.add_appointment,
      app.edit_appointment, app.delete_appointment, app.index,
      app.login_required, app.respond;
    open_view; cbn [store db.patients db.with_patients db.with_doctors
                    db.with_appointments];
    auto with steps.
  apply table_step_insert. reflexivity.
Qed.

Lemma view_doctors_step (e : endpoint) (d : db.t) (r : request) :
  table_step (doctor_ids d)
    (doctor_ids (store (app.view check_password_hash email_syntax e d r))).
Proof.
  unfold doctor_ids.
  destruct e; cbn [app.view]; unfold app.bound_id;
    try (destruct (_ && (max_int64 <? _)); [apply table_step_same|]);
    unfold app.login, app.logout, app.dashboard, app.patients, app.add_patient,
      app.edit_patient, app.delete_patient, app.doctors, app.add_doctor,
      app.edit_doctor, app.delete_doctor, app.appointments, app.add_appointment,
      app.edit_appointment, app.delete_appointment, app.index,
      app.login_required, app.respond;
    open_view; cbn [store db.doctors db.with_patients db.with_doctors
                    db.with_appointments];
    auto with steps.
  apply table_step_insert. reflexivity.
Qed.

Local Abbreviation step := (fun d r => store (app.dispatch check_password_hash email_syntax d r)).
Local Abbreviation serve :=
  (app.serve check_password_hash generate_password_hash email_syntax).
Local Abbreviation create_admin := (app.create_admin generate_password_hash).

Lemma serve_from_true (d : db.t) (rs : list request) :
  app.serve_from check_password_hash generate_password_hash email_syntax true d rs =
    fold_left step rs d.
Proof.
  revert d. induction rs as [|r rs IH]; intros d; [reflexivity|].
  cbn [app.serve_from fold_left]. rewrite IH. reflexivity.
Qed.

(** The process runs [create_admin] before its first request and the
    views from then on. *)
Lemma serve_steps (d : db.t) (rs : list request) :
  serve d rs =
    match rs with
    | [] => d
    | _ :: _ => fold_left step rs (create_admin d)
    end.
Proof.
  unfold app.serve. destruct rs as [|r rs]; [reflexivity|].
  cbn [app.serve_from fold_left]. rewrite serve_from_true. reflexivity.
Qed.

Lemma dispatch_patients_step (d : db.t) (r : request) :
  table_step (patient_ids d) (patient_ids (step d r)).
Proof.
  unfold app.dispatch.
  destruct (method r); try apply table_step_same;
    (destruct (accepts (target r) _); [apply view_patients_step | apply table_step_same]).
Qed.

Lemma dispatch_doctors_step (d : db.t) (r : request) :
  table_step (doctor_ids d) (doctor_ids (step d r)).
Proof.
  unfold app.dispatch.
  destruct (method r); try apply table_step_same;
    (destruct (accepts (target r) _); [apply view_doctors_step | apply table_step_same]).
Qed.

(** C6. Whatever requests a process started on a store with no patient
    and no doctor has served, a page of the list of patients, and of the
    list of doctors, holds at most 10 records, and they are the records of
    that page of the table taken in the order in which the records were
    inserted: those of page [n] are the ten that follow the first
    [10 * (n - 1)].  The order of insertion is tracked from the tables
    the first request finds, after [create_admin] has run. *)
Theorem C6_lists_page_by_ten_in_insertion_order (admins : list AdminUser.t)
    (rs : list request) (r : request) :
  let d0 := db.mk admins [] [] [] in
  let d := serve d0 rs in
  (forall t p,
     reply (app.patients d r) = render_template t (patients_page p) ->
     (List.length (Pagination.items p) <= 10)%nat /\
     map Patient.id (Pagination.items p) =
       firstn 10 (skipn (Z.to_nat ((app.page_arg r - 1) * 10))
                    (insertion_order patient_ids step (create_admin d0) rs []))) /\
  (forall t p,
     reply (app.doctors d r) = render_template t (doctors_page p) ->
     (List.length (Pagination.items p) <= 10)%nat /\
     map Doctor.id (Pagination.items p) =
       firstn 10 (skipn (Z.to_nat ((app.page_arg r - 1) * 10))
                    (insertion_order doctor_ids step (create_admin d0) rs []))).
Proof.
  intros d0 d.
  destruct (create_admin_tables generate_password_hash d0) as [Hcp [Hcd _]].
  assert (Hd : db.patients d = db.patients (fold_left step rs (create_admin d0)) /\
               db.doctors d = db.doctors (fold_left step rs (create_admin d0))).
  { subst d. rewrite serve_steps. destruct rs as [|r0 rs'];
      [cbn [fold_left]; rewrite Hcp, Hcd; split; reflexivity | split; reflexivity]. }
  destruct Hd as [Hdp Hdd]. split.
  - intros t p. unfold app.patients, app.login_required.
    destruct (app.is_authenticated d r); [|discriminate].
    destruct (paginate _ _ _) as [q|] eqn:Hp; [|discriminate].
    intros [= _ <-]. apply paginate_items in Hp. destruct Hp as [_ Hp].
    rewrite Hp. split; [apply firstn_le_length|].
    replace (@nil Z) with (patient_ids (create_admin d0))
      by (unfold patient_ids; rewrite Hcp; reflexivity).
    rewrite (insertion_order_follows patient_ids step dispatch_patients_step).
    rewrite <- firstn_map, <- skipn_map. unfold patient_ids. rewrite Hdp. reflexivity.
  - intros t p. unfold app.doctors, app.login_required.
    destruct (app.is_authenticated d r); [|discriminate].
    destruct (paginate _ _ _) as [q|] eqn:Hp; [|discriminate].
    intros [= _ <-]. apply paginate_items in Hp. destruct Hp as [_ Hp].
    rewrite Hp. split; [apply firstn_le_length|].
    replace (@nil Z) with (doctor_ids (create_admin d0))
      by (unfold doctor_ids; rewrite Hcd; reflexivity).
    rewrite (insertion_order_follows doctor_ids step dispatch_doctors_step).
    rewrite <- firstn_map, <- skipn_map. unfold doctor_ids. rewrite Hdd. reflexivity.
Qed.
End Steps.

(* ------------------------------------------------------------------ *)
(** ** The email field *)

(** C8. The email field of the patient and doctor forms is validated by
    [Email()] with no [Optional()] before it: a submission to the add
    views with the field absent or empty is shown the form again with the
    error of the validator and nothing is written, whatever the other
    fields hold. *)
Theorem C8_empty_email_is_refused (email_syntax : string -> bool)
    (d : db.t) (r : request) :
  email_syntax "" = false ->
  app.is_authenticated d r = true ->
  is_submitted (method r) = true ->
  (PatientForm.fd_email (patient_formdata r) = None \/
   PatientForm.fd_email (patient_formdata r) = Some "" ->
   store (app.add_patient email_syntax d r) = d /\
   exists f title,
     reply (app.add_patient email_syntax d r) =
       render_template "admin/patient_form.html" (patient_form_page f title) /\
     In ("email", InvalidEmail) (PatientForm.errors f)) /\
  (DoctorForm.fd_email (doctor_formdata r) = None \/
   DoctorForm.fd_email (doctor_formdata r) = Some "" ->
   store (app.add_doctor email_syntax d r) = d /\
   exists f title,
     reply (app.add_doctor email_syntax d r) =
       render_template "admin/doctor_form.html" (doctor_form_page f title) /\
     In ("email", InvalidEmail) (DoctorForm.errors f)).
Proof.
  intros Hempty Hauth Hs. split.
  - intros Hfd.
    assert (He : In ("email", InvalidEmail)
                   (PatientForm.errors (app.patient_form email_syntax None r))).
    { unfold app.patient_form, app.body_of. rewrite Hs. cbn.
      apply in_or_app. right. apply in_or_app. right. apply in_or_app. right.
      apply in_or_app. left. apply on_field_in. unfold email_errors.
      apply in_or_app. right.
      destruct Hfd as [-> | ->]; cbn; [|rewrite Hempty]; left; reflexivity. }
    unfold app.add_patient. rewrite login_required_authenticated by exact Hauth.
    unfold app.validate_on_submit. rewrite (no_errors_in _ _ He), andb_false_r.
    split; [reflexivity|]. do 2 eexists. split; [reflexivity | exact He].
  - intros Hfd.
    assert (He : In ("email", InvalidEmail)
                   (DoctorForm.errors (app.doctor_form email_syntax None r))).
    { unfold app.doctor_form, app.body_of. rewrite Hs. cbn.
      apply in_or_app. right. apply in_or_app. right. apply in_or_app. right.
      apply in_or_app. right. apply in_or_app. left. apply on_field_in.
      unfold email_errors. apply in_or_app. right.
      destruct Hfd as [-> | ->]; cbn; [|rewrite Hempty]; left; reflexivity. }
    unfold app.add_doctor. rewrite login_required_authenticated by exact Hauth.
    unfold app.validate_on_submit. rewrite (no_errors_in _ _ He), andb_false_r.
    split; [reflexivity|]. do 2 eexists. split; [reflexivity | exact He].
Qed.

(** The same patient is stored once the email is filled in, and the
    optional room of a doctor may be left empty. *)
Example add_patient_with_email :
  reply (app.add_patient sample_email_syntax sample_db
           (post_patient AddPatient
              (PatientForm.mk_formdata (Some "Petr Ivanov") (Some "+7 900 555")
                 (Some "petr@example.org") (Some "1979-11-05") (Some ""))))
  = redirect Patients.
Proof. reflexivity. Qed.

Example add_patient_without_email :
  exists f,
    app.add_patient sample_email_syntax sample_db
      (post_patient AddPatient
         (PatientForm.mk_formdata (Some "Petr Ivanov") (Some "+7 900 555")
            (Some "") (Some "1979-11-05") (Some "")))
    = mk_outcome
        (render_template "admin/patient_form.html"
           (patient_form_page f "Добавить пациента"))
        [] sample_db (Some 1) /\
    PatientForm.errors f = [("email", InvalidEmail)].
Proof. eexists. split; reflexivity. Qed.

Example add_doctor_without_room :
  reply (app.add_doctor sample_email_syntax sample_db
           (post_doctor AddDoctor
              (DoctorForm.mk_formdata (Some "Irina Belova") (Some "cardiologist")
                 (Some "+7 900 666") (Some "irina@clinic.example") (Some ""))))
  = redirect Doctors.
Proof. reflexivity. Qed.

(* ------------------------------------------------------------------ *)
(** ** The statements at work on the sample store *)

Lemma C1_witness :
  let r := request_to POST (DeletePatient 2) None in
  let o := app.full_dispatch_request sample_check_password_hash
             sample_generate_password_hash sample_email_syntax false sample_db r in
  store o = sample_db /\ reply o = redirect Login.
Proof.
  intros r o.
  destruct (C1_admin_routes_need_a_session sample_check_password_hash
              sample_generate_password_hash sample_email_syntax false sample_db r
              eq_refl eq_refl) as [Hs [_ [Hr _]]].
  split; [exact Hs | exact (Hr eq_refl)].
Defined.

(** On a new store the first request, here for the dashboard and without
    a session, is redirected to the login page and leaves an
    administrator in the table, which held none; a POST to the dashboard,
    which takes GET, is answered with status 405. *)
Lemma C1_counterexample :
  let r := request_to GET Dashboard None in
  let o := app.full_dispatch_request sample_check_password_hash
             sample_generate_password_hash sample_email_syntax false db.empty r in
  let o' := app.full_dispatch_request sample_check_password_hash
              sample_generate_password_hash sample_email_syntax true sample_db
              (request_to POST Dashboard None) in
  admin_route (target r) = true /\
  app.is_authenticated db.empty r = false /\
  reply o = redirect Login /\
  db.admin_users db.empty = [] /\
  db.admin_users (store o) =
    [AdminUser.mk 1 "admin" (sample_generate_password_hash "admin123")] /\
  store o <> db.empty /\
  reply o' = abort 405 /\
  reply o' <> redirect Login.
Proof. intros r o o'. repeat split; try reflexivity; discriminate. Qed.

Lemma C2_witness :
  let o1 := app.login sample_check_password_hash sample_db (post_login "nobody" "secret") in
  let o2 := app.login sample_check_password_hash sample_db (post_login "admin" "secret") in
  flashed o1 = [app.bad_login_flash] /\ flashed o2 = flashed o1 /\
  reply o1 = failed_login_page (post_login "nobody" "secret") /\
  reply o2 = failed_login_page (post_login "admin" "secret") /\
  session o1 = None /\ session o2 = None /\
  store o1 = sample_db /\ store o2 = sample_db.
Proof.
  exact (C2_failed_logins_look_alike sample_check_password_hash sample_db
           (post_login "nobody" "secret") (post_login "admin" "secret")
           "nobody" "secret" "admin" "secret"
           (AdminUser.mk 1 "admin" (sample_generate_password_hash "admin123"))
           eq_refl eq_refl eq_refl eq_refl eq_refl eq_refl eq_refl eq_refl
           eq_refl eq_refl eq_refl eq_refl eq_refl eq_refl eq_refl).
Defined.

Lemma C3_witness :
  let good := post_appointment AddAppointment
                (AppointmentForm.mk_formdata (Given 2) (Given 1)
                   (Some "2024-03-15 14:30") (Some "запланирован")) in
  let bad := post_appointment (EditAppointment 1)
               (AppointmentForm.mk_formdata (Given 2) (Given 1)
                  (Some "2024-13-40 25:99") (Some "запланирован")) in
  (reply (app.add_appointment sample_db good) = redirect Appointments /\
   In (Appointment.mk 3 2 1 (datetime.mk 2024 3 15 14 30 0 0) (Some "запланирован"))
      (db.appointments (store (app.add_appointment sample_db good)))) /\
  (flashed (app.edit_appointment 1 sample_db bad) = [app.bad_date_flash] /\
   store (app.edit_appointment 1 sample_db bad) = sample_db).
Proof.
  intros good bad. split.
  - destruct (C3_appointment_date_is_parsed sample_db good 1 "2024-03-15 14:30"
                eq_refl eq_refl) as [_ [_ [_ [Hadd _]]]].
    destruct (Hadd eq_refl) as [_ [_ Hok]].
    destruct (Hok _ eq_refl) as [Hr _].
    split; [exact Hr|]. vm_compute. right. right. left. reflexivity.
  - destruct (C3_appointment_date_is_parsed sample_db bad 1 "2024-13-40 25:99"
                eq_refl eq_refl) as [_ [_ [_ [_ Hedit]]]].
    destruct (Hedit _ eq_refl eq_refl) as [_ [Hbad _]].
    destruct (Hbad eq_refl) as [_ [Hf Hs]].
    split; [exact Hf | exact Hs].
Defined.

Lemma C4_witness :
  let r := post_appointment AddAppointment
             (AppointmentForm.mk_formdata (Given 99) (Given 1)
                (Some "2024-03-15 14:30") (Some "запланирован")) in
  rejects_field sample_db (app.add_appointment sample_db r) "patient_id".
Proof.
  intros r.
  destruct (C4_appointments_reference_existing_rows sample_db r 1 eq_refl eq_refl)
    as [Hp _].
  exact (proj1 (Hp 99 eq_refl eq_refl)).
Defined.

Lemma C5_witness :
  let r := request_to POST (DeletePatient 2) (Some 1) in
  let d' := store (app.delete_patient 2 sample_db r) in
  map Patient.id (db.patients d') = [1] /\
  reply (app.delete_patient 2 d' r) = abort 404.
Proof.
  intros r d'.
  destruct (C5_delete_then_gone sample_db r 2 eq_refl) as [Hp _].
  destruct (Hp eq_refl) as [_ Hagain].
  split; [reflexivity | exact (proj1 (Hagain r eq_refl))].
Defined.

Lemma C7_witness :
  let r := post_appointment AddAppointment
             (AppointmentForm.mk_formdata (Given 1) (Given 1)
                (Some "2024-03-15 14:30") (Some "done")) in
  rejects_field sample_db (app.add_appointment sample_db r) "status".
Proof.
  intros r.
  destruct (C7_status_is_one_of_three sample_db r 1 eq_refl eq_refl)
    as [_ [Hst _]].
  refine (proj1 (Hst "done" eq_refl _)).
  cbn. intros [H | [H | [H | []]]]; discriminate H.
Defined.

Lemma C8_witness :
  let r := post_patient AddPatient
             (PatientForm.mk_formdata (Some "Petr Ivanov") (Some "+7 900 555")
                (Some "") (Some "1979-11-05") (Some "")) in
  store (app.add_patient sample_email_syntax sample_db r) = sample_db.
Proof.
  intros r.
  destruct (C8_empty_email_is_refused sample_email_syntax sample_db r
              eq_refl eq_refl eq_refl) as [Hp _].
  exact (proj1 (Hp (or_intror eq_refl))).
Defined.

Lemma C9_witness :
  let r := request_to GET Dashboard (Some 1) in
  exists s,
    reply (app.dashboard sample_db r) =
      render_template "admin/dashboard.html" (dashboard_page s) /\
    stats.today_appointments s = 1.
Proof.
  intros r.
  destruct (C9_dashboard_counts_today sample_db r eq_refl) as [_ [_ [s [Hr [_ Hone]]]]].
  exists s. split; [exact Hr|].
  refine (Hone _ _ (or_introl eq_refl) eq_refl _). discriminate.
Defined.

(** An appointment of the year 987, which the add view stores when it is
    given [0987-03-05 07:05], is shown for editing as [987-03-05 07:05];
    submitting the form as shown is refused.  The appointment of 2024 of
    the sample store is shown as [2024-03-15 14:30], and submitting that
    form saves the same date. *)
Lemma C10_witness :
  let x := datetime.mk 987 3 5 7 5 0 0 in
  let d := db.with_appointments
             [Appointment.mk 1 1 1 x (Some "запланирован")] sample_db in
  let r := post_appointment (EditAppointment 1)
             (AppointmentForm.mk_formdata (Given 1) (Given 1)
                (Some "987-03-05 07:05") (Some "запланирован")) in
  let y := datetime.mk 2024 3 15 14 30 0 0 in
  let r' := post_appointment (EditAppointment 1)
              (AppointmentForm.mk_formdata (Given 1) (Given 1)
                 (Some "2024-03-15 14:30") (Some "запланирован")) in
  (strptime "0987-03-05 07:05" = Some x /\
   strftime x = "987-03-05 07:05" /\
   flashed (app.edit_appointment 1 d r) = [app.bad_date_flash] /\
   store (app.edit_appointment 1 d r) = d) /\
  (strftime y = "2024-03-15 14:30" /\
   reply (app.edit_appointment 1 sample_db r') = redirect Appointments /\
   exists a',
     query_get Appointment.id 1
       (db.appointments (store (app.edit_appointment 1 sample_db r'))) = Some a' /\
     Appointment.appointment_date a' = y).
Proof.
  intros x d r y r'. split.
  - destruct (C10_prefilled_date_round_trip d r 1
                (Appointment.mk 1 1 1 x (Some "запланирован"))
                eq_refl eq_refl eq_refl eq_refl eq_refl) as [_ H].
    destruct (H eq_refl eq_refl) as [_ Hshort].
    destruct (Hshort eq_refl) as [_ [_ [Hf Hs]]].
    split; [reflexivity|]. split; [reflexivity|]. split; [exact Hf | exact Hs].
  - destruct (C10_prefilled_date_round_trip sample_db r' 1
                (Appointment.mk 1 1 1 y (Some "запланирован"))
                eq_refl eq_refl eq_refl eq_refl eq_refl) as [_ H].
    destruct (H eq_refl eq_refl) as [Hlong _].
    assert (Hy : 1000 <= datetime.year y) by (cbn; lia).
    destruct (Hlong Hy) as [_ [Hr Ha]].
    split; [reflexivity|]. split; [exact Hr | exact Ha].
Defined.

(** Three patients are added to an empty store and the first is deleted
    in between: the page lists the two that remain in the order of their
    insertion. *)
Lemma C6_witness :
  let add name := post_patient AddPatient
                    (PatientForm.mk_formdata (Some name) (Some "+7 900 000")
                       (Some "p@example.org") (Some "1990-01-02") (Some "")) in
  let rs := [add "first"; add "second"; request_to POST (DeletePatient 1) (Some 1);
             add "third"] in
  let d0 := db.mk (db.admin_users sample_db) [] [] [] in
  let d := app.serve sample_check_password_hash sample_generate_password_hash
             sample_email_syntax d0 rs in
  exists p,
    reply (app.patients d (request_to GET Patients (Some 1))) =
      render_template "admin/patients.html" (patients_page p) /\
    map Patient.full_name (Pagination.items p) = ["second"; "third"] /\
    map Patient.id (Pagination.items p) = [2; 3].
Proof.
  intros add rs d0 d.
  destruct (C6_lists_page_by_ten_in_insertion_order sample_check_password_hash
              sample_generate_password_hash sample_email_syntax
              (db.admin_users sample_db) rs
              (request_to GET Patients (Some 1))) as [Hp _].
  eexists. split; [reflexivity|]. split; [reflexivity|].
  exact (proj2 (Hp _ _ eq_refl)).
Defined.

(* ================================================================== *)
(** * Further properties of the views *)

(** ** What a validated form holds *)

Lemma strptime_date_valid (s : string) (x : date.t) :
  strptime_date s = Some x -> date.valid x = true.
Proof.
  unfold strptime_date.
  destruct (match_date _ _) as [[[[y m] d] [|c rest]]|]; try discriminate.
  destruct (date.valid _) eqn:Hv; [|discriminate].
  intros [= <-]. exact Hv.
Qed.

Lemma required_text_ok (max : Z) (data : option string) :
  required_text (Some max) data = [] ->
  exists s, data = Some s /\ text_okb max s = true.
Proof.
  unfold required_text, DataRequired, Length, text_okb.
  destruct data as [s|]; [|discriminate].
  destruct (negb (blank s)) eqn:E1; [|discriminate].
  destruct (len s <=? max) eqn:E2; [|discriminate].
  intros _. exists s. rewrite E1, E2. split; reflexivity.
Qed.

Lemma email_errors_ok (email_syntax : string -> bool) (data : option string) :
  email_errors email_syntax data = [] -> email_okb email_syntax data = true.
Proof.
  unfold email_errors, optional_text, Email, Length, email_okb. intros H.
  apply app_eq_nil in H. destruct H as [H1 H2].
  destruct data as [s|]; [|discriminate].
  destruct (len s <=? 120); [|discriminate].
  destruct (email_syntax s); [reflexivity | discriminate].
Qed.

Lemma date_field_ok (obj : option date.t) (fd : option string) :
  snd (date_field obj fd) = [] ->
  birth_date_okb obj = true -> birth_date_okb (fst (date_field obj fd)) = true.
Proof.
  unfold date_field. destruct fd as [s|]; [|auto].
  destruct (strptime_date s) as [x|] eqn:E; [|discriminate].
  intros _ _. cbn. exact (strptime_date_valid s x E).
Qed.

Lemma patient_form_accepted (email_syntax : string -> bool) (obj : option Patient.t)
    (r : request) :
  let f := app.patient_form email_syntax obj r in
  app.validate_on_submit r (PatientForm.errors f) = true ->
  exists n ph,
    PatientForm.full_name f = Some n /\ PatientForm.phone f = Some ph /\
    text_okb 150 n = true /\ text_okb 20 ph = true /\
    email_okb email_syntax (PatientForm.email f) = true /\
    (birth_date_okb (match obj with Some p => Patient.birth_date p | None => None end) = true ->
     birth_date_okb (PatientForm.birth_date f) = true).
Proof.
  intros f H. subst f. unfold app.validate_on_submit in H.
  apply andb_prop in H. destruct H as [Hs He].
  unfold app.patient_form, app.body_of in *. rewrite Hs in *.
  apply no_errors_nil in He. cbn in He.
  repeat (apply app_eq_nil in He; destruct He as [? He]).
  repeat match goal with H : on_field _ _ = [] |- _ => apply on_field_nil in H end.
  destruct (required_text_ok _ _ H0) as [n [Hn Hnok]].
  destruct (required_text_ok _ _ H1) as [ph [Hph Hphok]].
  exists n, ph. cbn. repeat split; try assumption.
  - apply email_errors_ok. assumption.
  - apply date_field_ok. exact He.
Qed.

Lemma doctor_form_accepted (email_syntax : string -> bool) (obj : option Doctor.t)
    (r : request) :
  let f := app.doctor_form email_syntax obj r in
  app.validate_on_submit r (DoctorForm.errors f) = true ->
  exists n sp ph,
    DoctorForm.full_name f = Some n /\ DoctorForm.specialty f = Some sp /\
    DoctorForm.phone f = Some ph /\
    text_okb 150 n = true /\ text_okb 100 sp = true /\ text_okb 20 ph = true /\
    email_okb email_syntax (DoctorForm.email f) = true /\
    Length 20 (DoctorForm.room f) = true.
Proof.
  intros f H. subst f. unfold app.validate_on_submit in H.
  apply andb_prop in H. destruct H as [Hs He].
  unfold app.doctor_form, app.body_of in *. rewrite Hs in *.
  apply no_errors_nil in He. cbn in He.
  repeat (apply app_eq_nil in He; destruct He as [? He]).
  repeat match goal with H : on_field _ _ = [] |- _ => apply on_field_nil in H end.
  destruct (required_text_ok _ _ H0) as [n [Hn Hnok]].
  destruct (required_text_ok _ _ H1) as [sp [Hsp Hspok]].
  destruct (required_text_ok _ _ H2) as [ph [Hph Hphok]].
  exists n, sp, ph. cbn. repeat split; try assumption.
  - apply email_errors_ok. assumption.
  - unfold optional_text in He.
    destruct (Length 20 _); [reflexivity | discriminate].
Qed.

(** ** One request, one write *)

Lemma add_patient_effect (email_syntax : string -> bool) (d : db.t) (r : request) :
  effect email_syntax d (store (app.add_patient email_syntax d r)).
Proof.
  unfold app.add_patient, app.login_required.
  destruct (app.is_authenticated d r); [|constructor].
  destruct (app.validate_on_submit r _) eqn:Hv; [|constructor].
  destruct (patient_form_accepted email_syntax None r Hv)
    as [n [ph [Hn [Hph [Hnok [Hphok [Hem Hbd]]]]]]].
  rewrite Hn, Hph. cbn [store]. apply patient_added; [reflexivity|].
  unfold patient_okb. cbn. rewrite Hnok, Hphok, Hem, (Hbd eq_refl). reflexivity.
Qed.

Lemma edit_patient_effect (email_syntax : string -> bool) (id : Z) (d : db.t)
    (r : request) :
  effect email_syntax d (store (app.edit_patient email_syntax id d r)).
Proof.
  unfold app.edit_patient, app.login_required.
  destruct (app.is_authenticated d r); [|constructor].
  destruct (query_get Patient.id id (db.patients d)) as [old|] eqn:Hget; [|constructor].
  destruct (app.validate_on_submit r _) eqn:Hv; [|constructor].
  destruct (patient_form_accepted email_syntax (Some old) r Hv)
    as [n [ph [Hn [Hph [Hnok [Hphok [Hem Hbd]]]]]]].
  rewrite Hn, Hph. cbn [store].
  destruct (query_get_rowid _ _ _ _ Hget) as [Hid _].
  apply (patient_updated email_syntax d old).
  - cbn [Patient.id]. rewrite Hid. exact Hget.
  - intros Hold. unfold patient_okb in *. cbn.
    rewrite Hnok, Hphok, Hem. cbn. apply Hbd.
    apply andb_prop in Hold. tauto.
Qed.

Lemma delete_patient_effect (email_syntax : string -> bool) (id : Z) (d : db.t)
    (r : request) :
  effect email_syntax d (store (app.delete_patient id d r)).
Proof.
  unfold app.delete_patient, app.login_required.
  destruct (app.is_authenticated d r); [|constructor].
  destruct (query_get Patient.id id (db.patients d)) as [old|]; [|constructor].
  destruct (existsb _ _) eqn:E; [constructor|].
  cbn [store]. apply patient_deleted. exact E.
Qed.

Lemma add_doctor_effect (email_syntax : string -> bool) (d : db.t) (r : request) :
  effect email_syntax d (store (app.add_doctor email_syntax d r)).
Proof.
  unfold app.add_doctor, app.login_required.
  destruct (app.is_authenticated d r); [|constructor].
  destruct (app.validate_on_submit r _) eqn:Hv; [|constructor].
  destruct (doctor_form_accepted email_syntax None r Hv)
    as [n [sp [ph [Hn [Hsp [Hph [Hnok [Hspok [Hphok [Hem Hroom]]]]]]]]]].
  rewrite Hn, Hsp, Hph. cbn [store]. apply doctor_added; [reflexivity|].
  unfold doctor_okb. cbn. rewrite Hnok, Hspok, Hphok, Hem, Hroom. reflexivity.
Qed.

Lemma edit_doctor_effect (email_syntax : string -> bool) (id : Z) (d : db.t)
    (r : request) :
  effect email_syntax d (store (app.edit_doctor email_syntax id d r)).
Proof.
  unfold app.edit_doctor, app.login_required.
  destruct (app.is_authenticated d r); [|constructor].
  destruct (query_get Doctor.id id (db.doctors d)) as [old|] eqn:Hget; [|constructor].
  destruct (app.validate_on_submit r _) eqn:Hv; [|constructor].
  destruct (doctor_form_accepted email_syntax (Some old) r Hv)
    as [n [sp [ph [Hn [Hsp [Hph [Hnok [Hspok [Hphok [Hem Hroom]]]]]]]]]].
  rewrite Hn, Hsp, Hph. cbn [store].
  destruct (query_get_rowid _ _ _ _ Hget) as [Hid _].
  apply (doctor_updated email_syntax d old).
  - cbn [Doctor.id]. rewrite Hid. exact Hget.
  - unfold doctor_okb. cbn. rewrite Hnok, Hspok, Hphok, Hem, Hroom. reflexivity.
Qed.

Lemma delete_doctor_effect (email_syntax : string -> bool) (id : Z) (d : db.t)
    (r : request) :
  effect email_syntax d (store (app.delete_doctor id d r)).
Proof.
  unfold app.delete_doctor, app.login_required.
  destruct (app.is_authenticated d r); [|constructor].
  destruct (query_get Doctor.id id (db.doctors d)) as [old|]; [|constructor].
  destruct (existsb _ _) eqn:E; [constructor|].
  cbn [store]. apply doctor_deleted. exact E.
Qed.

Lemma accepted_references (d : db.t) (p q : Z) (dt : datetime.t) (st : option string)
    (i : Z) :
  (exists x, In x (db.patients d) /\ Patient.id x = p) ->
  (exists x, In x (db.doctors d) /\ Doctor.id x = q) ->
  referencesb d (Appointment.mk i p q dt st) = true.
Proof.
  intros [x [Hx Hp]] [y [Hy Hq]]. unfold referencesb. cbn.
  apply andb_true_intro. split; apply mem_in; apply in_map_iff.
  - exists x. auto.
  - exists y. auto.
Qed.

Lemma strptime_date_okb (s : string) (x : datetime.t) :
  strptime s = Some x -> date_okb x = true.
Proof.
  intros H. apply strptime_valid in H. destruct H as [Hv [Hs Hu]].
  unfold date_okb. rewrite Hv, Hs, Hu. reflexivity.
Qed.

Lemma add_appointment_effect (email_syntax : string -> bool) (d : db.t) (r : request) :
  effect email_syntax d (store (app.add_appointment d r)).
Proof.
  unfold app.add_appointment, app.login_required.
  destruct (app.is_authenticated d r); [|constructor].
  destruct (app.validate_on_submit r _) eqn:Hv; [|constructor].
  apply appointment_form_accepted in Hv.
  destruct Hv as [_ [[p [Hp Hpx]] [[q [Hq Hqx]] [st [Hst Hin]]]]].
  destruct (AppointmentForm.appointment_date _) as [[s|x]|]; try constructor.
  destruct (strptime s) as [dt|] eqn:Hdt; [|constructor].
  rewrite Hp, Hq, Hst. cbn [store]. unfold app.insert_appointment.
  cbn [Appointment.status Appointment.patient_id Appointment.doctor_id
       Appointment.appointment_date].
  apply appointment_added.
  - reflexivity.
  - apply accepted_references; assumption.
  - exact (strptime_date_okb s dt Hdt).
  - apply valid_choice_status. exact Hin.
Qed.

Lemma edit_appointment_effect (email_syntax : string -> bool) (id : Z) (d : db.t)
    (r : request) :
  effect email_syntax d (store (app.edit_appointment id d r)).
Proof.
  unfold app.edit_appointment, app.login_required.
  destruct (app.is_authenticated d r); [|constructor].
  destruct (query_get Appointment.id id (db.appointments d)) as [old|] eqn:Hget;
    [|constructor].
  destruct (app.validate_on_submit r _) eqn:Hv; [|constructor].
  apply appointment_form_accepted in Hv.
  destruct Hv as [_ [[p [Hp Hpx]] [[q [Hq Hqx]] [st [Hst Hin]]]]].
  destruct (AppointmentForm.appointment_date _) as [[s|x]|]; try constructor.
  destruct (strptime s) as [dt|] eqn:Hdt; [|constructor].
  rewrite Hp, Hq, Hst. cbn [store].
  destruct (query_get_rowid _ _ _ _ Hget) as [Hid _].
  apply (appointment_updated email_syntax d old).
  - cbn [Appointment.id]. rewrite Hid. exact Hget.
  - apply accepted_references; assumption.
  - exact (strptime_date_okb s dt Hdt).
  - apply valid_choice_status. exact Hin.
Qed.

Lemma delete_appointment_effect (email_syntax : string -> bool) (id : Z) (d : db.t)
    (r : request) :
  effect email_syntax d (store (app.delete_appointment id d r)).
Proof.
  unfold app.delete_appointment, app.login_required.
  destruct (app.is_authenticated d r); [|constructor].
  destruct (query_get Appointment.id id (db.appointments d)) as [old|]; [|constructor].
  cbn [store]. apply appointment_deleted.
Qed.

Lemma view_effect (check_password_hash : string -> string -> bool)
    (email_syntax : string -> bool) (e : endpoint) (d : db.t) (r : request) :
  effect email_syntax d (store (app.view check_password_hash email_syntax e d r)).
Proof.
  destruct e; cbn [app.view]; unfold app.bound_id;
    try (destruct (_ && (max_int64 <? _)); [constructor|]);
    try apply add_patient_effect; try apply edit_patient_effect;
    try apply delete_patient_effect; try apply add_doctor_effect;
    try apply edit_doctor_effect; try apply delete_doctor_effect;
    try apply add_appointment_effect; try apply edit_appointment_effect;
    try apply delete_appointment_effect;
    unfold app.login, app.logout, app.dashboard, app.patients, app.doctors,
      app.appointments, app.index, app.login_required, app.respond;
    open_view; cbn [store]; constructor.
Qed.

Lemma dispatch_effect (check_password_hash : string -> string -> bool)
    (email_syntax : string -> bool) (d : db.t) (r : request) :
  effect email_syntax d (store (app.dispatch check_password_hash email_syntax d r)).
Proof.
  unfold app.dispatch.
  destruct (method r); try constructor;
    (destruct (accepts (target r) _); [apply view_effect | constructor]).
Qed.

(** ** What the writes keep *)

Section Rows.
Context {row : Type} (rowid : row -> Z) (f : row -> bool).

Lemma forallb_insert_row (r : row) (t : list row) :
  f r = true -> forallb f t = true -> forallb f (insert_row rowid r t) = true.
Proof.
  intros Hr Ht. apply forallb_forall. intros x Hx.
  apply in_insert_row in Hx. destruct Hx as [-> | Hx]; [exact Hr|].
  exact (proj1 (forallb_forall f t) Ht x Hx).
Qed.

Lemma forallb_update_row (r : row) (t : list row) :
  f r = true -> forallb f t = true -> forallb f (update_row rowid r t) = true.
Proof.
  intros Hr Ht. apply forallb_forall. intros x Hx.
  apply in_update_row in Hx. destruct Hx as [-> | Hx]; [exact Hr|].
  exact (proj1 (forallb_forall f t) Ht x Hx).
Qed.

Lemma forallb_delete_row (i : Z) (t : list row) :
  forallb f t = true -> forallb f (delete_row rowid i t) = true.
Proof.
  intros Ht. apply forallb_forall. intros x Hx.
  apply in_delete_row in Hx. destruct Hx as [Hx _].
  exact (proj1 (forallb_forall f t) Ht x Hx).
Qed.
End Rows.

Lemma forallb_impl {A : Type} (f g : A -> bool) (l : list A) :
  (forall x, In x l -> f x = true -> g x = true) ->
  forallb f l = true -> forallb g l = true.
Proof.
  intros H Hf. apply forallb_forall. intros x Hx.
  apply H; [exact Hx|]. exact (proj1 (forallb_forall f l) Hf x Hx).
Qed.

Lemma effect_admin_users (email_syntax : string -> bool) (d d' : db.t) :
  effect email_syntax d d' -> db.admin_users d' = db.admin_users d.
Proof. intros H. destruct H; reflexivity. Qed.

Lemma effect_steps (email_syntax : string -> bool) (d d' : db.t) :
  effect email_syntax d d' ->
  table_step (patient_ids d) (patient_ids d') /\
  table_step (doctor_ids d) (doctor_ids d') /\
  table_step (appointment_ids d) (appointment_ids d').
Proof.
  intros H. unfold patient_ids, doctor_ids, appointment_ids.
  destruct H; cbn [db.patients db.doctors db.appointments db.with_patients
                   db.with_doctors db.with_appointments];
    repeat split;
    auto using table_step_same, table_step_update, table_step_delete,
      table_step_insert.
Qed.

Lemma increasingb_app_last (l : list Z) (n : Z) :
  increasingb l = true -> (forall i, In i l -> i < n) ->
  increasingb (l ++ [n]) = true.
Proof.
  induction l as [|a l IH]; cbn; intros Hl Hn; [reflexivity|].
  apply andb_prop in Hl. destruct Hl as [Ha Hl].
  apply andb_true_intro. split.
  - rewrite forallb_app, Ha. cbn.
    rewrite (proj2 (Z.ltb_lt a n)) by (apply Hn; left; reflexivity). reflexivity.
  - apply IH; [exact Hl|]. intros i Hi. apply Hn. right. exact Hi.
Qed.

Lemma increasingb_filter (g : Z -> bool) (l : list Z) :
  increasingb l = true -> increasingb (filter g l) = true.
Proof.
  induction l as [|a l IH]; cbn; intros Hl; [reflexivity|].
  apply andb_prop in Hl. destruct Hl as [Ha Hl].
  destruct (g a); [|apply IH; exact Hl].
  cbn. apply andb_true_intro. split; [|apply IH; exact Hl].
  apply forallb_forall. intros x Hx. apply filter_In in Hx.
  exact (proj1 (forallb_forall _ l) Ha x (proj1 Hx)).
Qed.

Lemma table_step_increasing (ids ids' : list Z) :
  table_step ids ids' -> increasingb ids = true -> increasingb ids' = true.
Proof.
  intros [-> | [[n [Hn ->]] | [i ->]]] H.
  - exact H.
  - apply increasingb_app_last; assumption.
  - apply increasingb_filter. exact H.
Qed.

Lemma increasingb_NoDup (l : list Z) : increasingb l = true -> NoDup l.
Proof.
  induction l as [|a l IH]; cbn; intros H; constructor.
  - apply andb_prop in H. destruct H as [Ha _]. intros Hin.
    pose proof (proj1 (forallb_forall _ l) Ha a Hin) as Hlt.
    apply Z.ltb_lt in Hlt. lia.
  - apply IH. apply andb_prop in H. tauto.
Qed.

Lemma effect_keys_increasing (email_syntax : string -> bool) (d d' : db.t) :
  effect email_syntax d d' -> keys_increasingb d = true -> keys_increasingb d' = true.
Proof.
  intros He H. apply effect_steps in He. destruct He as [Hp [Hd Ha]].
  unfold keys_increasingb in *.
  apply andb_prop in H. destruct H as [H H3]. apply andb_prop in H. destruct H as [H1 H2].
  rewrite (table_step_increasing _ _ Hp H1), (table_step_increasing _ _ Hd H2),
    (table_step_increasing _ _ Ha H3). reflexivity.
Qed.

Lemma referencesb_in (d : db.t) (a : Appointment.t) :
  referencesb d a = true <->
  In (Appointment.patient_id a) (patient_ids d) /\
  In (Appointment.doctor_id a) (doctor_ids d).
Proof. unfold referencesb. rewrite andb_true_iff, !mem_in. reflexivity. Qed.

Lemma effect_referentially_intact (email_syntax : string -> bool) (d d' : db.t) :
  effect email_syntax d d' ->
  referentially_intactb d = true -> referentially_intactb d' = true.
Proof.
  unfold referentially_intactb. intros He H.
  destruct He; cbn [db.patients db.doctors db.appointments db.with_patients
                    db.with_doctors db.with_appointments].
  - exact H.
  - revert H. apply forallb_impl. intros a _ Ha.
    apply referencesb_in in Ha. apply referencesb_in.
    unfold patient_ids, doctor_ids in *. cbn. split; [|tauto].
    destruct Ha as [Ha _]. apply in_map_iff in Ha. destruct Ha as [x [Hx Hin]].
    apply in_map_iff. exists x. split; [exact Hx|].
    apply in_insert_row. right. exact Hin.
  - revert H. apply forallb_impl. intros a _ Ha.
    apply referencesb_in in Ha. apply referencesb_in.
    unfold patient_ids, doctor_ids in *. cbn.
    rewrite map_rowid_update_row. exact Ha.
  - revert H. apply forallb_impl. intros a Hin Ha.
    apply referencesb_in in Ha. apply referencesb_in.
    unfold patient_ids, doctor_ids in *. cbn. split; [|tauto].
    rewrite map_rowid_delete_row. apply filter_In. split; [tauto|].
    destruct (Z.eqb_spec (Appointment.patient_id a) i) as [Heq|]; [|reflexivity].
    exfalso.
    assert (E : existsb (fun a0 => Appointment.patient_id a0 =? i) (db.appointments d) = true).
    { apply existsb_exists. exists a. split; [exact Hin | apply Z.eqb_eq; exact Heq]. }
    congruence.
  - revert H. apply forallb_impl. intros a _ Ha.
    apply referencesb_in in Ha. apply referencesb_in.
    unfold patient_ids, doctor_ids in *. cbn. split; [tauto|].
    destruct Ha as [_ Ha]. apply in_map_iff in Ha. destruct Ha as [y [Hy Hin]].
    apply in_map_iff. exists y. split; [exact Hy|].
    apply in_insert_row. right. exact Hin.
  - revert H. apply forallb_impl. intros a _ Ha.
    apply referencesb_in in Ha. apply referencesb_in.
    unfold patient_ids, doctor_ids in *. cbn.
    rewrite map_rowid_update_row. exact Ha.
  - revert H. apply forallb_impl. intros a Hin Ha.
    apply referencesb_in in Ha. apply referencesb_in.
    unfold patient_ids, doctor_ids in *. cbn. split; [tauto|].
    rewrite map_rowid_delete_row. apply filter_In. split; [tauto|].
    destruct (Z.eqb_spec (Appointment.doctor_id a) i) as [Heq|]; [|reflexivity].
    exfalso.
    assert (E : existsb (fun a0 => Appointment.doctor_id a0 =? i) (db.appointments d) = true).
    { apply existsb_exists. exists a. split; [exact Hin | apply Z.eqb_eq; exact Heq]. }
    congruence.
  - apply forallb_insert_row; assumption.
  - apply forallb_update_row; assumption.
  - apply forallb_delete_row. exact H.
Qed.

Lemma effect_rows_well_formed (email_syntax : string -> bool) (d d' : db.t) :
  effect email_syntax d d' ->
  rows_well_formedb email_syntax d = true -> rows_well_formedb email_syntax d' = true.
Proof.
  unfold rows_well_formedb. intros He H.
  apply andb_prop in H. destruct H as [H H3]. apply andb_prop in H. destruct H as [H1 H2].
  destruct He; cbn [db.patients db.doctors db.appointments db.with_patients
                    db.with_doctors db.with_appointments];
    rewrite ?H1, ?H2, ?H3; cbn [andb].
  - reflexivity.
  - rewrite forallb_insert_row by assumption. reflexivity.
  - rewrite forallb_update_row; [reflexivity | | exact H1].
    apply H0. destruct (query_get_rowid _ _ _ _ H) as [_ Hin].
    exact (proj1 (forallb_forall _ _) H1 old Hin).
  - rewrite forallb_delete_row by assumption. reflexivity.
  - rewrite forallb_insert_row by assumption. reflexivity.
  - rewrite forallb_update_row by assumption. reflexivity.
  - rewrite forallb_delete_row by assumption. reflexivity.
  - rewrite forallb_insert_row; [reflexivity | | exact H3].
    rewrite H4, H5. reflexivity.
  - rewrite forallb_update_row; [reflexivity | | exact H3].
    rewrite H4, H5. reflexivity.
  - rewrite forallb_delete_row by assumption. reflexivity.
Qed.

(** ** Any number of requests *)

Section Served.
Variable check_password_hash : string -> string -> bool.
Variable generate_password_hash : string -> string.
Variable email_syntax : string -> bool.

Local Abbreviation serve :=
  (app.serve check_password_hash generate_password_hash email_syntax).
Local Abbreviation full_dispatch_request :=
  (app.full_dispatch_request check_password_hash generate_password_hash email_syntax).
Local Abbreviation create_admin := (app.create_admin generate_password_hash).

(** [create_admin] leaves the store as it is or adds one administrator. *)
Lemma create_admin_cases (d : db.t) :
  create_admin d = d \/
  exists u, create_admin d =
              db.with_admin_users (insert_row AdminUser.id u (db.admin_users d)) d.
Proof.
  unfold app.create_admin. destruct (find _ _); [left; reflexivity|].
  right. eexists. reflexivity.
Qed.

Lemma serve_from_keeps (P : db.t -> Prop) :
  (forall d d', effect email_syntax d d' -> P d -> P d') ->
  (forall d, P d -> P (create_admin d)) ->
  forall rs got d, P d ->
    P (app.serve_from check_password_hash generate_password_hash email_syntax
         got d rs).
Proof.
  intros Hstep Hboot.
  induction rs as [|r rs IH]; intros got d Hd; cbn [app.serve_from]; [exact Hd|].
  apply IH. unfold app.full_dispatch_request.
  eapply Hstep; [apply dispatch_effect|].
  destruct got; [exact Hd | apply Hboot; exact Hd].
Qed.

(** A property of the patients, doctors and appointments that every
    write of a view keeps holds after any sequence of requests. *)
Lemma serve_keeps (P : db.t -> Prop) :
  (forall d d', effect email_syntax d d' -> P d -> P d') ->
  (forall d l, P d -> P (db.with_admin_users l d)) ->
  forall rs d, P d -> P (serve d rs).
Proof.
  intros Hstep Hadmin rs d Hd. unfold app.serve.
  apply serve_from_keeps; [exact Hstep | | exact Hd].
  intros x Hx. destruct (create_admin_cases x) as [-> | [u ->]];
    [exact Hx | apply Hadmin; exact Hx].
Qed.

(** X1. The table of administrators is written once, by [create_admin]
    before the first request of the process, and by no view: after any
    sequence of requests it is the table the first request found, and a
    session names an administrator after them exactly when it named one
    then. *)
Theorem administrators_never_change (d : db.t) (rs : list request) :
  let found := match rs with
               | [] => d
               | _ :: _ => create_admin d
               end in
  db.admin_users (serve d rs) = db.admin_users found /\
  forall r, app.is_authenticated (serve d rs) r = app.is_authenticated found r.
Proof.
  intros found.
  assert (Hfrom : forall rs x,
            db.admin_users
              (app.serve_from check_password_hash generate_password_hash
                 email_syntax true x rs) = db.admin_users x).
  { intros rs'. induction rs' as [|r rs' IH]; intros x; [reflexivity|].
    cbn [app.serve_from]. rewrite IH. unfold app.full_dispatch_request.
    apply (effect_admin_users email_syntax). apply dispatch_effect. }
  assert (H : db.admin_users (serve d rs) = db.admin_users found).
  { subst found. unfold app.serve. destruct rs as [|r rs]; [reflexivity|].
    cbn [app.serve_from]. rewrite Hfrom. unfold app.full_dispatch_request.
    apply (effect_admin_users email_syntax). apply dispatch_effect. }
  split; [exact H|]. intros r.
  unfold app.is_authenticated, app.current_user, app.load_user. rewrite H. reflexivity.
Qed.

(** X2. When the keys of the three tables grow along their rows, they
    still do after any sequence of requests; no two rows of a table then
    share an id. *)
Theorem keys_stay_unique (d : db.t) (rs : list request) :
  keys_increasingb d = true ->
  keys_increasingb (serve d rs) = true /\
  NoDup (patient_ids (serve d rs)) /\ NoDup (doctor_ids (serve d rs)) /\
  NoDup (appointment_ids (serve d rs)).
Proof.
  intros H.
  assert (K : keys_increasingb (serve d rs) = true).
  { apply (serve_keeps (fun x => keys_increasingb x = true));
      [apply effect_keys_increasing | intros x l Hx; exact Hx | exact H]. }
  split; [exact K|]. unfold keys_increasingb in K.
  apply andb_prop in K. destruct K as [K K3]. apply andb_prop in K. destruct K as [K1 K2].
  auto using increasingb_NoDup.
Qed.

(** X3. When every appointment names a patient and a doctor of the
    tables, every appointment still does after any sequence of requests:
    the views write no appointment with a dangling id and delete no
    patient or doctor that an appointment names. *)
Theorem references_stay_intact (d : db.t) (rs : list request) :
  referentially_intactb d = true ->
  referentially_intactb (serve d rs) = true.
Proof.
  apply (serve_keeps (fun x => referentially_intactb x = true)).
  - apply effect_referentially_intact.
  - intros x l Hx. exact Hx.
Qed.

(** X4. When the rows of the tables satisfy what the forms check (names
    and phones filled and within their lengths in characters, an email of
    valid syntax, a birth date of the calendar, an appointment date of the
    calendar on a whole minute, a status among the three), they still do
    after any sequence of requests. *)
Theorem rows_stay_well_formed (d : db.t) (rs : list request) :
  rows_well_formedb email_syntax d = true ->
  rows_well_formedb email_syntax (serve d rs) = true.
Proof.
  apply (serve_keeps (fun x => rows_well_formedb email_syntax x = true)).
  - apply effect_rows_well_formed.
  - intros x l Hx. exact Hx.
Qed.

(** X5. In a store whose rows are well formed, the date of every
    appointment of a year from 1000 on, after any sequence of requests,
    is read back from the text the edit view puts in the date field. *)
Theorem stored_dates_parse_back (d : db.t) (rs : list request) (a : Appointment.t) :
  rows_well_formedb email_syntax d = true ->
  In a (db.appointments (serve d rs)) ->
  1000 <= datetime.year (Appointment.appointment_date a) ->
  strptime (strftime (Appointment.appointment_date a)) =
    Some (Appointment.appointment_date a).
Proof.
  intros H0 Hin Hy.
  assert (H : rows_well_formedb email_syntax (serve d rs) = true).
  { apply (serve_keeps (fun x => rows_well_formedb email_syntax x = true));
      [apply effect_rows_well_formed | intros x l Hx; exact Hx | exact H0]. }
  unfold rows_well_formedb in H. apply andb_prop in H. destruct H as [_ H].
  pose proof (proj1 (forallb_forall _ _) H a Hin) as Ha. cbn in Ha.
  apply andb_prop in Ha. destruct Ha as [Ha _]. unfold date_okb in Ha.
  apply andb_prop in Ha. destruct Ha as [Ha Hu]. apply andb_prop in Ha.
  destruct Ha as [Hv Hs]. apply Z.eqb_eq in Hs, Hu.
  apply strptime_strftime; assumption.
Qed.

(** X6. A request changes the tables it finds only when it is a POST,
    from a session that names an administrator, to an add, edit or delete
    view.  The tables a request finds are those of the store, after
    [create_admin] when the request is the first the process handles. *)
Theorem only_authenticated_posts_write (got_first_request : bool)
    (d : db.t) (r : request) :
  let found := if got_first_request then d else create_admin d in
  app.is_authenticated found r = false \/ method r <> POST \/
  write_endpoint (target r) = false ->
  store (full_dispatch_request got_first_request d r) = found.
Proof.
  intros found H. unfold app.full_dispatch_request. fold found.
  generalize dependent found. intros found H. unfold app.dispatch.
  destruct (method r) eqn:Hm; try reflexivity;
    (destruct (accepts (target r) _) eqn:Hacc; [|reflexivity]);
    destruct (target r) eqn:Ht; try discriminate Hacc; cbn [app.view];
    unfold app.bound_id;
    try (destruct (_ && (max_int64 <? _)); [reflexivity|]);
    unfold app.login, app.logout, app.dashboard, app.patients, app.add_patient,
      app.edit_patient, app.delete_patient, app.doctors, app.add_doctor,
      app.edit_doctor, app.delete_doctor, app.appointments, app.add_appointment,
      app.edit_appointment, app.delete_appointment, app.index,
      app.login_required, app.validate_on_submit;
    rewrite ?Hm; cbn [is_submitted andb];
    try (destruct H as [H | [H | H]];
         [rewrite H | exfalso; apply H; reflexivity | discriminate H]);
    open_view; reflexivity.
Qed.
End Served.

(** ** Sessions *)

Lemma query_get_in {row : Type} (rowid : row -> Z) (t : list row) (a : row) :
  In a t -> exists b, query_get rowid (rowid a) t = Some b.
Proof.
  intros Hin. destruct (query_get rowid (rowid a) t) as [b|] eqn:E; [eauto|].
  exfalso. exact (proj1 (query_get_none _ _ _) E a Hin eq_refl).
Qed.

Section Sessions.
Variable check_password_hash : string -> string -> bool.

Local Abbreviation login := (app.login check_password_hash).

(** X7. Logging in with the name of an administrator and the password
    that checks against the stored hash redirects to the dashboard and
    puts the id of that administrator in the session; a request that
    carries this session is let into the admin views.  The tables are not
    written. *)
Theorem login_opens_a_session (d : db.t) (r : request) (name pw : string)
    (u : AdminUser.t) :
  app.is_authenticated d r = false ->
  method r = POST -> csrf_ok r = true ->
  login_formdata r = LoginForm.mk_formdata (Some name) (Some pw) ->
  blank name = false -> blank pw = false ->
  find (fun a => String.eqb (AdminUser.username a) name) (db.admin_users d) = Some u ->
  app.check_password check_password_hash u pw = true ->
  reply (login d r) = redirect Dashboard /\
  session (login d r) = Some (AdminUser.id u) /\
  store (login d r) = d /\
  forall r', session_user_id r' = session (login d r) ->
    app.is_authenticated d r' = true /\
    exists s, reply (app.dashboard d r') =
                render_template "admin/dashboard.html" (dashboard_page s).
Proof.
  intros Hanon Hm Hc Hfd Hn Hp Hfind Hpw.
  assert (Ho : login d r = mk_outcome (redirect Dashboard)
                 [("Вы успешно вошли в систему!", "success")] d (Some (AdminUser.id u))).
  { unfold app.login, app.login_form, app.validate_on_submit, app.body_of.
    rewrite Hanon, Hm, Hc, Hfd. cbn.
    unfold required_text, DataRequired. rewrite Hn, Hp. cbn.
    rewrite Hfind, Hpw. reflexivity. }
  rewrite Ho. cbn [reply session store].
  repeat split.
  - pose proof (find_some _ _ Hfind) as [Hin _].
    destruct (query_get_in AdminUser.id _ _ Hin) as [b Hb].
    unfold app.is_authenticated, app.current_user, app.load_user.
    rewrite H, Hb. reflexivity.
  - unfold app.dashboard, app.login_required.
    pose proof (find_some _ _ Hfind) as [Hin _].
    destruct (query_get_in AdminUser.id _ _ Hin) as [b Hb].
    unfold app.is_authenticated, app.current_user, app.load_user.
    rewrite H, Hb. eexists. reflexivity.
Qed.

(** X8. The login view puts a user id in the session only for a
    submitted form that validates, whose name is that of an administrator
    and whose password checks against the hash of that administrator; in
    every other case the session is left as it was, and the view never
    writes the tables. *)
Theorem login_needs_the_password (d : db.t) (r : request) :
  app.is_authenticated d r = false ->
  store (login d r) = d /\
  (session (login d r) = session_user_id r \/
   exists u name pw,
     In u (db.admin_users d) /\
     LoginForm.fd_username (login_formdata r) = Some name /\
     LoginForm.fd_password (login_formdata r) = Some pw /\
     AdminUser.username u = name /\
     app.check_password check_password_hash u pw = true /\
     is_submitted (method r) = true /\ csrf_ok r = true /\
     session (login d r) = Some (AdminUser.id u)).
Proof.
  intros Hanon. unfold app.login. rewrite Hanon.
  destruct (app.validate_on_submit r _) eqn:Hv; [|split; [reflexivity | left; reflexivity]].
  unfold app.validate_on_submit in Hv. apply andb_prop in Hv. destruct Hv as [Hs He].
  unfold app.login_form, app.body_of in *. rewrite Hs in *.
  apply no_errors_nil in He. cbn in He.
  apply app_eq_nil in He. destruct He as [Hcsrf He].
  assert (Hc : csrf_ok r = true).
  { unfold csrf_errors in Hcsrf. destruct (csrf_ok r); [reflexivity | discriminate]. }
  destruct (LoginForm.fd_username (login_formdata r)) as [name|] eqn:Hname;
    [|cbn in He; discriminate He].
  destruct (LoginForm.fd_password (login_formdata r)) as [pw|] eqn:Hpw;
    [|cbn in He; apply app_eq_nil in He; destruct He as [_ He]; discriminate He].
  cbv zeta.
  cbn [LoginForm.username LoginForm.password LoginForm.validate LoginForm.process
       text_field].
  rewrite Hname, Hpw. cbn [text_field].
  destruct (find _ (db.admin_users d)) as [u|] eqn:Hfind;
    [|split; [reflexivity | left; reflexivity]].
  destruct (app.check_password check_password_hash u pw) eqn:Hchk;
    [|split; [reflexivity | left; reflexivity]].
  split; [reflexivity|]. right.
  apply find_some in Hfind. destruct Hfind as [Hin Heq]. apply String.eqb_eq in Heq.
  exists u, name, pw. repeat split; assumption || reflexivity.
Qed.
End Sessions.

(** X9. Logging out, from a session that names an administrator,
    redirects to the login page, empties the session and writes nothing;
    a request that carries the emptied session is sent back to the login
    page by every admin view. *)
Theorem logout_closes_the_session (check_password_hash : string -> string -> bool)
    (email_syntax : string -> bool) (d : db.t) (r : request) :
  app.is_authenticated d r = true ->
  reply (app.logout d r) = redirect Login /\
  session (app.logout d r) = None /\
  store (app.logout d r) = d /\
  forall r', session_user_id r' = session (app.logout d r) ->
    forall e, admin_route e = true ->
      reply (app.view check_password_hash email_syntax e d r') = redirect Login.
Proof.
  intros Hauth. unfold app.logout. rewrite login_required_authenticated by exact Hauth.
  cbn [reply session store]. repeat split.
  intros r' Hr' e He.
  assert (Hanon : app.is_authenticated d r' = false).
  { unfold app.is_authenticated, app.current_user. rewrite Hr'. reflexivity. }
  assert (Hv : app.view check_password_hash email_syntax e d r' =
            app.respond d r' (redirect Login)
              [("Please log in to access this page.", "message")]).
  { destruct e; try discriminate He; cbn [app.view];
      unfold app.bound_id; rewrite ?Hanon; cbn [andb];
      apply login_required_anonymous; exact Hanon. }
  rewrite Hv. reflexivity.
Qed.

(** ** The first administrator *)

Lemma find_insert_row {row : Type} (rowid : row -> Z) (f : row -> bool)
    (r : row) (t : list row) :
  find f t = None -> f r = true -> find f (insert_row rowid r t) = Some r.
Proof.
  induction t as [|x t IH]; cbn; intros Hnone Hr.
  - rewrite Hr. reflexivity.
  - destruct (f x) eqn:Hx; [discriminate|].
    destruct (rowid r <? rowid x); cbn.
    + rewrite Hr. reflexivity.
    + rewrite Hx. apply IH; assumption.
Qed.

Section Bootstrap.
Variable check_password_hash : string -> string -> bool.
Variable generate_password_hash : string -> string.
Hypothesis hash_checks :
  forall password, check_password_hash (generate_password_hash password) password = true.

Local Abbreviation create_admin := (app.create_admin generate_password_hash).

(** X10. [create_admin] leaves a store that has an administrator named
    admin as it is, and otherwise adds one row for that name and nothing
    else; run twice it changes nothing the second time.  On a store
    without that name, the login with admin and admin123 is accepted
    after it, the hash of a password checking against that password. *)
Theorem create_admin_bootstraps (d : db.t) (r : request) :
  create_admin (create_admin d) = create_admin d /\
  (exists u, find (fun a => String.eqb (AdminUser.username a) "admin")
               (db.admin_users (create_admin d)) = Some u) /\
  db.patients (create_admin d) = db.patients d /\
  db.doctors (create_admin d) = db.doctors d /\
  db.appointments (create_admin d) = db.appointments d /\
  (find (fun a => String.eqb (AdminUser.username a) "admin") (db.admin_users d) = None ->
   List.length (db.admin_users (create_admin d)) = S (List.length (db.admin_users d)) /\
   (session_user_id r = None -> method r = POST -> csrf_ok r = true ->
    login_formdata r = LoginForm.mk_formdata (Some "admin") (Some "admin123") ->
    reply (app.login check_password_hash (create_admin d) r) = redirect Dashboard)).
Proof.
  destruct (find (fun a => String.eqb (AdminUser.username a) "admin") (db.admin_users d))
    as [u|] eqn:Hfind.
  - assert (Hd : create_admin d = d).
    { unfold app.create_admin. rewrite Hfind. reflexivity. }
    rewrite !Hd. split; [reflexivity|]. split; [eauto|].
    split; [reflexivity|]. split; [reflexivity|]. split; [reflexivity|].
    intros H. discriminate H.
  - set (admin := AdminUser.mk (next_rowid AdminUser.id (db.admin_users d))
                    "admin" (generate_password_hash "admin123")).
    assert (Hd : create_admin d =
              db.with_admin_users (insert_row AdminUser.id admin (db.admin_users d)) d).
    { unfold app.create_admin. rewrite Hfind. reflexivity. }
    assert (Hnew : find (fun a => String.eqb (AdminUser.username a) "admin")
                     (db.admin_users (create_admin d)) = Some admin).
    { rewrite Hd. cbn [db.admin_users db.with_admin_users].
      apply find_insert_row; [exact Hfind | reflexivity]. }
    split; [|split; [eauto|]].
    + unfold app.create_admin at 1. rewrite Hnew. reflexivity.
    + rewrite Hd at 1 2 3.
      cbn [db.admin_users db.with_admin_users db.patients db.doctors db.appointments].
      repeat split.
      * rewrite Hd. cbn [db.admin_users db.with_admin_users].
        rewrite insert_row_last.
        -- rewrite length_app. cbn. lia.
        -- intros a Ha. apply rowid_lt_next. exact Ha.
      * intros Hsess Hm Hc Hfd.
        unfold app.login, app.is_authenticated, app.current_user, app.login_form,
          app.validate_on_submit, app.body_of.
        rewrite Hsess, Hm, Hc, Hfd. cbn.
        rewrite Hnew. unfold app.check_password. cbn.
        rewrite hash_checks. reflexivity.
Qed.
End Bootstrap.

(** ** Adding, editing, deleting *)

Lemma query_get_update_row_other {row : Type} (rowid : row -> Z) (r : row)
    (t : list row) (j : Z) :
  j <> rowid r -> query_get rowid j (update_row rowid r t) = query_get rowid j t.
Proof.
  intros Hj. unfold query_get, update_row.
  induction t as [|x t IH]; cbn; [reflexivity|].
  destruct (Z.eqb_spec (rowid x) (rowid r)) as [Heq|Hne].
  - destruct (Z.eqb_spec (rowid r) j); [congruence|].
    destruct (Z.eqb_spec (rowid x) j); [congruence|]. exact IH.
  - destruct (rowid x =? j); [reflexivity | exact IH].
Qed.

Lemma query_get_delete_row_other {row : Type} (rowid : row -> Z) (i j : Z)
    (t : list row) :
  j <> i -> query_get rowid j (delete_row rowid i t) = query_get rowid j t.
Proof.
  intros Hj. unfold query_get, delete_row.
  induction t as [|x t IH]; cbn; [reflexivity|].
  destruct (Z.eqb_spec (rowid x) i) as [Heq|Hne]; cbn.
  - destruct (Z.eqb_spec (rowid x) j); [congruence | exact IH].
  - destruct (rowid x =? j); [reflexivity | exact IH].
Qed.

Section Records.
Variable email_syntax : string -> bool.

Lemma patient_form_fields (obj : option Patient.t) (r : request) :
  is_submitted (method r) = true ->
  let f := app.patient_form email_syntax obj r in
  let fd := patient_formdata r in
  PatientForm.full_name f =
    text_field (option_map Patient.full_name obj) (PatientForm.fd_full_name fd) /\
  PatientForm.phone f =
    text_field (option_map Patient.phone obj) (PatientForm.fd_phone fd) /\
  PatientForm.email f =
    text_field (match obj with Some p => Patient.email p | None => None end)
      (PatientForm.fd_email fd) /\
  PatientForm.address f =
    text_field (match obj with Some p => Patient.address p | None => None end)
      (PatientForm.fd_address fd).
Proof.
  intros Hs. unfold app.patient_form, app.body_of. rewrite Hs. cbn.
  repeat split; reflexivity.
Qed.

Lemma doctor_form_fields (obj : option Doctor.t) (r : request) :
  is_submitted (method r) = true ->
  let f := app.doctor_form email_syntax obj r in
  let fd := doctor_formdata r in
  DoctorForm.full_name f =
    text_field (option_map Doctor.full_name obj) (DoctorForm.fd_full_name fd) /\
  DoctorForm.specialty f =
    text_field (option_map Doctor.specialty obj) (DoctorForm.fd_specialty fd) /\
  DoctorForm.phone f =
    text_field (option_map Doctor.phone obj) (DoctorForm.fd_phone fd) /\
  DoctorForm.email f =
    text_field (match obj with Some x => Doctor.email x | None => None end)
      (DoctorForm.fd_email fd) /\
  DoctorForm.room f =
    text_field (match obj with Some x => Doctor.room x | None => None end)
      (DoctorForm.fd_room fd).
Proof.
  intros Hs. unfold app.doctor_form, app.body_of. rewrite Hs. cbn.
  repeat split; reflexivity.
Qed.

(** X11. A patient form that validates, submitted to the add view by an
    administrator, is answered with the redirect to the list and adds one
    row after the rows of the table: its id is above every id of the
    table, its fields are the submitted ones, and the other tables are
    left alone. *)
Theorem add_patient_appends (d : db.t) (r : request) :
  app.is_authenticated d r = true ->
  app.validate_on_submit r
    (PatientForm.errors (app.patient_form email_syntax None r)) = true ->
  let o := app.add_patient email_syntax d r in
  reply o = redirect Patients /\
  exists p,
    store o = db.with_patients (db.patients d ++ [p]) d /\
    (forall x, In x (db.patients d) -> Patient.id x < Patient.id p) /\
    Some (Patient.full_name p) = PatientForm.fd_full_name (patient_formdata r) /\
    Some (Patient.phone p) = PatientForm.fd_phone (patient_formdata r) /\
    Patient.email p = PatientForm.fd_email (patient_formdata r) /\
    Patient.address p = PatientForm.fd_address (patient_formdata r) /\
    patient_okb email_syntax p = true.
Proof.
  intros Hauth Hv o. subst o.
  pose proof (validate_on_submit_submitted _ _ Hv) as Hs.
  destruct (patient_form_accepted email_syntax None r Hv)
    as [n [ph [Hn [Hph [Hnok [Hphok [Hem Hbd]]]]]]].
  unfold app.add_patient. rewrite login_required_authenticated by exact Hauth.
  rewrite Hv, Hn, Hph. cbn [reply store]. split; [reflexivity|].
  eexists. split; [|split].
  - rewrite insert_row_last; [reflexivity|].
    intros a Ha. cbn [Patient.id]. apply rowid_lt_next. exact Ha.
  - intros x Hx. cbn [Patient.id]. apply rowid_lt_next. exact Hx.
  - destruct (patient_form_fields None r Hs) as [F1 [F2 [F3 F4]]].
    cbn [Patient.full_name Patient.phone Patient.email Patient.address].
    rewrite F1 in Hn. rewrite F2 in Hph. rewrite F3, F4.
    cbn [option_map text_field] in *.
    destruct (PatientForm.fd_full_name _); [|discriminate].
    destruct (PatientForm.fd_phone _); [|discriminate].
    injection Hn as ->. injection Hph as ->.
    repeat split.
    + destruct (PatientForm.fd_email _); reflexivity.
    + destruct (PatientForm.fd_address _); reflexivity.
    + unfold patient_okb. cbn [Patient.full_name Patient.phone Patient.email
                                Patient.birth_date].
      rewrite <- F3, Hnok, Hphok, Hem, (Hbd eq_refl). reflexivity.
Qed.

(** X12. The same for a doctor form submitted to the add view. *)
Theorem add_doctor_appends (d : db.t) (r : request) :
  app.is_authenticated d r = true ->
  app.validate_on_submit r
    (DoctorForm.errors (app.doctor_form email_syntax None r)) = true ->
  let o := app.add_doctor email_syntax d r in
  reply o = redirect Doctors /\
  exists x,
    store o = db.with_doctors (db.doctors d ++ [x]) d /\
    (forall y, In y (db.doctors d) -> Doctor.id y < Doctor.id x) /\
    Some (Doctor.full_name x) = DoctorForm.fd_full_name (doctor_formdata r) /\
    Some (Doctor.specialty x) = DoctorForm.fd_specialty (doctor_formdata r) /\
    Some (Doctor.phone x) = DoctorForm.fd_phone (doctor_formdata r) /\
    Doctor.email x = DoctorForm.fd_email (doctor_formdata r) /\
    Doctor.room x = DoctorForm.fd_room (doctor_formdata r) /\
    doctor_okb email_syntax x = true.
Proof.
  intros Hauth Hv o. subst o.
  pose proof (validate_on_submit_submitted _ _ Hv) as Hs.
  destruct (doctor_form_accepted email_syntax None r Hv)
    as [n [sp [ph [Hn [Hsp [Hph [Hnok [Hspok [Hphok [Hem Hroom]]]]]]]]]].
  unfold app.add_doctor. rewrite login_required_authenticated by exact Hauth.
  rewrite Hv, Hn, Hsp, Hph. cbn [reply store]. split; [reflexivity|].
  eexists. split; [|split].
  - rewrite insert_row_last; [reflexivity|].
    intros a Ha. cbn [Doctor.id]. apply rowid_lt_next. exact Ha.
  - intros y Hy. cbn [Doctor.id]. apply rowid_lt_next. exact Hy.
  - destruct (doctor_form_fields None r Hs) as [F1 [F2 [F3 [F4 F5]]]].
    cbn [Doctor.full_name Doctor.specialty Doctor.phone Doctor.email Doctor.room].
    rewrite F1 in Hn. rewrite F2 in Hsp. rewrite F3 in Hph. rewrite F4, F5.
    cbn [option_map text_field] in *.
    destruct (DoctorForm.fd_full_name _); [|discriminate].
    destruct (DoctorForm.fd_specialty _); [|discriminate].
    destruct (DoctorForm.fd_phone _); [|discriminate].
    injection Hn as ->. injection Hsp as ->. injection Hph as ->.
    repeat split.
    + destruct (DoctorForm.fd_email _); reflexivity.
    + destruct (DoctorForm.fd_room _); reflexivity.
    + unfold doctor_okb. cbn [Doctor.full_name Doctor.specialty Doctor.phone
                               Doctor.email Doctor.room].
      rewrite <- F4, <- F5, Hnok, Hspok, Hphok, Hem, Hroom. reflexivity.
Qed.

(** X13. The edit view of a patient answers 404 and writes nothing for
    an id, within the keys of the store (up to [max_int64]), that the
    table does not hold.  For a stored patient and a form that
    validates, it redirects to the list and replaces the row of that id:
    the row keeps its id and takes the text of every submitted field, a
    field the body leaves out keeps its stored value, and the rows of the
    other ids, their number and their order stay as they were. *)
Theorem edit_patient_replaces_one_row (d : db.t) (r : request) (id : Z) :
  app.is_authenticated d r = true ->
  let o := app.edit_patient email_syntax id d r in
  (id <= max_int64 -> query_get Patient.id id (db.patients d) = None ->
   reply o = abort 404 /\ store o = d) /\
  (forall old,
     query_get Patient.id id (db.patients d) = Some old ->
     app.validate_on_submit r
       (PatientForm.errors (app.patient_form email_syntax (Some old) r)) = true ->
     reply o = redirect Patients /\
     exists p,
       store o = db.with_patients (update_row Patient.id p (db.patients d)) d /\
       query_get Patient.id id (db.patients (store o)) = Some p /\
       Patient.id p = id /\
       Patient.full_name p =
         match PatientForm.fd_full_name (patient_formdata r) with
         | Some s => s
         | None => Patient.full_name old
         end /\
       Patient.phone p =
         match PatientForm.fd_phone (patient_formdata r) with
         | Some s => s
         | None => Patient.phone old
         end /\
       Patient.email p =
         match PatientForm.fd_email (patient_formdata r) with
         | Some s => Some s
         | None => Patient.email old
         end /\
       patient_ids (store o) = patient_ids d /\
       forall j, j <> id ->
         query_get Patient.id j (db.patients (store o)) =
         query_get Patient.id j (db.patients d)).
Proof.
  intros Hauth o. subst o. unfold app.edit_patient.
  rewrite login_required_authenticated by exact Hauth. split.
  - intros _ ->. split; reflexivity.
  - intros old Hget Hv. rewrite Hget.
    pose proof (validate_on_submit_submitted _ _ Hv) as Hs.
    destruct (patient_form_accepted email_syntax (Some old) r Hv)
      as [n [ph [Hn [Hph _]]]].
    destruct (query_get_rowid _ _ _ _ Hget) as [Hid _].
    rewrite Hv, Hn, Hph. cbn [reply store]. split; [reflexivity|].
    eexists. split; [reflexivity|].
    cbn [db.patients db.with_patients]. split; [|split; [exact Hid|]].
    + rewrite <- Hid at 1.
      apply (query_get_update_row Patient.id
               (Patient.mk (Patient.id old) n ph _ _ _) _ old).
      cbn [Patient.id]. rewrite Hid. exact Hget.
    + destruct (patient_form_fields (Some old) r Hs) as [F1 [F2 [F3 F4]]].
      cbn [Patient.full_name Patient.phone Patient.email].
      rewrite F1 in Hn. rewrite F2 in Hph. rewrite F3.
      cbn [option_map] in *. unfold text_field in *.
      split; [|split; [|split; [reflexivity|split]]].
      * destruct (PatientForm.fd_full_name _); congruence.
      * destruct (PatientForm.fd_phone _); congruence.
      * unfold patient_ids. apply map_rowid_update_row.
      * intros j Hj. apply query_get_update_row_other.
        cbn [Patient.id]. congruence.
Qed.

(** X14. The delete views of patients and doctors, for a stored row that
    an appointment names, answer with status 500 and write nothing; for a
    stored row that no appointment names they redirect to the list and
    remove that row alone: the rows of the other ids and the two other
    tables stay as they were. *)
Theorem delete_spares_named_rows (d : db.t) (r : request) (id : Z) :
  app.is_authenticated d r = true ->
  (forall p, query_get Patient.id id (db.patients d) = Some p ->
     let o := app.delete_patient id d r in
     ((exists a, In a (db.appointments d) /\ Appointment.patient_id a = id) ->
      reply o = abort 500 /\ store o = d) /\
     ((forall a, In a (db.appointments d) -> Appointment.patient_id a <> id) ->
      reply o = redirect Patients /\
      store o = db.with_patients (delete_row Patient.id id (db.patients d)) d /\
      forall j, j <> id ->
        query_get Patient.id j (db.patients (store o)) =
        query_get Patient.id j (db.patients d))) /\
  (forall x, query_get Doctor.id id (db.doctors d) = Some x ->
     let o := app.delete_doctor id d r in
     ((exists a, In a (db.appointments d) /\ Appointment.doctor_id a = id) ->
      reply o = abort 500 /\ store o = d) /\
     ((forall a, In a (db.appointments d) -> Appointment.doctor_id a <> id) ->
      reply o = redirect Doctors /\
      store o = db.with_doctors (delete_row Doctor.id id (db.doctors d)) d /\
      forall j, j <> id ->
        query_get Doctor.id j (db.doctors (store o)) =
        query_get Doctor.id j (db.doctors d))).
Proof.
  intros Hauth. split.
  - intros p Hget o. subst o. unfold app.delete_patient.
    rewrite login_required_authenticated by exact Hauth. rewrite Hget.
    destruct (query_get_rowid _ _ _ _ Hget) as [Hid _]. rewrite Hid. split.
    + intros [a [Hin Ha]].
      assert (E : existsb (fun a0 => Appointment.patient_id a0 =? id)
                    (db.appointments d) = true).
      { apply existsb_exists. exists a. split; [exact Hin | apply Z.eqb_eq; exact Ha]. }
      rewrite E. split; reflexivity.
    + intros Hnone.
      assert (E : existsb (fun a0 => Appointment.patient_id a0 =? id)
                    (db.appointments d) = false).
      { destruct (existsb _ _) eqn:E; [|reflexivity].
        apply existsb_exists in E. destruct E as [a [Hin Ha]].
        apply Z.eqb_eq in Ha. exfalso. exact (Hnone a Hin Ha). }
      rewrite E. cbn [reply store db.patients db.with_patients].
      repeat split. intros j Hj. apply query_get_delete_row_other. exact Hj.
  - intros x Hget o. subst o. unfold app.delete_doctor.
    rewrite login_required_authenticated by exact Hauth. rewrite Hget.
    destruct (query_get_rowid _ _ _ _ Hget) as [Hid _]. rewrite Hid. split.
    + intros [a [Hin Ha]].
      assert (E : existsb (fun a0 => Appointment.doctor_id a0 =? id)
                    (db.appointments d) = true).
      { apply existsb_exists. exists a. split; [exact Hin | apply Z.eqb_eq; exact Ha]. }
      rewrite E. split; reflexivity.
    + intros Hnone.
      assert (E : existsb (fun a0 => Appointment.doctor_id a0 =? id)
                    (db.appointments d) = false).
      { destruct (existsb _ _) eqn:E; [|reflexivity].
        apply existsb_exists in E. destruct E as [a [Hin Ha]].
        apply Z.eqb_eq in Ha. exfalso. exact (Hnone a Hin Ha). }
      rewrite E. cbn [reply store db.doctors db.with_doctors].
      repeat split. intros j Hj. apply query_get_delete_row_other. exact Hj.
Qed.
End Records.

(* ------------------------------------------------------------------ *)
(** ** The list views (app.py, lines 103-108, 150-155, 197-202) *)

Lemma lex_ltb_asym (a b : list Z) :
  datetime.lex_ltb a b = true -> datetime.lex_ltb b a = false.
Proof.
  revert b. induction a as [|x a IH]; intros [|y b] H;
    cbn [datetime.lex_ltb] in *; try discriminate H; try reflexivity.
  apply orb_prop in H. apply orb_false_iff. destruct H as [H | H].
  - apply Z.ltb_lt in H. split; [apply Z.ltb_ge; lia|].
    apply andb_false_iff. left. apply Z.eqb_neq. lia.
  - apply andb_prop in H. destruct H as [H1 H2]. apply Z.eqb_eq in H1. subst y.
    split; [apply Z.ltb_irrefl|]. rewrite (IH _ H2). apply andb_false_r.
Qed.

Lemma lex_ltb_cotrans (a b c : list Z) :
  List.length a = List.length b -> List.length b = List.length c ->
  datetime.lex_ltb a c = true ->
  datetime.lex_ltb a b = true \/ datetime.lex_ltb b c = true.
Proof.
  revert b c. induction a as [|x a IH]; intros [|y b] [|z c] Hab Hbc H;
    cbn [datetime.lex_ltb] in *; try discriminate.
  injection Hab as Hab. injection Hbc as Hbc. apply orb_prop in H.
  destruct (Z.lt_trichotomy x y) as [L | [E | G]].
  - left. apply orb_true_iff. left. apply Z.ltb_lt. exact L.
  - subst y. destruct H as [H | H].
    + right. apply orb_true_iff. left. exact H.
    + apply andb_prop in H. destruct H as [H1 H2]. apply Z.eqb_eq in H1. subst z.
      destruct (IH b c Hab Hbc H2) as [K | K]; [left | right];
        rewrite K, Z.eqb_refl; apply orb_true_r.
  - right. apply orb_true_iff. left. apply Z.ltb_lt. destruct H as [H | H].
    + apply Z.ltb_lt in H. lia.
    + apply andb_prop in H. destruct H as [H1 _]. apply Z.eqb_eq in H1. lia.
Qed.

Lemma datetime_ltb_asym (x y : datetime.t) :
  datetime.ltb x y = true -> datetime.ltb y x = false.
Proof. unfold datetime.ltb. apply lex_ltb_asym. Qed.

Lemma datetime_ltb_cotrans (x y z : datetime.t) :
  datetime.ltb x z = true -> datetime.ltb x y = true \/ datetime.ltb y z = true.
Proof. unfold datetime.ltb. apply lex_ltb_cotrans; reflexivity. Qed.

Lemma descendingb_insert_desc (a : Appointment.t) (l : list Appointment.t) :
  descendingb (map Appointment.appointment_date l) = true ->
  descendingb (map Appointment.appointment_date (insert_desc a l)) = true.
Proof.
  induction l as [|b l IH]; cbn [insert_desc map descendingb]; [reflexivity|].
  intros H. apply andb_prop in H. destruct H as [Hb Hl].
  destruct (datetime.ltb (Appointment.appointment_date a)
              (Appointment.appointment_date b)) eqn:E; cbn [map descendingb].
  - apply andb_true_intro. split; [|apply IH; exact Hl].
    apply forallb_forall. intros y Hy. apply in_map_iff in Hy.
    destruct Hy as [x [<- Hx]]. apply in_insert_desc in Hx. destruct Hx as [-> | Hx].
    + rewrite (datetime_ltb_asym _ _ E). reflexivity.
    + rewrite forallb_forall in Hb. apply Hb. apply in_map. exact Hx.
  - apply andb_true_intro. split; [|apply andb_true_intro; split; assumption].
    cbn [forallb]. rewrite E. cbn [negb andb].
    apply forallb_forall. intros y Hy. rewrite forallb_forall in Hb.
    specialize (Hb y Hy). apply negb_true_iff in Hb. apply negb_true_iff.
    destruct (datetime.ltb (Appointment.appointment_date a) y) eqn:F; [|reflexivity].
    destruct (datetime_ltb_cotrans _ (Appointment.appointment_date b) _ F); congruence.
Qed.

Lemma descendingb_order_by_date_desc (l : list Appointment.t) :
  descendingb (map Appointment.appointment_date (order_by_date_desc l)) = true.
Proof.
  unfold order_by_date_desc. induction l as [|a l IH]; cbn [fold_right]; [reflexivity|].
  apply descendingb_insert_desc. exact IH.
Qed.

Lemma insert_desc_permutation (a : Appointment.t) (l : list Appointment.t) :
  Permutation (insert_desc a l) (a :: l).
Proof.
  induction l as [|b l IH]; cbn [insert_desc]; [apply Permutation_refl|].
  destruct (datetime.ltb _ _); [|apply Permutation_refl].
  apply (Permutation_trans (perm_skip b IH)). apply perm_swap.
Qed.

Lemma order_by_date_desc_permutation (l : list Appointment.t) :
  Permutation (order_by_date_desc l) l.
Proof.
  unfold order_by_date_desc. induction l as [|a l IH]; cbn [fold_right];
    [apply Permutation_refl|].
  apply (Permutation_trans (insert_desc_permutation a _)). apply perm_skip. exact IH.
Qed.

Lemma descendingb_firstn (n : nat) (l : list datetime.t) :
  descendingb l = true -> descendingb (firstn n l) = true.
Proof.
  revert l. induction n as [|n IH]; intros [|x l] H; cbn [firstn descendingb] in *;
    try reflexivity.
  apply andb_prop in H. destruct H as [H1 H2].
  apply andb_true_intro. split; [|apply IH; exact H2].
  apply forallb_forall. intros y Hy. rewrite forallb_forall in H1.
  apply H1. apply in_firstn in Hy. exact Hy.
Qed.

Lemma descendingb_skipn (n : nat) (l : list datetime.t) :
  descendingb l = true -> descendingb (skipn n l) = true.
Proof.
  revert l. induction n as [|n IH]; intros [|x l] H; cbn [skipn]; try exact H.
  cbn [descendingb] in H. apply andb_prop in H. apply IH. tauto.
Qed.

Lemma paginate_total {A : Type} (q : list A) (page per_page : Z) (p : Pagination.t A) :
  paginate q page per_page = Some p ->
  Pagination.total p = Z.of_nat (List.length q).
Proof.
  unfold paginate. destruct (page <? 1); [discriminate|].
  destruct (firstn _ _); [destruct (page =? 1); [|discriminate]|];
    intros [= <-]; reflexivity.
Qed.

(** The pages a query has: the first, and those that begin before its
    end. *)
Lemma paginate_none {A : Type} (q : list A) (page : Z) :
  paginate q page 10 = None <->
  page < 1 \/ (1 < page /\ Z.of_nat (List.length q) <= (page - 1) * 10).
Proof.
  unfold paginate. destruct (Z.ltb_spec page 1) as [Hlt | Hge].
  - split; [intros _; left; exact Hlt | reflexivity].
  - change (Z.to_nat 10) with 10%nat.
    destruct (firstn 10 (skipn (Z.to_nat ((page - 1) * 10)) q)) as [|a items] eqn:E.
    + assert (Hlen : (List.length q <= Z.to_nat ((page - 1) * 10))%nat).
      { assert (Hs : skipn (Z.to_nat ((page - 1) * 10)) q = []).
        { destruct (skipn _ q); [reflexivity | discriminate E]. }
        apply (f_equal (@List.length A)) in Hs. rewrite length_skipn in Hs.
        cbn in Hs. lia. }
      destruct (Z.eqb_spec page 1) as [-> | Hne].
      * split; [discriminate | intros [H | [H _]]; lia].
      * split; [|reflexivity]. intros _. right. split; [lia|].
        apply Nat2Z.inj_le in Hlen. rewrite Z2Nat.id in Hlen by lia. exact Hlen.
    + split; [discriminate|]. intros [H | [H1 H2]]; [lia|]. exfalso.
      rewrite skipn_all2 in E by lia. discriminate E.
Qed.

(** The two ways [paginate] ends a request without a page. *)
Lemma paginate_abort {A : Type} (q : list A) (n : Z) :
  (paginate q n 10 = None /\ no_page n 10 = 404 <->
   n < 1 \/ (past_the_end (List.length q) n /\ (n - 1) * 10 <= max_int64)) /\
  (paginate q n 10 = None /\ no_page n 10 = 500 <->
   past_the_end (List.length q) n /\ max_int64 < (n - 1) * 10).
Proof.
  rewrite paginate_none. unfold no_page, past_the_end.
  destruct (Z.ltb_spec n 1); [|destruct (Z.leb_spec ((n - 1) * 10) max_int64)];
    unfold max_int64 in *; split; split; intros; try lia;
    repeat match goal with H : _ /\ _ |- _ => destruct H end;
    try discriminate; try lia.
Qed.

Lemma reply_abort {A : Type} (d : db.t) (r : request) (q : list A) (n code : Z)
    (page : Pagination.t A -> response) :
  (forall p, page p <> abort code) ->
  reply (match paginate q n 10 with
         | Some p => app.respond d r (page p) []
         | None => app.respond d r (abort (no_page n 10)) []
         end) = abort code <->
  paginate q n 10 = None /\ no_page n 10 = code.
Proof.
  intros Hpage. destruct (paginate q n 10) as [p|]; cbn [reply app.respond]; split.
  - intros H. exfalso. exact (Hpage p H).
  - intros [H _]. discriminate H.
  - intros [= H]. split; [reflexivity | exact H].
  - intros [_ ->]. reflexivity.
Qed.

Lemma nth_error_page {A : Type} (q : list A) (i : nat) (x : A) (page : Z) :
  nth_error q i = Some x ->
  page = Z.of_nat (i / 10) + 1 ->
  exists p, paginate q page 10 = Some p /\
            nth_error (Pagination.items p) (i mod 10) = Some x.
Proof.
  intros Hnth ->.
  assert (Hk : Z.to_nat ((Z.of_nat (i / 10) + 1 - 1) * 10) = (10 * (i / 10))%nat) by lia.
  assert (Hi : nth_error (firstn 10 (skipn (10 * (i / 10)) q)) (i mod 10) = Some x).
  { rewrite nth_error_firstn.
    assert (Hm : (i mod 10 < 10)%nat) by (apply Nat.mod_upper_bound; discriminate).
    apply Nat.ltb_lt in Hm. rewrite Hm. rewrite nth_error_skipn.
    rewrite <- (Nat.div_mod_eq i 10). exact Hnth. }
  unfold paginate. destruct (Z.ltb_spec (Z.of_nat (i / 10) + 1) 1) as [H | _]; [lia|].
  change (Z.to_nat 10) with 10%nat. rewrite Hk.
  destruct (firstn 10 (skipn (10 * (i / 10)) q)) as [|a items] eqn:E.
  - destruct (i mod 10)%nat; discriminate Hi.
  - eexists. split; [reflexivity|]. exact Hi.
Qed.

Section Lists.
Variable d : db.t.
Variable r : request.
Hypothesis authenticated : app.is_authenticated d r = true.

(** X15. The page the list of appointments shows holds at most ten
    appointments, cut at ten times the page number less one out of the
    appointments of the table put in an order in which none is dated
    earlier than one that follows it; the view writes nothing. *)
Theorem appointments_are_listed_newest_first (t : string)
    (p : Pagination.t Appointment.t) :
  reply (app.appointments d r) = render_template t (appointments_page p) ->
  exists sorted,
    Permutation sorted (db.appointments d) /\
    descendingb (map Appointment.appointment_date sorted) = true /\
    Pagination.items p =
      firstn 10 (skipn (Z.to_nat ((app.page_arg r - 1) * 10)) sorted) /\
    (List.length (Pagination.items p) <= 10)%nat /\
    descendingb (map Appointment.appointment_date (Pagination.items p)) = true /\
    Pagination.total p = Z.of_nat (List.length (db.appointments d)) /\
    store (app.appointments d r) = d.
Proof.
  unfold app.appointments. rewrite login_required_authenticated by exact authenticated.
  destruct (paginate _ _ _) as [q|] eqn:Hp; [|discriminate].
  intros [= _ <-]. exists (order_by_date_desc (db.appointments d)).
  pose proof (paginate_total _ _ _ _ Hp) as Ht.
  apply paginate_items in Hp. destruct Hp as [_ Hp].
  change (Z.to_nat 10) with 10%nat in Hp.
  split; [apply order_by_date_desc_permutation|].
  split; [apply descendingb_order_by_date_desc|].
  split; [exact Hp|]. rewrite Hp.
  split; [apply firstn_le_length|].
  split.
  - rewrite <- firstn_map, <- skipn_map.
    apply descendingb_firstn, descendingb_skipn, descendingb_order_by_date_desc.
  - split; [|reflexivity]. rewrite Ht.
    rewrite (Permutation_length (order_by_date_desc_permutation _)). reflexivity.
Qed.

(** X16. A list view shows page 1 even when the table is empty.  For a
    page number below 1 it answers 404.  For a page number above 1 whose
    ten-row window starts at or past the end of the table it answers 404
    when the offset of the window can be bound to the query, and 500 when
    the offset is above the largest integer of the store.  It answers
    neither in any other case. *)
Theorem list_pages_end_with_the_table :
  let n := app.page_arg r in
  let patients := List.length (db.patients d) in
  let doctors := List.length (db.doctors d) in
  let appointments := List.length (db.appointments d) in
  (reply (app.patients d r) = abort 404 <->
   n < 1 \/ (past_the_end patients n /\ (n - 1) * 10 <= max_int64)) /\
  (reply (app.patients d r) = abort 500 <->
   past_the_end patients n /\ max_int64 < (n - 1) * 10) /\
  (reply (app.doctors d r) = abort 404 <->
   n < 1 \/ (past_the_end doctors n /\ (n - 1) * 10 <= max_int64)) /\
  (reply (app.doctors d r) = abort 500 <->
   past_the_end doctors n /\ max_int64 < (n - 1) * 10) /\
  (reply (app.appointments d r) = abort 404 <->
   n < 1 \/ (past_the_end appointments n /\ (n - 1) * 10 <= max_int64)) /\
  (reply (app.appointments d r) = abort 500 <->
   past_the_end appointments n /\ max_int64 < (n - 1) * 10).
Proof.
  intros n patients doctors appointments. subst n patients doctors appointments.
  unfold app.patients, app.doctors, app.appointments.
  rewrite !login_required_authenticated by exact authenticated.
  rewrite <- (Permutation_length (order_by_date_desc_permutation (db.appointments d))).
  repeat match goal with |- _ /\ _ => split end;
    (etransitivity; [apply reply_abort; intros p; discriminate|]);
    first [ exact (proj1 (paginate_abort _ _)) | exact (proj2 (paginate_abort _ _)) ].
Qed.

(** X17. Every patient and every doctor is listed: the row at position
    [i] of its table, counted from 0, is shown at position [i mod 10] of
    page [i / 10 + 1]. *)
Theorem every_row_is_on_its_page (i : nat) :
  app.page_arg r = Z.of_nat (i / 10) + 1 ->
  (forall p, nth_error (db.patients d) i = Some p ->
     exists t pg,
       reply (app.patients d r) = render_template t (patients_page pg) /\
       nth_error (Pagination.items pg) (i mod 10) = Some p) /\
  (forall x, nth_error (db.doctors d) i = Some x ->
     exists t pg,
       reply (app.doctors d r) = render_template t (doctors_page pg) /\
       nth_error (Pagination.items pg) (i mod 10) = Some x).
Proof.
  intros Hpage. unfold app.patients, app.doctors.
  rewrite !login_required_authenticated by exact authenticated.
  split; intros x Hnth;
    destruct (nth_error_page _ _ _ _ Hnth Hpage) as [pg [Hp Hi]];
    rewrite Hp; do 2 eexists; (split; [reflexivity | exact Hi]).
Qed.
End Lists.

(* ------------------------------------------------------------------ *)
(** ** Refused forms (app.py, lines 28-42, 110-126, 157-173) *)

Lemma text_field_none (fd : option string) : text_field None fd = fd.
Proof. destruct fd; reflexivity. Qed.

Section Refusals.
Variable email_syntax : string -> bool.
Variable d : db.t.
Variable r : request.
Hypothesis authenticated : app.is_authenticated d r = true.
Hypothesis submitted_request : is_submitted (method r) = true.

Lemma patient_form_errors :
  let fd := patient_formdata r in
  PatientForm.errors (app.patient_form email_syntax None r) =
    csrf_errors (csrf_ok r) ++
    on_field "full_name" (required_text (Some 150) (PatientForm.fd_full_name fd)) ++
    on_field "phone" (required_text (Some 20) (PatientForm.fd_phone fd)) ++
    on_field "email" (email_errors email_syntax (PatientForm.fd_email fd)) ++
    on_field "birth_date" (snd (date_field None (PatientForm.fd_birth_date fd))).
Proof.
  intros fd. subst fd. unfold app.patient_form, app.body_of.
  rewrite submitted_request. unfold PatientForm.validate, PatientForm.process.
  cbn [PatientForm.errors PatientForm.full_name PatientForm.phone PatientForm.email
       PatientForm.process_errors option_map].
  rewrite !text_field_none. reflexivity.
Qed.

Lemma doctor_form_errors :
  let fd := doctor_formdata r in
  DoctorForm.errors (app.doctor_form email_syntax None r) =
    csrf_errors (csrf_ok r) ++
    on_field "full_name" (required_text (Some 150) (DoctorForm.fd_full_name fd)) ++
    on_field "specialty" (required_text (Some 100) (DoctorForm.fd_specialty fd)) ++
    on_field "phone" (required_text (Some 20) (DoctorForm.fd_phone fd)) ++
    on_field "email" (email_errors email_syntax (DoctorForm.fd_email fd)) ++
    on_field "room" (optional_text 20 (DoctorForm.fd_room fd)).
Proof.
  intros fd. subst fd. unfold app.doctor_form, app.body_of.
  rewrite submitted_request. unfold DoctorForm.validate, DoctorForm.process.
  cbn [DoctorForm.errors DoctorForm.full_name DoctorForm.specialty DoctorForm.phone
       DoctorForm.email DoctorForm.room option_map].
  rewrite !text_field_none. reflexivity.
Qed.

Lemma required_text_missing (max : option Z) (data : option string) :
  DataRequired data = false -> required_text max data = [Required].
Proof. unfold required_text. intros ->. reflexivity. Qed.

Lemma required_text_too_long (max : Z) (data : option string) :
  DataRequired data = true -> Length max data = false ->
  required_text (Some max) data = [TooLong].
Proof. unfold required_text. intros -> ->. reflexivity. Qed.

Lemma email_errors_too_long (data : option string) :
  Length 120 data = false -> In TooLong (email_errors email_syntax data).
Proof.
  unfold email_errors, optional_text. intros ->. left. reflexivity.
Qed.

Lemma email_errors_invalid (data : option string) :
  Email email_syntax data = false -> In InvalidEmail (email_errors email_syntax data).
Proof.
  unfold email_errors. intros ->. apply in_or_app. right. left. reflexivity.
Qed.

(** X18. A submitted patient form that fails a validator is not saved:
    the add view shows the form again with no message and leaves the
    tables as they were.  A name or phone that is missing or blank gets
    the error of [DataRequired], one that is too long the error of
    [Length], an email that is too long or fails the syntax test its
    error, a birth date that does not parse (the empty text too) the error
    of the date field, and a bad token the CSRF error. *)
Theorem add_patient_refuses_bad_input :
  let fd := patient_formdata r in
  let f := app.patient_form email_syntax None r in
  let o := app.add_patient email_syntax d r in
  (PatientForm.errors f <> [] ->
   store o = d /\ flashed o = [] /\
   reply o = render_template "admin/patient_form.html"
               (patient_form_page f "Добавить пациента")) /\
  (csrf_ok r = false -> In ("csrf_token", CsrfFailed) (PatientForm.errors f)) /\
  (DataRequired (PatientForm.fd_full_name fd) = false ->
   In ("full_name", Required) (PatientForm.errors f)) /\
  (DataRequired (PatientForm.fd_full_name fd) = true ->
   Length 150 (PatientForm.fd_full_name fd) = false ->
   In ("full_name", TooLong) (PatientForm.errors f)) /\
  (DataRequired (PatientForm.fd_phone fd) = false ->
   In ("phone", Required) (PatientForm.errors f)) /\
  (DataRequired (PatientForm.fd_phone fd) = true ->
   Length 20 (PatientForm.fd_phone fd) = false ->
   In ("phone", TooLong) (PatientForm.errors f)) /\
  (Length 120 (PatientForm.fd_email fd) = false ->
   In ("email", TooLong) (PatientForm.errors f)) /\
  (Email email_syntax (PatientForm.fd_email fd) = false ->
   In ("email", InvalidEmail) (PatientForm.errors f)) /\
  (forall s, PatientForm.fd_birth_date fd = Some s -> strptime_date s = None ->
   In ("birth_date", NotAValidDate) (PatientForm.errors f)) /\
  strptime_date "" = None.
Proof.
  intros fd f o. subst fd f o. split.
  - intros He. unfold app.add_patient.
    rewrite login_required_authenticated by exact authenticated.
    unfold app.validate_on_submit. rewrite submitted_request.
    destruct (PatientForm.errors _); [contradiction He; reflexivity|].
    cbn [no_errors andb]. repeat split; reflexivity.
  - rewrite patient_form_errors. cbv zeta. rewrite !in_app_iff.
    split; [|split; [|split; [|split; [|split; [|split; [|split; [|split]]]]]]].
    + intros ->. left. left. reflexivity.
    + intros H. right. left. rewrite (required_text_missing _ _ H). left. reflexivity.
    + intros H1 H2. right. left. rewrite (required_text_too_long _ _ H1 H2).
      left. reflexivity.
    + intros H. right. right. left. rewrite (required_text_missing _ _ H).
      left. reflexivity.
    + intros H1 H2. right. right. left. rewrite (required_text_too_long _ _ H1 H2).
      left. reflexivity.
    + intros H. right. right. right. left. apply on_field_in.
      apply email_errors_too_long. exact H.
    + intros H. right. right. right. left. apply on_field_in.
      apply email_errors_invalid. exact H.
    + intros s Hs Hnone. rewrite !in_app_iff.
      right. right. right. right. apply on_field_in.
      unfold date_field. rewrite Hs, Hnone. left. reflexivity.
    + reflexivity.
Qed.

(** X19. A submitted doctor form that fails a validator is not saved: the
    add view shows the form again with no message and leaves the tables as
    they were.  A name, specialty or phone that is missing or blank gets
    the error of [DataRequired], one that is too long the error of
    [Length], as does a room of more than 20 characters; an email that is
    too long or fails the syntax test gets its error. *)
Theorem add_doctor_refuses_bad_input :
  let fd := doctor_formdata r in
  let f := app.doctor_form email_syntax None r in
  let o := app.add_doctor email_syntax d r in
  (DoctorForm.errors f <> [] ->
   store o = d /\ flashed o = [] /\
   reply o = render_template "admin/doctor_form.html"
               (doctor_form_page f "Добавить врача")) /\
  (csrf_ok r = false -> In ("csrf_token", CsrfFailed) (DoctorForm.errors f)) /\
  (DataRequired (DoctorForm.fd_full_name fd) = false ->
   In ("full_name", Required) (DoctorForm.errors f)) /\
  (DataRequired (DoctorForm.fd_full_name fd) = true ->
   Length 150 (DoctorForm.fd_full_name fd) = false ->
   In ("full_name", TooLong) (DoctorForm.errors f)) /\
  (DataRequired (DoctorForm.fd_specialty fd) = false ->
   In ("specialty", Required) (DoctorForm.errors f)) /\
  (DataRequired (DoctorForm.fd_specialty fd) = true ->
   Length 100 (DoctorForm.fd_specialty fd) = false ->
   In ("specialty", TooLong) (DoctorForm.errors f)) /\
  (DataRequired (DoctorForm.fd_phone fd) = false ->
   In ("phone", Required) (DoctorForm.errors f)) /\
  (DataRequired (DoctorForm.fd_phone fd) = true ->
   Length 20 (DoctorForm.fd_phone fd) = false ->
   In ("phone", TooLong) (DoctorForm.errors f)) /\
  (Length 120 (DoctorForm.fd_email fd) = false ->
   In ("email", TooLong) (DoctorForm.errors f)) /\
  (Email email_syntax (DoctorForm.fd_email fd) = false ->
   In ("email", InvalidEmail) (DoctorForm.errors f)) /\
  (Length 20 (DoctorForm.fd_room fd) = false ->
   In ("room", TooLong) (DoctorForm.errors f)).
Proof.
  intros fd f o. subst fd f o. split.
  - intros He. unfold app.add_doctor.
    rewrite login_required_authenticated by exact authenticated.
    unfold app.validate_on_submit. rewrite submitted_request.
    destruct (DoctorForm.errors _); [contradiction He; reflexivity|].
    cbn [no_errors andb]. repeat split; reflexivity.
  - rewrite doctor_form_errors. cbv zeta. rewrite !in_app_iff.
    split; [|split; [|split; [|split; [|split; [|split; [|split; [|split; [|split]]]]]]]].
    + intros ->. left. left. reflexivity.
    + intros H. right. left. rewrite (required_text_missing _ _ H). left. reflexivity.
    + intros H1 H2. right. left. rewrite (required_text_too_long _ _ H1 H2).
      left. reflexivity.
    + intros H. right. right. left. rewrite (required_text_missing _ _ H).
      left. reflexivity.
    + intros H1 H2. right. right. left. rewrite (required_text_too_long _ _ H1 H2).
      left. reflexivity.
    + intros H. right. right. right. left. rewrite (required_text_missing _ _ H).
      left. reflexivity.
    + intros H1 H2. right. right. right. left.
      rewrite (required_text_too_long _ _ H1 H2). left. reflexivity.
    + intros H. right. right. right. right. left. apply on_field_in.
      apply email_errors_too_long. exact H.
    + intros H. right. right. right. right. left. apply on_field_in.
      apply email_errors_invalid. exact H.
    + intros H. right. right. right. right. right. apply on_field_in.
      unfold optional_text. rewrite H. left. reflexivity.
Qed.
End Refusals.

(** X20. An edit view asked for with a request that submits nothing shows
    the form filled with the stored row, with no error and no message,
    and writes nothing; for an id, within the keys of the store (up to
    [max_int64]), that the table does not hold it answers 404. *)
Theorem edit_forms_show_the_stored_row (email_syntax : string -> bool)
    (d : db.t) (r : request) (id : Z) :
  app.is_authenticated d r = true ->
  is_submitted (method r) = false ->
  (forall p, query_get Patient.id id (db.patients d) = Some p ->
     let o := app.edit_patient email_syntax id d r in
     store o = d /\ flashed o = [] /\
     exists f,
       reply o = render_template "admin/patient_form.html"
                   (patient_form_page f "Редактировать пациента") /\
       PatientForm.full_name f = Some (Patient.full_name p) /\
       PatientForm.phone f = Some (Patient.phone p) /\
       PatientForm.email f = Patient.email p /\
       PatientForm.birth_date f = Patient.birth_date p /\
       PatientForm.address f = Patient.address p /\
       PatientForm.errors f = []) /\
  (forall x, query_get Doctor.id id (db.doctors d) = Some x ->
     let o := app.edit_doctor email_syntax id d r in
     store o = d /\ flashed o = [] /\
     exists f,
       reply o = render_template "admin/doctor_form.html"
                   (doctor_form_page f "Редактировать врача") /\
       DoctorForm.full_name f = Some (Doctor.full_name x) /\
       DoctorForm.specialty f = Some (Doctor.specialty x) /\
       DoctorForm.phone f = Some (Doctor.phone x) /\
       DoctorForm.email f = Doctor.email x /\
       DoctorForm.room f = Doctor.room x /\
       DoctorForm.errors f = []) /\
  (id <= max_int64 -> query_get Patient.id id (db.patients d) = None ->
   reply (app.edit_patient email_syntax id d r) = abort 404 /\
   store (app.edit_patient email_syntax id d r) = d) /\
  (id <= max_int64 -> query_get Doctor.id id (db.doctors d) = None ->
   reply (app.edit_doctor email_syntax id d r) = abort 404 /\
   store (app.edit_doctor email_syntax id d r) = d).
Proof.
  intros Hauth Hns. unfold app.edit_patient, app.edit_doctor.
  rewrite !login_required_authenticated by exact Hauth.
  unfold app.validate_on_submit, app.patient_form, app.doctor_form, app.body_of.
  rewrite Hns. cbn [andb].
  split; [|split; [|split]].
  - intros p ->. cbn. repeat split. eexists. split; [reflexivity|].
    repeat split; reflexivity.
  - intros x ->. cbn. repeat split. eexists. split; [reflexivity|].
    repeat split; reflexivity.
  - intros _ ->. split; reflexivity.
  - intros _ ->. split; reflexivity.
Qed.

(* ------------------------------------------------------------------ *)
(** ** Appointments: delete, and the text of a date
    (app.py, lines 212, 237, 249, 252-259) *)

(** X21. Deleting a stored appointment redirects to the list, removes the
    appointment of that id alone and leaves the patients and the doctors
    as they were; for an id, within the keys of the store (up to
    [max_int64]), that the table does not hold the answer is 404 and
    nothing is written. *)
Theorem delete_appointment_removes_one_row (d : db.t) (r : request) (id : Z) :
  app.is_authenticated d r = true ->
  let o := app.delete_appointment id d r in
  (id <= max_int64 -> query_get Appointment.id id (db.appointments d) = None ->
   reply o = abort 404 /\ store o = d) /\
  (forall a, query_get Appointment.id id (db.appointments d) = Some a ->
     reply o = redirect Appointments /\
     flashed o = [("Приём удалён!", "warning")] /\
     db.patients (store o) = db.patients d /\
     db.doctors (store o) = db.doctors d /\
     db.admin_users (store o) = db.admin_users d /\
     (forall x, In x (db.appointments (store o)) <->
                In x (db.appointments d) /\ Appointment.id x <> id) /\
     forall j, j <> id ->
       query_get Appointment.id j (db.appointments (store o)) =
       query_get Appointment.id j (db.appointments d)).
Proof.
  intros Hauth o. subst o. unfold app.delete_appointment.
  rewrite login_required_authenticated by exact Hauth. split.
  - intros _ ->. split; reflexivity.
  - intros a Hget. rewrite Hget.
    destruct (query_get_rowid _ _ _ _ Hget) as [Hid _]. rewrite Hid.
    cbn [reply flashed store db.patients db.doctors db.admin_users db.appointments
         db.with_appointments].
    repeat split; try reflexivity.
    + apply in_delete_row in H. tauto.
    + apply in_delete_row in H. tauto.
    + intros [Hin Hne]. apply in_delete_row. tauto.
    + intros j Hj. apply query_get_delete_row_other. exact Hj.
Qed.

(** X22. What [strptime] reads under ['%Y-%m-%d %H:%M'] is a date of the
    calendar at a time of the day on a whole minute.  The text [strftime]
    writes for it under the same format is read back as the same value
    when the year is 1000 or more, and is refused when the year is below
    1000, [strftime] not padding the year that [strptime] wants on four
    digits. *)
Theorem strptime_reads_what_strftime_writes (s : string) (x : datetime.t) :
  strptime s = Some x ->
  datetime.valid x = true /\
  datetime.second x = 0 /\ datetime.microsecond x = 0 /\
  (1000 <= datetime.year x -> strptime (strftime x) = Some x) /\
  (datetime.year x < 1000 -> strptime (strftime x) = None).
Proof.
  intros H. destruct (strptime_valid s x H) as [Hv [Hs Hu]].
  split; [exact Hv|]. split; [exact Hs|]. split; [exact Hu|]. split.
  - intros Hy. apply strptime_strftime; assumption.
  - intros Hy. apply strptime_strftime_short_year; assumption.
Qed.

(* ------------------------------------------------------------------ *)
(** ** Add, then list *)

Lemma nth_error_last {A : Type} (l : list A) (x : A) :
  nth_error (l ++ [x]) (List.length l) = Some x.
Proof.
  rewrite nth_error_app2 by apply Nat.le_refl. rewrite Nat.sub_diag. reflexivity.
Qed.

Section Listed.
Variable email_syntax : string -> bool.
Variable d : db.t.
Variable r r' : request.
Hypothesis authenticated : app.is_authenticated d r = true.
Hypothesis authenticated' : app.is_authenticated d r' = true.

(** X23. A patient that the add view has saved is the last of the list:
    with [n] patients in the table before, the list shows the new patient
    at position [n mod 10] of page [n / 10 + 1], under the next id and
    with the submitted name, and counts [n + 1] patients.  The same holds
    of a doctor. *)
Theorem added_rows_are_listed_last :
  (app.validate_on_submit r
     (PatientForm.errors (app.patient_form email_syntax None r)) = true ->
   let d' := store (app.add_patient email_syntax d r) in
   let n := List.length (db.patients d) in
   app.page_arg r' = Z.of_nat (n / 10) + 1 ->
   exists t pg p,
     reply (app.patients d' r') = render_template t (patients_page pg) /\
     nth_error (Pagination.items pg) (n mod 10) = Some p /\
     Patient.id p = next_rowid Patient.id (db.patients d) /\
     Some (Patient.full_name p) = PatientForm.fd_full_name (patient_formdata r) /\
     Pagination.total pg = Z.of_nat n + 1) /\
  (app.validate_on_submit r
     (DoctorForm.errors (app.doctor_form email_syntax None r)) = true ->
   let d' := store (app.add_doctor email_syntax d r) in
   let n := List.length (db.doctors d) in
   app.page_arg r' = Z.of_nat (n / 10) + 1 ->
   exists t pg x,
     reply (app.doctors d' r') = render_template t (doctors_page pg) /\
     nth_error (Pagination.items pg) (n mod 10) = Some x /\
     Doctor.id x = next_rowid Doctor.id (db.doctors d) /\
     Some (Doctor.full_name x) = DoctorForm.fd_full_name (doctor_formdata r) /\
     Pagination.total pg = Z.of_nat n + 1).
Proof.
  split.
  - intros Hv d' n Hpage. subst d' n.
    pose proof (validate_on_submit_submitted _ _ Hv) as Hs.
    destruct (patient_form_accepted email_syntax None r Hv) as [nm [ph [Hn [Hph _]]]].
    unfold app.add_patient. rewrite login_required_authenticated by exact authenticated.
    rewrite Hv, Hn, Hph. cbn [store].
    rewrite insert_row_last
      by (intros a Ha; cbn [Patient.id]; apply rowid_lt_next; exact Ha).
    unfold app.patients. rewrite login_required_authenticated by exact authenticated'.
    cbn [db.patients db.with_patients].
    match goal with
    | |- context [paginate (db.patients d ++ [?p])] =>
        destruct (nth_error_page _ _ _ _ (nth_error_last (db.patients d) p) Hpage)
          as [pg [Hp Hi]]
    end.
    rewrite Hp. do 3 eexists. split; [reflexivity|]. split; [exact Hi|].
    cbn [Patient.id Patient.full_name]. split; [reflexivity|]. split.
    + destruct (patient_form_fields email_syntax None r Hs) as [F1 _].
      rewrite F1 in Hn. cbn [option_map] in Hn. rewrite text_field_none in Hn.
      symmetry. exact Hn.
    + rewrite (paginate_total _ _ _ _ Hp), length_app. cbn [List.length]. lia.
  - intros Hv d' n Hpage. subst d' n.
    pose proof (validate_on_submit_submitted _ _ Hv) as Hs.
    destruct (doctor_form_accepted email_syntax None r Hv)
      as [nm [sp [ph [Hn [Hsp [Hph _]]]]]].
    unfold app.add_doctor. rewrite login_required_authenticated by exact authenticated.
    rewrite Hv, Hn, Hsp, Hph. cbn [store].
    rewrite insert_row_last
      by (intros a Ha; cbn [Doctor.id]; apply rowid_lt_next; exact Ha).
    unfold app.doctors. rewrite login_required_authenticated by exact authenticated'.
    cbn [db.doctors db.with_doctors].
    match goal with
    | |- context [paginate (db.doctors d ++ [?x])] =>
        destruct (nth_error_page _ _ _ _ (nth_error_last (db.doctors d) x) Hpage)
          as [pg [Hp Hi]]
    end.
    rewrite Hp. do 3 eexists. split; [reflexivity|]. split; [exact Hi|].
    cbn [Doctor.id Doctor.full_name]. split; [reflexivity|]. split.
    + destruct (doctor_form_fields email_syntax None r Hs) as [F1 _].
      rewrite F1 in Hn. cbn [option_map] in Hn. rewrite text_field_none in Hn.
      symmetry. exact Hn.
    + rewrite (paginate_total _ _ _ _ Hp), length_app. cbn [List.length]. lia.
Qed.
End Listed.

(** X24. An appointment that the add view has saved is listed: it stands
    at some position [i] of the appointments put newest first, and the
    list shows it at position [i mod 10] of page [i / 10 + 1], under the
    next id and with the date read from the submitted text. *)
Theorem added_appointment_is_listed (d : db.t) (r : request) (s : string)
    (dt : datetime.t) :
  app.is_authenticated d r = true ->
  app.validate_on_submit r
    (AppointmentForm.errors (app.appointment_form d None r)) = true ->
  AppointmentForm.fd_appointment_date (appointment_formdata r) = Some s ->
  strptime s = Some dt ->
  let d' := store (app.add_appointment d r) in
  exists a i,
    Appointment.id a = next_rowid Appointment.id (db.appointments d) /\
    Appointment.appointment_date a = dt /\
    forall r', app.is_authenticated d r' = true ->
      app.page_arg r' = Z.of_nat (i / 10) + 1 ->
      exists t pg,
        reply (app.appointments d' r') = render_template t (appointments_page pg) /\
        nth_error (Pagination.items pg) (i mod 10) = Some a /\
        Pagination.total pg = Z.of_nat (List.length (db.appointments d)) + 1.
Proof.
  intros Hauth Hv Hfd Hdt d'. subst d'.
  pose proof (validate_on_submit_submitted _ _ Hv) as Hs.
  destruct (keeps_entered_values_form d None r Hs) as [_ [_ [Hd _]]].
  specialize (Hd s Hfd).
  pose proof (appointment_form_accepted d None r Hv) as Hacc. cbv zeta in Hacc.
  destruct Hacc as [_ [[p [Hp _]] [[q [Hq _]] [st [Hst _]]]]].
  unfold app.add_appointment. rewrite login_required_authenticated by exact Hauth.
  rewrite Hv, Hd, Hdt, Hp, Hq, Hst. cbn [store]. unfold app.insert_appointment.
  cbn [Appointment.status Appointment.patient_id Appointment.doctor_id
       Appointment.appointment_date].
  set (a := Appointment.mk (next_rowid Appointment.id (db.appointments d)) p q dt (Some st)).
  assert (Hin : In a (order_by_date_desc (insert_row Appointment.id a (db.appointments d)))).
  { apply in_order_by_date_desc. apply in_insert_row. left. reflexivity. }
  apply In_nth_error in Hin. destruct Hin as [i Hi].
  exists a, i. split; [reflexivity|]. split; [reflexivity|].
  intros r' Hauth' Hpage. unfold app.appointments.
  rewrite login_required_authenticated by exact Hauth'.
  cbn [db.appointments db.with_appointments].
  destruct (nth_error_page _ _ _ _ Hi Hpage) as [pg [Hpg Hnth]].
  rewrite Hpg. do 2 eexists. split; [reflexivity|]. split; [exact Hnth|].
  rewrite (paginate_total _ _ _ _ Hpg).
  rewrite (Permutation_length (order_by_date_desc_permutation _)).
  rewrite insert_row_last
    by (intros x Hx; cbn [Appointment.id a]; apply rowid_lt_next; exact Hx).
  rewrite length_app. cbn [List.length]. lia.
Qed.

(* ------------------------------------------------------------------ *)
(** ** The further properties on the sample store *)

Lemma X2_witness :
  let rs := [post_patient AddPatient sample_patient_body;
             request_to POST (DeletePatient 2) (Some 1)] in
  NoDup (patient_ids
           (app.serve sample_check_password_hash sample_generate_password_hash
              sample_email_syntax sample_db rs)).
Proof.
  intros rs.
  exact (proj1 (proj2 (keys_stay_unique sample_check_password_hash
                         sample_generate_password_hash sample_email_syntax
                         sample_db rs eq_refl))).
Defined.

Lemma X3_witness :
  let rs := [request_to POST (DeletePatient 1) (Some 1);
             post_appointment AddAppointment sample_appointment_body] in
  referentially_intactb
    (app.serve sample_check_password_hash sample_generate_password_hash
       sample_email_syntax sample_db rs) = true.
Proof.
  intros rs.
  exact (references_stay_intact sample_check_password_hash
           sample_generate_password_hash sample_email_syntax sample_db rs eq_refl).
Defined.

Lemma X4_witness :
  let rs := [post_patient AddPatient sample_patient_body;
             post_doctor (EditDoctor 1) sample_doctor_body] in
  rows_well_formedb sample_email_syntax
    (app.serve sample_check_password_hash sample_generate_password_hash
       sample_email_syntax sample_db rs) = true.
Proof.
  intros rs.
  exact (rows_stay_well_formed sample_check_password_hash
           sample_generate_password_hash sample_email_syntax sample_db rs eq_refl).
Defined.

Lemma X5_witness :
  let x := datetime.mk 2024 3 5 7 5 0 0 in
  strptime (strftime x) = Some x.
Proof.
  intros x.
  apply (stored_dates_parse_back sample_check_password_hash
           sample_generate_password_hash sample_email_syntax
           sample_db [post_appointment AddAppointment sample_appointment_body]
           (Appointment.mk 3 2 2 x (Some "отменён")) eq_refl
           (or_intror (or_intror (or_introl eq_refl)))).
  vm_compute. discriminate.
Defined.

Lemma X6_witness :
  let r := request_to POST (DeletePatient 2) None in
  store (app.full_dispatch_request sample_check_password_hash
           sample_generate_password_hash sample_email_syntax true sample_db r) =
    sample_db.
Proof.
  intros r.
  exact (only_authenticated_posts_write sample_check_password_hash
           sample_generate_password_hash sample_email_syntax true sample_db r
           (or_introl eq_refl)).
Defined.

Lemma X7_witness :
  let r := post_login "admin" "admin123" in
  reply (app.login sample_check_password_hash sample_db r) = redirect Dashboard /\
  session (app.login sample_check_password_hash sample_db r) = Some 1.
Proof.
  intros r.
  destruct (login_opens_a_session sample_check_password_hash sample_db r
              "admin" "admin123"
              (AdminUser.mk 1 "admin" (sample_generate_password_hash "admin123"))
              eq_refl eq_refl eq_refl eq_refl eq_refl eq_refl eq_refl eq_refl)
    as [Hr [Hs _]].
  split; [exact Hr | exact Hs].
Defined.

Lemma X8_witness :
  let r := post_login "admin" "guess" in
  store (app.login sample_check_password_hash sample_db r) = sample_db.
Proof.
  intros r.
  exact (proj1 (login_needs_the_password sample_check_password_hash sample_db r
                  eq_refl)).
Defined.

Lemma X9_witness :
  let r := request_to GET Logout (Some 1) in
  reply (app.logout sample_db r) = redirect Login /\
  session (app.logout sample_db r) = None.
Proof.
  intros r.
  destruct (logout_closes_the_session sample_check_password_hash sample_email_syntax
              sample_db r eq_refl) as [Hr [Hs _]].
  split; [exact Hr | exact Hs].
Defined.

Lemma X10_witness :
  let d := app.create_admin sample_generate_password_hash db.empty in
  List.length (db.admin_users d) = 1%nat /\
  reply (app.login sample_check_password_hash d (post_login "admin" "admin123")) =
    redirect Dashboard.
Proof.
  intros d.
  destruct (create_admin_bootstraps sample_check_password_hash
              sample_generate_password_hash (fun password => String.eqb_refl _)
              db.empty (post_login "admin" "admin123"))
    as [_ [_ [_ [_ [_ H]]]]].
  destruct (H eq_refl) as [Hlen Hlogin].
  split; [exact Hlen | exact (Hlogin eq_refl eq_refl eq_refl eq_refl)].
Defined.

Lemma X11_witness :
  let r := post_patient AddPatient sample_patient_body in
  reply (app.add_patient sample_email_syntax sample_db r) = redirect Patients.
Proof.
  intros r.
  exact (proj1 (add_patient_appends sample_email_syntax sample_db r eq_refl eq_refl)).
Defined.

Lemma X12_witness :
  let r := post_doctor AddDoctor sample_doctor_body in
  reply (app.add_doctor sample_email_syntax sample_db r) = redirect Doctors.
Proof.
  intros r.
  exact (proj1 (add_doctor_appends sample_email_syntax sample_db r eq_refl eq_refl)).
Defined.

Lemma X13_witness :
  let r := post_patient (EditPatient 2) sample_patient_body in
  reply (app.edit_patient sample_email_syntax 2 sample_db r) = redirect Patients.
Proof.
  intros r.
  destruct (edit_patient_replaces_one_row sample_email_syntax sample_db r 2 eq_refl)
    as [_ H].
  exact (proj1 (H _ eq_refl eq_refl)).
Defined.

Lemma X14_witness :
  let r := request_to POST (DeletePatient 1) (Some 1) in
  reply (app.delete_patient 1 sample_db r) = abort 500 /\
  store (app.delete_patient 1 sample_db r) = sample_db.
Proof.
  intros r.
  destruct (delete_spares_named_rows sample_db r 1 eq_refl) as [H _].
  destruct (H _ eq_refl) as [Hnamed _].
  apply Hnamed.
  exists (Appointment.mk 1 1 1 (datetime.mk 2024 3 15 14 30 0 0) (Some "запланирован")).
  split; [left; reflexivity | reflexivity].
Defined.

Lemma X15_witness :
  let r := get_page Appointments 1 in
  let p := Pagination.mk (db.appointments sample_db) 1 10 2 in
  descendingb (map Appointment.appointment_date (Pagination.items p)) = true /\
  Pagination.total p = 2.
Proof.
  intros r p.
  destruct (appointments_are_listed_newest_first sample_db r eq_refl
              "admin/appointments.html" p eq_refl)
    as [sorted [_ [_ [_ [_ [Hd [Ht _]]]]]]].
  split; [exact Hd | exact Ht].
Defined.

Lemma X16_witness :
  reply (app.patients sample_db (get_page Patients 2)) = abort 404 /\
  reply (app.patients sample_db (get_page Patients 922337203685477582)) = abort 500.
Proof.
  split.
  - apply (proj1 (list_pages_end_with_the_table sample_db (get_page Patients 2)
                    eq_refl)).
    right. unfold past_the_end. vm_compute. repeat split; discriminate.
  - apply (proj1 (proj2 (list_pages_end_with_the_table sample_db
                           (get_page Patients 922337203685477582) eq_refl))).
    unfold past_the_end. vm_compute. repeat split; discriminate.
Defined.

Lemma X17_witness :
  let r := get_page Patients 1 in
  exists t pg,
    reply (app.patients sample_db r) = render_template t (patients_page pg) /\
    option_map Patient.id (nth_error (Pagination.items pg) 1) = Some 2.
Proof.
  intros r.
  destruct (proj1 (every_row_is_on_its_page sample_db r eq_refl 1%nat eq_refl)
              _ eq_refl) as [t [pg [Hr Hn]]].
  exists t, pg. split; [exact Hr|]. exact (f_equal (option_map Patient.id) Hn).
Defined.

Lemma X18_witness :
  let r := post_patient AddPatient
             (PatientForm.mk_formdata (Some "   ") (Some "+7 900 555")
                (Some "petr@example.org") (Some "1979-02-30") None) in
  let f := app.patient_form sample_email_syntax None r in
  store (app.add_patient sample_email_syntax sample_db r) = sample_db /\
  In ("full_name", Required) (PatientForm.errors f) /\
  In ("birth_date", NotAValidDate) (PatientForm.errors f).
Proof.
  intros r f.
  destruct (add_patient_refuses_bad_input sample_email_syntax sample_db r
              eq_refl eq_refl)
    as [Hshown [_ [Hname [_ [_ [_ [_ [_ [Hdate _]]]]]]]]].
  split; [|split].
  - apply Hshown. discriminate.
  - exact (Hname eq_refl).
  - exact (Hdate _ eq_refl eq_refl).
Defined.

Lemma X19_witness :
  let r := post_doctor AddDoctor
             (DoctorForm.mk_formdata (Some "Vera Belova") None (Some "+7 900 666")
                (Some "vera@clinic.example")
                (Some "room 21, second floor, left wing")) in
  let f := app.doctor_form sample_email_syntax None r in
  store (app.add_doctor sample_email_syntax sample_db r) = sample_db /\
  In ("specialty", Required) (DoctorForm.errors f) /\
  In ("room", TooLong) (DoctorForm.errors f).
Proof.
  intros r f.
  destruct (add_doctor_refuses_bad_input sample_email_syntax sample_db r
              eq_refl eq_refl)
    as [Hshown [_ [_ [_ [Hsp [_ [_ [_ [_ [_ Hroom]]]]]]]]]].
  split; [|split].
  - apply Hshown. discriminate.
  - exact (Hsp eq_refl).
  - exact (Hroom eq_refl).
Defined.

Lemma X20_witness :
  let r := request_to GET (EditPatient 1) (Some 1) in
  store (app.edit_patient sample_email_syntax 1 sample_db r) = sample_db /\
  flashed (app.edit_patient sample_email_syntax 1 sample_db r) = [].
Proof.
  intros r.
  destruct (edit_forms_show_the_stored_row sample_email_syntax sample_db r 1
              eq_refl eq_refl) as [H _].
  destruct (H _ eq_refl) as [Hs [Hf _]].
  split; [exact Hs | exact Hf].
Defined.

Lemma X21_witness :
  let r := request_to POST (DeleteAppointment 1) (Some 1) in
  reply (app.delete_appointment 1 sample_db r) = redirect Appointments /\
  db.patients (store (app.delete_appointment 1 sample_db r)) = db.patients sample_db.
Proof.
  intros r.
  destruct (delete_appointment_removes_one_row sample_db r 1 eq_refl) as [_ H].
  destruct (H _ eq_refl) as [Hr [_ [Hp _]]].
  split; [exact Hr | exact Hp].
Defined.

Lemma X22_witness :
  let x := datetime.mk 987 3 5 7 5 0 0 in
  strptime "0987-03-05 07:05" = Some x /\
  strftime x = "987-03-05 07:05" /\
  strptime (strftime x) = None.
Proof.
  intros x. split; [reflexivity|]. split; [reflexivity|].
  destruct (strptime_reads_what_strftime_writes "0987-03-05 07:05" x eq_refl)
    as [_ [_ [_ [_ H]]]].
  apply H. reflexivity.
Defined.

Lemma X23_witness :
  let r := post_patient AddPatient sample_patient_body in
  let d' := store (app.add_patient sample_email_syntax sample_db r) in
  exists t pg p,
    reply (app.patients d' (get_page Patients 1)) =
      render_template t (patients_page pg) /\
    nth_error (Pagination.items pg) 2 = Some p /\
    Patient.id p = 3 /\ Patient.full_name p = "Petr Ivanov".
Proof.
  intros r d'.
  destruct (proj1 (added_rows_are_listed_last sample_email_syntax sample_db r
                     (get_page Patients 1) eq_refl eq_refl) eq_refl eq_refl)
    as [t [pg [p [Hr [Hn [Hid [Hname _]]]]]]].
  exists t, pg, p. split; [exact Hr|]. split; [exact Hn|]. split; [exact Hid|].
  injection Hname as Hname. exact Hname.
Defined.

Lemma X24_witness :
  let r := post_appointment AddAppointment sample_appointment_body in
  exists a,
    Appointment.id a = 3 /\
    Appointment.appointment_date a = datetime.mk 2024 3 5 7 5 0 0.
Proof.
  intros r.
  destruct (added_appointment_is_listed sample_db r "2024-3-5 7:05"
              (datetime.mk 2024 3 5 7 5 0 0) eq_refl eq_refl eq_refl eq_refl)
    as [a [i [Hid [Hdate _]]]].
  exists a. split; [exact Hid | exact Hdate].
Defined.

(* ------------------------------------------------------------------ *)
(** ** Editing a doctor, and the counts of the dashboard
    (app.py, lines 89-100, 175-185) *)

(** X25. Editing a stored doctor with a form that validates redirects to
    the list and replaces the row of that id alone: the id stays, a field
    the body holds takes the submitted text, a field the body leaves out
    keeps the stored value, and the rows of the other ids are as they
    were.  For an id, within the keys of the store (up to [max_int64]),
    that the table does not hold the answer is 404 and nothing is
    written. *)
Theorem edit_doctor_replaces_one_row (email_syntax : string -> bool)
    (d : db.t) (r : request) (id : Z) :
  app.is_authenticated d r = true ->
  let o := app.edit_doctor email_syntax id d r in
  (id <= max_int64 -> query_get Doctor.id id (db.doctors d) = None ->
   reply o = abort 404 /\ store o = d) /\
  (forall old,
     query_get Doctor.id id (db.doctors d) = Some old ->
     app.validate_on_submit r
       (DoctorForm.errors (app.doctor_form email_syntax (Some old) r)) = true ->
     reply o = redirect Doctors /\
     exists x,
       store o = db.with_doctors (update_row Doctor.id x (db.doctors d)) d /\
       query_get Doctor.id id (db.doctors (store o)) = Some x /\
       Doctor.id x = id /\
       Doctor.full_name x =
         match DoctorForm.fd_full_name (doctor_formdata r) with
         | Some s => s
         | None => Doctor.full_name old
         end /\
       Doctor.specialty x =
         match DoctorForm.fd_specialty (doctor_formdata r) with
         | Some s => s
         | None => Doctor.specialty old
         end /\
       Doctor.phone x =
         match DoctorForm.fd_phone (doctor_formdata r) with
         | Some s => s
         | None => Doctor.phone old
         end /\
       Doctor.email x =
         match DoctorForm.fd_email (doctor_formdata r) with
         | Some s => Some s
         | None => Doctor.email old
         end /\
       Doctor.room x =
         match DoctorForm.fd_room (doctor_formdata r) with
         | Some s => Some s
         | None => Doctor.room old
         end /\
       doctor_ids (store o) = doctor_ids d /\
       forall j, j <> id ->
         query_get Doctor.id j (db.doctors (store o)) =
         query_get Doctor.id j (db.doctors d)).
Proof.
  intros Hauth o. subst o. unfold app.edit_doctor.
  rewrite login_required_authenticated by exact Hauth. split.
  - intros _ ->. split; reflexivity.
  - intros old Hget Hv. rewrite Hget.
    pose proof (validate_on_submit_submitted _ _ Hv) as Hs.
    destruct (doctor_form_accepted email_syntax (Some old) r Hv)
      as [n [sp [ph [Hn [Hsp [Hph _]]]]]].
    destruct (query_get_rowid _ _ _ _ Hget) as [Hid _].
    rewrite Hv, Hn, Hsp, Hph. cbn [reply store]. split; [reflexivity|].
    eexists. split; [reflexivity|].
    cbn [db.doctors db.with_doctors]. split; [|split; [exact Hid|]].
    + rewrite <- Hid at 1.
      apply (query_get_update_row Doctor.id
               (Doctor.mk (Doctor.id old) n sp ph _ _) _ old).
      cbn [Doctor.id]. rewrite Hid. exact Hget.
    + destruct (doctor_form_fields email_syntax (Some old) r Hs)
        as [F1 [F2 [F3 [F4 F5]]]].
      cbn [Doctor.full_name Doctor.specialty Doctor.phone Doctor.email Doctor.room].
      rewrite F1 in Hn. rewrite F2 in Hsp. rewrite F3 in Hph. rewrite F4, F5.
      cbn [option_map] in *. unfold text_field in *.
      split; [|split; [|split; [|split; [reflexivity|split; [reflexivity|split]]]]].
      * destruct (DoctorForm.fd_full_name _); congruence.
      * destruct (DoctorForm.fd_specialty _); congruence.
      * destruct (DoctorForm.fd_phone _); congruence.
      * unfold doctor_ids. apply map_rowid_update_row.
      * intros j Hj. apply query_get_update_row_other.
        cbn [Doctor.id]. congruence.
Qed.

(** X26. The counts of the dashboard agree with the lists: the numbers
    of patients, doctors and appointments are the totals that the pages
    of the three lists carry, and the count of today's appointments lies
    between 0 and the number of appointments. *)
Theorem dashboard_counts_agree_with_the_lists (d : db.t) (r : request) :
  app.is_authenticated d r = true ->
  exists s,
    reply (app.dashboard d r) =
      render_template "admin/dashboard.html" (dashboard_page s) /\
    0 <= stats.today_appointments s <= stats.appointments s /\
    (forall r' t pg,
       reply (app.patients d r') = render_template t (patients_page pg) ->
       Pagination.total pg = stats.patients s) /\
    (forall r' t pg,
       reply (app.doctors d r') = render_template t (doctors_page pg) ->
       Pagination.total pg = stats.doctors s) /\
    (forall r' t pg,
       reply (app.appointments d r') = render_template t (appointments_page pg) ->
       Pagination.total pg = stats.appointments s).
Proof.
  intros Hauth. unfold app.dashboard.
  rewrite login_required_authenticated by exact Hauth.
  eexists. split; [reflexivity|].
  cbn [stats.today_appointments stats.appointments stats.patients stats.doctors].
  split; [|split; [|split]].
  - split; [apply Nat2Z.is_nonneg|]. apply Nat2Z.inj_le. apply filter_length_le.
  - intros r' t pg. unfold app.patients, app.login_required.
    destruct (app.is_authenticated d r'); [|discriminate].
    destruct (paginate _ _ _) as [q|] eqn:Hp; [|discriminate].
    intros [= _ <-]. exact (paginate_total _ _ _ _ Hp).
  - intros r' t pg. unfold app.doctors, app.login_required.
    destruct (app.is_authenticated d r'); [|discriminate].
    destruct (paginate _ _ _) as [q|] eqn:Hp; [|discriminate].
    intros [= _ <-]. exact (paginate_total _ _ _ _ Hp).
  - intros r' t pg. unfold app.appointments, app.login_required.
    destruct (app.is_authenticated d r'); [|discriminate].
    destruct (paginate _ _ _) as [q|] eqn:Hp; [|discriminate].
    intros [= _ <-]. rewrite (paginate_total _ _ _ _ Hp).
    rewrite (Permutation_length (order_by_date_desc_permutation _)). reflexivity.
Qed.

Lemma X25_witness :
  let r := post_doctor (EditDoctor 1)
             (DoctorForm.mk_formdata None (Some "cardiologist") None None None) in
  reply (app.edit_doctor sample_email_syntax 1 sample_db r) = redirect Doctors /\
  option_map Doctor.full_name
    (query_get Doctor.id 1
       (db.doctors (store (app.edit_doctor sample_email_syntax 1 sample_db r)))) =
    Some "Anna Sidorova".
Proof.
  intros r.
  destruct (edit_doctor_replaces_one_row sample_email_syntax sample_db r 1 eq_refl)
    as [_ H].
  destruct (H _ eq_refl eq_refl) as [Hr [x [_ [Hget [_ [Hname _]]]]]].
  split; [exact Hr|]. rewrite Hget. cbn [option_map]. rewrite Hname. reflexivity.
Defined.

Lemma X26_witness :
  let r := request_to GET Dashboard (Some 1) in
  exists s,
    reply (app.dashboard sample_db r) =
      render_template "admin/dashboard.html" (dashboard_page s) /\
    0 <= stats.today_appointments s <= stats.appointments s.
Proof.
  intros r.
  destruct (dashboard_counts_agree_with_the_lists sample_db r eq_refl)
    as [s [Hr [Hc _]]].
  exists s. split; [exact Hr | exact Hc].
Defined.
